(** * fastNLP [core/dataset/dataset.py]: the column store and the apply engine

    A shallow embedding of [DataSet], [_apply_single], [_progress_bar] and
    the apply family, followed by the properties of the parallel
    transformation engine and of the column store.

    Conventions of the embedding:
    - Python [int] is [Z]; [//] and [%] are [Z.div] and [Z.modulo], which
      round like Python's (towards minus infinity, sign of the divisor).
    - A [dict] is an association list in insertion order; Python keeps the
      keys distinct, which theorems ask for with [NoDup] where it matters.
    - A raised exception is the [Err] result; a mutating method returns the
      object as it is left together with that result, so a method that
      raises half way shows what it had already written.
    - The user function is a total function of its argument returning a
      value or an exception: it neither blocks nor touches the dataset. *)

From Stdlib Require Import ZArith List String Bool Lia Permutation.
Import ListNotations.
Local Open Scope string_scope.
Local Open Scope list_scope.
Local Open Scope Z_scope.

Set Warnings "-register-all".

(** * Part I: the embedding *)

(** ** Python values, exceptions and results *)

Inductive pyval : Type :=
| VNone
| VInt (n : Z)
| VStr (s : string)
| VList (l : list pyval)
| VDict (d : list (string * pyval)).

Inductive exn : Type :=
| AssertionError
| ValueError
| RuntimeError
| IndexError
| KeyError (key : string)
| TypeError
| AttributeError
| ZeroDivisionError
| PlainException (msg : string)
| ApplyResultException (msg : string) (index : Z)
| UserError (code : Z).

Inductive py (A : Type) : Type :=
| Ok (a : A)
| Err (e : exn).
Arguments Ok {A} a.
Arguments Err {A} e.

Definition py_bind {A B} (m : py A) (k : A -> py B) : py B :=
  match m with
  | Ok a => k a
  | Err e => Err e
  end.

Definition is_ok {A} (m : py A) : bool :=
  match m with Ok _ => true | Err _ => false end.

(** ** Lists and dicts as Python has them *)

Module Py.

(** [range(n)]: empty when [n <= 0]. *)
Definition range (n : Z) : list Z := map Z.of_nat (seq 0 (Z.to_nat n)).

Definition len {A} (l : list A) : Z := Z.of_nat (List.length l).

(** Position of [l[i]]: a negative index counts from the end. *)
Definition norm_index (n i : Z) : option nat :=
  let j := if i <? 0 then i + n else i in
  if (0 <=? j) && (j <? n) then Some (Z.to_nat j) else None.

(** [l[i]] *)
Definition getitem {A} (l : list A) (i : Z) : py A :=
  match norm_index (len l) i with
  | Some p => match nth_error l p with
              | Some x => Ok x
              | None => Err IndexError
              end
  | None => Err IndexError
  end.

(** [l.pop(i)]: the list left; the popped value is not used by the callers. *)
Definition pop {A} (l : list A) (i : Z) : py (list A) :=
  match norm_index (len l) i with
  | Some p => Ok (firstn p l ++ skipn (S p) l)
  | None => Err IndexError
  end.

(** Bound of a slice with step [None] (what [slice.indices] computes). *)
Definition slice_bound (n : Z) (b : option Z) (dflt : Z) : Z :=
  match b with
  | None => dflt
  | Some i => if i <? 0 then Z.max (i + n) 0 else Z.min i n
  end.

(** [l[start:stop]] *)
Definition slice {A} (l : list A) (start stop : option Z) : list A :=
  let s := slice_bound (len l) start 0 in
  let e := slice_bound (len l) stop (len l) in
  firstn (Z.to_nat (e - s)) (skipn (Z.to_nat s) l).

(** A dict with string keys, in insertion order. *)
Definition dict (V : Type) : Type := list (string * V).

Definition keys {V} (d : dict V) : list string := map fst d.
Definition values {V} (d : dict V) : list V := map snd d.

Fixpoint get {V} (k : string) (d : dict V) : option V :=
  match d with
  | [] => None
  | (k', v) :: rest => if String.eqb k k' then Some v else get k rest
  end.

Definition mem {V} (k : string) (d : dict V) : bool :=
  match get k d with Some _ => true | None => false end.

(** [d[k] = v]: an existing key keeps its place, a new one goes last. *)
Fixpoint set {V} (k : string) (v : V) (d : dict V) : dict V :=
  match d with
  | [] => [(k, v)]
  | (k', v') :: rest =>
      if String.eqb k k' then (k', v) :: rest else (k', v') :: set k v rest
  end.

(** The dict without the key [k] (what [d.pop(k)] leaves). *)
Fixpoint remove {V} (k : string) (d : dict V) : dict V :=
  match d with
  | [] => []
  | (k', v') :: rest =>
      if String.eqb k k' then rest else (k', v') :: remove k rest
  end.

(** [len(set(a) - set(b))] is non-zero: some key of [a] is not in [b]. *)
Definition set_diff_nonempty (a b : list string) : bool :=
  existsb (fun k => negb (existsb (String.eqb k) b)) a.

End Py.

(** ** The data model *)

(** Modelled from the spec: the class [FieldArray] is defined in
    [field.py], which is not among the sources.  The spec's column is "one
    named, ordered sequence of values"; the constructor
    [FieldArray(name, content)], [append], [pop], [len] and indexing are
    those of the underlying sequence. *)
Record FieldArray : Type := mkFieldArray { name : string; content : list pyval }.

Definition fa_len (f : FieldArray) : Z := Py.len (content f).
Definition fa_append (f : FieldArray) (v : pyval) : FieldArray :=
  mkFieldArray (name f) (content f ++ [v]).
Definition fa_pop (f : FieldArray) (index : Z) : py FieldArray :=
  py_bind (Py.pop (content f) index) (fun c => Ok (mkFieldArray (name f) c)).
Definition fa_getitem (f : FieldArray) (idx : Z) : py pyval :=
  Py.getitem (content f) idx.
Definition fa_rename (f : FieldArray) (n : string) : FieldArray :=
  mkFieldArray n (content f).

(** Modelled from the spec: the class [Instance] is defined in
    [instance.py], which is not among the sources.  The spec's row is "a
    mapping from field name to that row's value"; [fields] is that mapping,
    [items()] lists it and indexing by a name looks it up. *)
Record Instance : Type := mkInstance { fields : Py.dict pyval }.

Definition ins_items (i : Instance) : list (string * pyval) := fields i.
Definition ins_getitem (i : Instance) (k : string) : py pyval :=
  match Py.get k (fields i) with
  | Some v => Ok v
  | None => Err (KeyError k)
  end.

(** [DataSet]: [field_arrays] is the column store.  The collator attached
    to the container plays no part in the operations below. *)
Record DataSet : Type := mkDataSet { field_arrays : Py.dict FieldArray }.

(** [DataSet.__len__] *)
Definition __len__ (self : DataSet) : Z :=
  match field_arrays self with
  | [] => 0
  | (_, field) :: _ => fa_len field
  end.

(** [DataSet.has_field] *)
Definition has_field (self : DataSet) (field_name : string) : bool :=
  Py.mem field_name (field_arrays self).

(** [DataSet.get_field] *)
Definition get_field (self : DataSet) (field_name : string) : py FieldArray :=
  match Py.get field_name (field_arrays self) with
  | Some f => Ok f
  | None => Err (KeyError field_name)
  end.

(** [DataSet.add_field]: the length is checked only when a column exists. *)
Definition add_field (self : DataSet) (field_name : string) (flds : list pyval)
  : DataSet * py unit :=
  if negb (Py.len (field_arrays self) =? 0) && negb (__len__ self =? Py.len flds)
  then (self, Err RuntimeError)
  else (mkDataSet (Py.set field_name (mkFieldArray field_name flds) (field_arrays self)),
        Ok tt).

(** [DataSet.add_fieldarray] *)
Definition add_fieldarray (self : DataSet) (field_name : string) (fieldarray : FieldArray)
  : DataSet * py unit :=
  if negb (__len__ self =? fa_len fieldarray)
  then (self, Err RuntimeError)
  else (mkDataSet (Py.set field_name (fa_rename fieldarray field_name) (field_arrays self)),
        Ok tt).

(** The branch of [DataSet.__getitem__] at an [int]: the row as an
    [Instance]. *)
Fixpoint row_of (cols : Py.dict FieldArray) (idx : Z) : py (Py.dict pyval) :=
  match cols with
  | [] => Ok []
  | (nm, f) :: rest =>
      py_bind (fa_getitem f idx) (fun v =>
      py_bind (row_of rest idx) (fun r => Ok ((nm, v) :: r)))
  end.

Definition getitem_int (self : DataSet) (idx : Z) : py Instance :=
  py_bind (row_of (field_arrays self) idx) (fun r => Ok (mkInstance r)).

(** The branch of [DataSet.__getitem__] at a [slice]: a new dataset filled
    column by column through [add_field]. *)
Fixpoint slice_fill (data_set : DataSet) (cols : Py.dict FieldArray)
  (start stop : option Z) : py DataSet :=
  match cols with
  | [] => Ok data_set
  | (field_name, field) :: rest =>
      match add_field data_set field_name (Py.slice (content field) start stop) with
      | (d, Ok _) => slice_fill d rest start stop
      | (_, Err e) => Err e
      end
  end.

Definition getitem_slice (self : DataSet) (start stop : option Z) : py DataSet :=
  match start with
  | Some s =>
      if (s >=? __len__ self) || (s <=? - __len__ self) then Err RuntimeError
      else slice_fill (mkDataSet []) (field_arrays self) start stop
  | None => slice_fill (mkDataSet []) (field_arrays self) start stop
  end.

(** ** The mutating methods of the store *)

(** [DataSet.append], first branch: every field of the first row seeds a
    one-element column. *)
Fixpoint append_seed (cols : Py.dict FieldArray) (items : list (string * pyval))
  : Py.dict FieldArray :=
  match items with
  | [] => cols
  | (nm, field) :: rest =>
      append_seed (Py.set nm (mkFieldArray nm [field]) cols) rest
  end.

(** [DataSet.append], second branch: [assert name in self.field_arrays] is
    evaluated field by field, after the earlier fields were appended. *)
Fixpoint append_fill (cols : Py.dict FieldArray) (items : list (string * pyval))
  : Py.dict FieldArray * py unit :=
  match items with
  | [] => (cols, Ok tt)
  | (nm, field) :: rest =>
      match Py.get nm cols with
      | None => (cols, Err AssertionError)
      | Some f => append_fill (Py.set nm (fa_append f field) cols) rest
      end
  end.

(** [DataSet.append] *)
Definition append (self : DataSet) (instance : Instance) : DataSet * py unit :=
  if Py.len (field_arrays self) =? 0
  then (mkDataSet (append_seed (field_arrays self) (ins_items instance)), Ok tt)
  else if negb (Py.len (field_arrays self) =? Py.len (fields instance))
  then (self, Err ValueError)
  else let (cols, r) := append_fill (field_arrays self) (ins_items instance) in
       (mkDataSet cols, r).


(** What [DataSet.__getitem__] is indexed with (a slice has no step here)
    and what it returns. *)
Inductive index : Type :=
| AtInt (i : Z)
| AtSlice (start stop : option Z)
| AtStr (s : string)
| AtList (l : list Z).

Inductive item : Type :=
| AnInstance (ins : Instance)
| ADataSet (d : DataSet)
| AField (f : FieldArray).


(** [for field in self.field_arrays.values(): field.pop(index)] *)
Fixpoint pop_all (cols : Py.dict FieldArray) (index : Z) : Py.dict FieldArray * py unit :=
  match cols with
  | [] => ([], Ok tt)
  | (k, f) :: rest =>
      match fa_pop f index with
      | Err e => (cols, Err e)
      | Ok f' => let (rest', r) := pop_all rest index in ((k, f') :: rest', r)
      end
  end.

(** [DataSet.delete_instance] *)
Definition delete_instance (self : DataSet) (index : Z) : DataSet * py unit :=
  if __len__ self <=? index then (self, Err IndexError)
  else if __len__ self =? 1 then (mkDataSet [], Ok tt)
  else let (cols, r) := pop_all (field_arrays self) index in (mkDataSet cols, r).

(** [DataSet.delete_field] *)
Definition delete_field (self : DataSet) (field_name : string) : DataSet * py unit :=
  if has_field self field_name
  then (mkDataSet (Py.remove field_name (field_arrays self)), Ok tt)
  else (self, Err (KeyError field_name)).

(** [DataSet.rename_field]: the column is popped, then stored under the new
    name. *)
Definition rename_field (self : DataSet) (field_name new_field_name : string)
  : DataSet * py unit :=
  match Py.get field_name (field_arrays self) with
  | Some f =>
      (mkDataSet (Py.set new_field_name (fa_rename f new_field_name)
                    (Py.remove field_name (field_arrays self))), Ok tt)
  | None => (self, Err (KeyError field_name))
  end.

(** [field_mapping.get(fn, fn)], [field_mapping] being [None] or a dict. *)
Definition mapping_get (m : option (Py.dict string)) (fn : string) : string :=
  match m with
  | Some d => match Py.get fn d with Some v => v | None => fn end
  | None => fn
  end.

(** [{v: k for k, v in field_mapping.items()}] *)
Definition reverse_mapping (m : option (Py.dict string)) : Py.dict string :=
  match m with
  | Some d => fold_left (fun acc kv => Py.set (snd kv) (fst kv) acc) d []
  | None => []
  end.

(** The loop of [concat] over the field names of this dataset. *)
Fixpoint concat_extend (cols : Py.dict FieldArray) (dataset : DataSet)
  (rev : Py.dict string) (order : list string) : Py.dict FieldArray * py unit :=
  match order with
  | [] => (cols, Ok tt)
  | fn :: rest =>
      match Py.get fn cols with
      | None => (cols, Err (KeyError fn))
      | Some f =>
          match get_field dataset (mapping_get (Some rev) fn) with
          | Err e => (cols, Err e)
          | Ok g =>
              concat_extend
                (Py.set fn (mkFieldArray (name f) (content f ++ content g)) cols)
                dataset rev rest
          end
      end
  end.

(** [DataSet.concat].  The loop runs over a Python [set] of this dataset's
    field names, whose order of iteration is not fixed: [order] is that
    order.  The result is this dataset as it is left and the dataset
    [concat] returns. *)
Definition concat (self dataset : DataSet) (inplace : bool)
  (field_mapping : option (Py.dict string)) (order : list string)
  : DataSet * py DataSet :=
  let fns_in_other_dataset :=
    map (mapping_get field_mapping) (Py.keys (field_arrays dataset)) in
  if Py.set_diff_nonempty (Py.keys (field_arrays self)) fns_in_other_dataset
  then (self, Err RuntimeError)
  else
    let (cols, r) := concat_extend (field_arrays self) dataset
                       (reverse_mapping field_mapping) order in
    match r with
    | Ok _ => if inplace then (mkDataSet cols, Ok (mkDataSet cols))
              else (self, Ok (mkDataSet cols))
    | Err e => if inplace then (mkDataSet cols, Err e) else (self, Err e)
    end.

(** ** The apply engine: worker and monitor *)

(** What [print] writes. *)
Inductive printed : Type :=
| ExceptionAt (idx : Z)         (* Exception happens at the `idx`th instance. *)
| ReducingNumProc (n : Z)       (* num_proc must be <= n. Reducing num_proc ... *)
| Message (msg : string).

Inductive pipe_end : Type := parent_conn | child_conn.

(** The effects of the engine, in the order the running process performs
    them.  [EvCall idx] marks the call of the user function on row [idx]. *)
Inductive event : Type :=
| EvAddTask (description : string) (total : Z) (visible : bool)
| EvUpdate
| EvDestroyTask
| EvCall (idx : Z)
| EvSend (msg : pyval)
| EvPrint (p : printed)
| EvPipe
| EvThreadStart
| EvPool (processes : Z)
| EvApplyAsync (proc_id : Z) (ds : DataSet)
| EvPoolClose
| EvPoolJoin
| EvThreadJoin.

Definition trace : Type := list event.

(** The user function receives a row or the value of one field. *)
Inductive farg : Type :=
| ArgIns (ins : Instance)
| ArgField (v : pyval).

Definition user_func : Type := farg -> py pyval.

(** [desc if desc else "Main"] *)
Definition desc_or_main (desc : option string) : string :=
  match desc with
  | Some s => if String.eqb s "" then "Main" else s
  | None => "Main"
  end.

Definition func_arg (_apply_field : option string) (ins : Instance) : py farg :=
  match _apply_field with
  | Some f => py_bind (ins_getitem ins f) (fun v => Ok (ArgField v))
  | None => Ok (ArgIns ins)
  end.

(** The [for idx, ins in enumerate(ds)] loop of [_apply_single].  [idx] is
    the Python variable of that name: it is bound once the row was read.
    The result carries its final value for the [except] clause. *)
Fixpoint single_loop (ds : DataSet) (_apply_field : option string) (func : user_func)
  (show_progress_bar : bool) (pipe : option pipe_end)
  (todo : list Z) (idx : Z) (results : list pyval) : trace * (Z * py (list pyval)) :=
  match todo with
  | [] => ([], (idx, Ok results))
  | i :: rest =>
      match getitem_int ds i with
      | Err e => ([], (idx, Err e))
      | Ok ins =>
          match func_arg _apply_field ins with
          | Err e => ([], (i, Err e))
          | Ok a =>
              match func a with
              | Err e => ([EvCall i], (i, Err e))
              | Ok r =>
                  let (tr, out) :=
                    single_loop ds _apply_field func show_progress_bar pipe
                      rest i (results ++ [r]) in
                  (EvCall i
                     :: (match pipe with
                         | Some _ => [EvSend (VList [VInt (i + 1)])]
                         | None => []
                         end)
                     ++ (if show_progress_bar then [EvUpdate] else [])
                     ++ tr, out)
              end
          end
      end
  end.

(** [_apply_single] *)
Definition _apply_single (ds : DataSet) (_apply_field : option string) (func : user_func)
  (show_progress_bar : bool) (pipe : option pipe_end) (desc : option string)
  : trace * py (list pyval) :=
  let pre := if show_progress_bar
             then [EvAddTask (desc_or_main desc) (__len__ ds) show_progress_bar]
             else [] in
  let '(tr, (idx, out)) :=
    single_loop ds _apply_field func show_progress_bar pipe
      (Py.range (__len__ ds)) (-1) [] in
  let handler := match out with
                 | Err _ => if negb (idx =? -1) then [EvPrint (ExceptionAt idx)] else []
                 | Ok _ => []
                 end in
  let final := if show_progress_bar then [EvDestroyTask] else [] in
  (pre ++ tr ++ handler ++ final, out).

(** How the monitor thread ends: it returned, it died on an exception, or
    it waits in [recv] for a message that never comes. *)
Inductive thread_end : Type :=
| Finished
| Died (e : exn)
| Waiting.

(** The [while True] loop of [_progress_bar] over the messages that arrive
    on [parent], in their order of arrival. *)
Fixpoint monitor_loop (total_len : Z) (inbox : list pyval) (nums : Z)
  : trace * Z * thread_end :=
  match inbox with
  | [] => ([], nums, Waiting)
  | received :: rest =>
      match received with
      | VList (msg :: _) =>
          let (ev, nums') := match msg with
                             | VNone => ([], nums)
                             | _ => ([EvUpdate], nums + 1)
                             end in
          if nums' =? total_len then (ev, nums', Finished)
          else let '(tr, n, st) := monitor_loop total_len rest nums' in
               (ev ++ tr, n, st)
      | VList [] => ([], nums, Died IndexError)
      | _ => ([], nums, Died TypeError)
      end
  end.

(** [_progress_bar]: its effects, the final value of [nums], and how it ends. *)
Definition _progress_bar (inbox : list pyval) (total_len : Z) (desc : option string)
  (show_progress_bar : bool) : trace * Z * thread_end :=
  let '(tr, n, st) := monitor_loop total_len inbox 0 in
  (EvAddTask (desc_or_main desc) total_len show_progress_bar :: tr, n, st).

(** The messages a process sent. *)
Definition sends (tr : trace) : list pyval :=
  flat_map (fun e => match e with EvSend m => [m] | _ => [] end) tr.

(** The calls of the user function a process made. *)
Definition calls (tr : trace) : list Z :=
  flat_map (fun e => match e with EvCall i => [i] | _ => [] end) tr.

(** What [print] wrote. *)
Definition prints (tr : trace) : list printed :=
  flat_map (fun e => match e with EvPrint p => [p] | _ => [] end) tr.

(** ** The apply engine: [_apply_process] *)

(** How a call that may wait on a thread ends. *)
Inductive outcome (A : Type) : Type :=
| Returns (a : A)
| Raises (e : exn)
| Blocks.
Arguments Returns {A} a.
Arguments Raises {A} e.
Arguments Blocks {A}.

Definition of_py {A} (m : py A) : outcome A :=
  match m with
  | Ok a => Returns a
  | Err e => Raises e
  end.

(** The shard boundaries computed by the loop of [_apply_process]:
    [end = shard_len + int(_i < num_left_sample) + start]. *)
Fixpoint shard_bounds (shard_len num_left_sample : Z) (todo : list Z) (start : Z)
  : list (Z * Z) :=
  match todo with
  | [] => []
  | _i :: rest =>
      let end_ := shard_len + (if _i <? num_left_sample then 1 else 0) + start in
      (start, end_) :: shard_bounds shard_len num_left_sample rest end_
  end.

Definition shard_plan (n num_proc : Z) : list (Z * Z) :=
  shard_bounds (n / num_proc) (n mod num_proc) (Py.range num_proc) 0.

(** The same loop with its [shard_data.append(self[start:end])]. *)
Fixpoint make_shards (self : DataSet) (shard_len num_left_sample : Z)
  (todo : list Z) (start : Z) : py (list DataSet) :=
  match todo with
  | [] => Ok []
  | _i :: rest =>
      let end_ := shard_len + (if _i <? num_left_sample then 1 else 0) + start in
      py_bind (getitem_slice self (Some start) (Some end_)) (fun d =>
      py_bind (make_shards self shard_len num_left_sample rest end_) (fun ds =>
      Ok (d :: ds)))
  end.

(** The parameters [_apply_single] declares; it takes no [**kwargs]. *)
Definition _apply_single_params : list string :=
  ["ds"; "_apply_field"; "func"; "show_progress_bar"; "pipe"; "desc"].

(** Python binds keyword arguments by name: a keyword that names no
    parameter makes the call raise [TypeError] before the body runs. *)
Definition accepts (params kws : list string) : bool :=
  forallb (fun k => existsb (String.eqb k) params) kws.

(** [partial(_apply_single, _apply_field=..., func=..., pipe=child,
    show_progress_bar=False)] called in a worker with the keywords [kwds],
    one of which is [ds]. *)
Definition partial_single_map (_apply_field : option string) (func : user_func)
  (kwds : list string) (ds : DataSet) : trace * py (list pyval) :=
  if accepts _apply_single_params
       (["_apply_field"; "func"; "pipe"; "show_progress_bar"] ++ kwds)
  then _apply_single ds _apply_field func false (Some child_conn) None
  else ([], Err TypeError).

(** The keywords of [pool.apply_async(partial_single_map,
    kwds={'ds': ds, "proc_id": proc_id})]. *)
Definition dispatch_kwds : list string := ["ds"; "proc_id"].

(** [for async_result in pool_outs: results.extend(async_result.get())]:
    [get] raises what the worker raised. *)
Fixpoint collect (pool_outs : list (py (list pyval))) (results : list pyval)
  : py (list pyval) :=
  match pool_outs with
  | [] => Ok results
  | Ok data :: rest => collect rest (results ++ data)
  | Err e :: _ => Err e
  end.

(** The multi-process branch of [_apply_process] once [num_proc] is clamped,
    with the keywords of the dispatch as a parameter.  The messages reach
    [parent] in some interleaving of what the workers sent; the monitor
    counts them, so the shard order stands for any of them (see
    [monitor_interleaving]). *)
Definition apply_pool (kwds : list string) (self : DataSet) (num_proc : Z)
  (func : user_func) (show_progress_bar : bool) (_apply_field : option string)
  (progress_desc : option string) : trace * outcome (list pyval) :=
  if num_proc =? 0 then ([], Raises ZeroDivisionError)
  else
    match make_shards self (__len__ self / num_proc) (__len__ self mod num_proc)
            (Py.range num_proc) 0 with
    | Err e => ([], Raises e)
    | Ok shard_data =>
        if num_proc <? 1
        then ([EvPipe; EvThreadStart; EvPool num_proc], Raises ValueError)
        else
          let workers := map (partial_single_map _apply_field func kwds) shard_data in
          let inbox := flat_map (fun w => sends (fst w)) workers in
          let tr := [EvPipe; EvThreadStart; EvPool num_proc]
                      ++ map (fun p => EvApplyAsync (fst p) (snd p))
                           (combine (Py.range (Py.len shard_data)) shard_data)
                      ++ [EvPoolClose; EvPoolJoin; EvThreadJoin] in
          match snd (_progress_bar inbox (__len__ self) progress_desc show_progress_bar) with
          | Waiting => (tr, Blocks)
          | _ => (tr, of_py (collect (map snd workers) []))
          end
    end.

Definition _apply_process_kw (kwds : list string) (self : DataSet) (num_proc : Z)
  (func : user_func) (show_progress_bar : bool) (_apply_field : option string)
  (progress_desc : option string) : trace * outcome (list pyval) :=
  if num_proc =? 0
  then let (tr, r) := _apply_single self _apply_field func show_progress_bar None
                        progress_desc in
       (tr, of_py r)
  else if num_proc >? __len__ self
  then let (tr, r) := apply_pool kwds self (__len__ self) func show_progress_bar
                        _apply_field progress_desc in
       (EvPrint (ReducingNumProc (__len__ self)) :: tr, r)
  else apply_pool kwds self num_proc func show_progress_bar _apply_field progress_desc.

(** [DataSet._apply_process] *)
Definition _apply_process : DataSet -> Z -> user_func -> bool -> option string ->
  option string -> trace * outcome (list pyval) :=
  _apply_process_kw dispatch_kwds.

(** ** The result merger of [apply_more] and [apply_field_more]

    Both methods carry the same text from [apply_out[0]] to the write-back;
    it is embedded once. *)

(** [for key, value in apply_out[0].items(): results[key] = [value]] *)
Fixpoint merge_seed (results : Py.dict (list pyval)) (items : list (string * pyval))
  : Py.dict (list pyval) :=
  match items with
  | [] => results
  | (key, value) :: rest => merge_seed (Py.set key [value] results) rest
  end.

(** [for key, value in per_out.items(): results[key].append(value)] *)
Fixpoint merge_row (results : Py.dict (list pyval)) (items : list (string * pyval))
  : Py.dict (list pyval) * py unit :=
  match items with
  | [] => (results, Ok tt)
  | (key, value) :: rest =>
      match Py.get key results with
      | None => (results, Err (KeyError key))
      | Some col => merge_row (Py.set key (col ++ [value]) results) rest
      end
  end.

Definition different_fields : string := "apply results have different fields".

(** [for idx, per_out in enumerate(apply_out[1:])]: [i] is the counter of
    [enumerate], [idx] the Python variable.  The result carries [results] as
    the loop leaves it and the final [idx]. *)
Fixpoint merge_loop (results : Py.dict (list pyval)) (rows : list pyval) (i idx : Z)
  : Py.dict (list pyval) * (Z * py unit) :=
  match rows with
  | [] => (results, (idx, Ok tt))
  | per_out :: rest =>
      match per_out with
      | VDict d =>
          if Py.set_diff_nonempty (Py.keys results) (Py.keys d)
          then (results, (i, Err (ApplyResultException different_fields (i + 1))))
          else match merge_row results d with
               | (results', Ok _) => merge_loop results' rest (i + 1) i
               | (results', Err e) => (results', (i, Err e))
               end
      | _ => (results, (i, Err AttributeError))
      end
  end.

(** From [apply_out[0]] to the end of the [try] statement: what is printed,
    [results] as it is left, and whether the merge raised. *)
Definition merge (apply_out : list pyval) : trace * Py.dict (list pyval) * py unit :=
  match apply_out with
  | [] => ([], [], Err IndexError)
  | VDict d0 :: rest =>
      let '(results, (idx, r)) := merge_loop (merge_seed [] d0) rest 0 (-1) in
      match r with
      | Ok _ => ([], results, Ok tt)
      | Err e =>
          ((if negb (idx =? -1)
            then (match e with
                  | ApplyResultException msg _ => [EvPrint (Message msg)]
                  | _ => []
                  end) ++ [EvPrint (ExceptionAt (idx + 1))]
            else []), results, Err e)
      end
  | _ :: _ => ([], [], Err (PlainException "The result of func is not a dict"))
  end.

(** [for field, result in results.items(): self.add_field(field, result)] *)
Fixpoint write_back (self : DataSet) (items : list (string * list pyval))
  : DataSet * py unit :=
  match items with
  | [] => (self, Ok tt)
  | (field, result) :: rest =>
      match add_field self field result with
      | (d, Ok _) => write_back d rest
      | (d, Err e) => (d, Err e)
      end
  end.

(** The common tail of [apply_more] and [apply_field_more]. *)
Definition merge_and_write (self : DataSet) (modify_fields : bool)
  (applied : trace * outcome (list pyval))
  : trace * DataSet * outcome (Py.dict (list pyval)) :=
  match applied with
  | (tr, Returns apply_out) =>
      match merge apply_out with
      | (tr', results, Ok _) =>
          if modify_fields
          then match write_back self results with
               | (d, Ok _) => (tr ++ tr', d, Returns results)
               | (d, Err e) => (tr ++ tr', d, Raises e)
               end
          else (tr ++ tr', self, Returns results)
      | (tr', _, Err e) => (tr ++ tr', self, Raises e)
      end
  | (tr, Raises e) => (tr, self, Raises e)
  | (tr, Blocks) => (tr, self, Blocks)
  end.

(** [DataSet.apply_more] *)
Definition apply_more (self : DataSet) (func : user_func) (modify_fields : bool)
  (num_proc : Z) (progress_desc : option string) (show_progress_bar : bool)
  : trace * DataSet * outcome (Py.dict (list pyval)) :=
  if __len__ self =? 0 then ([], self, Raises AssertionError)
  else if negb (num_proc >=? 0) then ([], self, Raises AssertionError)
  else merge_and_write self modify_fields
         (_apply_process self num_proc func show_progress_bar None progress_desc).

(** [DataSet.apply_field_more] *)
Definition apply_field_more (self : DataSet) (func : user_func) (field_name : string)
  (modify_fields : bool) (num_proc : Z) (progress_desc : option string)
  (show_progress_bar : bool) : trace * DataSet * outcome (Py.dict (list pyval)) :=
  if __len__ self =? 0 then ([], self, Raises AssertionError)
  else if negb (has_field self field_name) then ([], self, Raises (KeyError field_name))
  else merge_and_write self modify_fields
         (_apply_process self num_proc func show_progress_bar (Some field_name)
            progress_desc).

(** ** [apply] and [apply_field] *)

(** The common tail of [apply] and [apply_field]. *)
Definition store_results (self : DataSet) (new_field_name : option string)
  (applied : trace * outcome (list pyval)) : trace * DataSet * outcome (list pyval) :=
  match applied with
  | (tr, Returns results) =>
      match new_field_name with
      | Some nm => match add_field self nm results with
                   | (d, Ok _) => (tr, d, Returns results)
                   | (d, Err e) => (tr, d, Raises e)
                   end
      | None => (tr, self, Returns results)
      end
  | (tr, r) => (tr, self, r)
  end.

(** [DataSet.apply] *)
Definition apply (self : DataSet) (func : user_func) (new_field_name : option string)
  (num_proc : Z) (show_progress_bar : bool) (progress_desc : option string)
  : trace * DataSet * outcome (list pyval) :=
  if __len__ self =? 0 then ([], self, Raises AssertionError)
  else if negb (num_proc >=? 0) then ([], self, Raises AssertionError)
  else store_results self new_field_name
         (_apply_process self num_proc func show_progress_bar None progress_desc).

(** [DataSet.apply_field] *)
Definition apply_field (self : DataSet) (func : user_func) (field_name : string)
  (new_field_name : option string) (num_proc : Z) (progress_desc : option string)
  (show_progress_bar : bool) : trace * DataSet * outcome (list pyval) :=
  if __len__ self =? 0 then ([], self, Raises AssertionError)
  else if negb (has_field self field_name) then ([], self, Raises (KeyError field_name))
  else store_results self new_field_name
         (_apply_process self num_proc func show_progress_bar (Some field_name)
            progress_desc).

(** ** The constructor and the remaining methods of the store *)

(** [len(length_set) == 1]: there is a value and all values have one
    length. *)
Definition one_length (lens : list Z) : bool :=
  match lens with
  | [] => false
  | l :: rest => forallb (Z.eqb l) rest
  end.

(** What [DataSet.__init__] is given: nothing, a dict of lists, or a list
    of instances. *)
Inductive init_data : Type :=
| NoData
| FromDict (data : Py.dict (list pyval))
| FromList (data : list Instance).

(** [for ins in data: self.append(ins)] *)
Fixpoint init_append (self : DataSet) (data : list Instance) : py DataSet :=
  match data with
  | [] => Ok self
  | ins :: rest =>
      match append self ins with
      | (d, Ok _) => init_append d rest
      | (_, Err e) => Err e
      end
  end.

(** [DataSet.__init__]: the dataset built, unless the constructor raises.
    The loop over [data.items()] calling [add_field] is [write_back]. *)
Definition __init__ (data : init_data) : py DataSet :=
  match data with
  | NoData => Ok (mkDataSet [])
  | FromDict d =>
      if one_length (map (fun kv => Py.len (snd kv)) d)
      then match write_back (mkDataSet []) d with
           | (self, Ok _) => Ok self
           | (_, Err e) => Err e
           end
      else Err AssertionError
  | FromList l => init_append (mkDataSet []) l
  end.

(** [DataSet.__contains__] *)
Definition __contains__ (self : DataSet) (item : string) : bool :=
  Py.mem item (field_arrays self).

(** [DataSet.get_length] *)
Definition get_length (self : DataSet) : Z := __len__ self.

(** [DataSet.copy_field]: the deep copy of a column is a column with the
    same values. *)
Definition copy_field (self : DataSet) (field_name new_field_name : string)
  : DataSet * py unit :=
  if negb (has_field self field_name) then (self, Err (KeyError field_name))
  else match get_field self field_name with
       | Err e => (self, Err e)
       | Ok f => add_fieldarray self new_field_name (fa_rename f new_field_name)
       end.

(** A list comprehension over a function that may raise. *)
Fixpoint py_map {A B} (f : A -> py B) (l : list A) : py (list B) :=
  match l with
  | [] => Ok []
  | x :: rest =>
      py_bind (f x) (fun y => py_bind (py_map f rest) (fun ys => Ok (y :: ys)))
  end.

(** [DataSet.__iter__], run to its end: the rows in order. *)
Definition iter_rows (self : DataSet) : py (list Instance) :=
  py_map (getitem_int self) (Py.range (__len__ self)).

(** [[ins for ins in self if not func(ins)]]: each row is read, then
    tested; an error of either ends the comprehension. *)
Fixpoint drop_keep (self : DataSet) (func : Instance -> py bool) (todo : list Z)
  : py (list Instance) :=
  match todo with
  | [] => Ok []
  | i :: rest =>
      py_bind (getitem_int self i) (fun ins =>
      py_bind (func ins) (fun b =>
      py_bind (drop_keep self func rest) (fun kept =>
      Ok (if b then kept else ins :: kept))))
  end.

(** [for name, old_field in self.field_arrays.items():
       self.field_arrays[name].content = [ins[name] for ins in results]] *)
Fixpoint drop_assign (cols : Py.dict FieldArray) (results : list Instance)
  : Py.dict FieldArray * py unit :=
  match cols with
  | [] => ([], Ok tt)
  | (nm, f) :: rest =>
      match py_map (fun ins => ins_getitem ins nm) results with
      | Err e => (cols, Err e)
      | Ok c => let (rest', r) := drop_assign rest results in
                ((nm, mkFieldArray (name f) c) :: rest', r)
      end
  end.

(** [DataSet.drop]: this dataset as it is left and the dataset returned. *)
Definition drop (self : DataSet) (func : Instance -> py bool) (inplace : bool)
  : DataSet * py DataSet :=
  match drop_keep self func (Py.range (__len__ self)) with
  | Err e => (self, Err e)
  | Ok results =>
      if inplace
      then let (cols, r) := drop_assign (field_arrays self) results in
           (mkDataSet cols, py_bind r (fun _ => Ok (mkDataSet cols)))
      else if negb (Py.len results =? 0)
      then (self, __init__ (FromList results))
      else (self, Ok (mkDataSet []))
  end.




(** * Part II: the vocabulary of the properties *)

(** ** Well-formed stores *)

(** All columns have the length that [len(self)] reports. *)
Definition uniform (self : DataSet) : Prop :=
  forall f, In f (Py.values (field_arrays self)) -> fa_len f = __len__ self.

(** The field names are distinct, as the keys of a Python dict are. *)
Definition distinct_fields (self : DataSet) : Prop :=
  NoDup (Py.keys (field_arrays self)).

(** The contents of the store, column by column. *)
Definition columns (self : DataSet) : Py.dict (list pyval) :=
  map (fun kf => (fst kf, content (snd kf))) (field_arrays self).

(** ** Shard plans *)

(** The start of shard [i] in closed form. *)
Definition shard_start (q r i : Z) : Z := i * q + Z.min i r.

(** Ceiling of [n / k]. *)
Definition ceil_div (n k : Z) : Z := (n + k - 1) / k.

(** A plan is chained from [start] to [stop] when its ranges are non-empty,
    begin at [start], each begin where the one before ends, and end at
    [stop]: contiguous, ascending and without overlap. *)
Fixpoint chained (start : Z) (plan : list (Z * Z)) (stop : Z) : Prop :=
  match plan with
  | [] => start = stop
  | (s, e) :: rest => s = start /\ s < e /\ chained e rest stop
  end.

(** The columns of [self[start:stop]]. *)
Definition slice_cols (cols : Py.dict FieldArray) (start stop : option Z)
  : Py.dict FieldArray :=
  map (fun kf => (fst kf, mkFieldArray (fst kf) (Py.slice (content (snd kf)) start stop)))
    cols.

(** ** The worker, row by row *)

(** What processing row [i] yields: the row is read, the argument of the
    user function is taken from it, the function is called. *)
Definition row_result (ds : DataSet) (_apply_field : option string) (func : user_func)
  (i : Z) : py pyval :=
  py_bind (getitem_int ds i) (fun ins => py_bind (func_arg _apply_field ins) func).

Definition row_value (ds : DataSet) (_apply_field : option string) (func : user_func)
  (i : Z) : pyval :=
  match row_result ds _apply_field func i with
  | Ok r => r
  | Err _ => VNone
  end.

(** The effects of one completed row, in order: the call, the notification
    when a pipe was given, the local progress when it is shown. *)
Definition row_events (show_progress_bar : bool) (pipe : option pipe_end) (i : Z) : trace :=
  EvCall i
    :: (match pipe with
        | Some _ => [EvSend (VList [VInt (i + 1)])]
        | None => []
        end)
    ++ (if show_progress_bar then [EvUpdate] else []).

Arguments row_events : simpl never.

(** The leading rows of [todo] that are processed without error. *)
Fixpoint completed (ds : DataSet) (_apply_field : option string) (func : user_func)
  (todo : list Z) : list Z :=
  match todo with
  | [] => []
  | i :: rest =>
      if is_ok (row_result ds _apply_field func i)
      then i :: completed ds _apply_field func rest
      else []
  end.

(** ** Lists, dicts and merged columns *)

(** The list without its element at position [p]. *)
Definition remove_at {A} (p : nat) (l : list A) : list A := firstn p l ++ skipn (S p) l.

(** The position a valid index denotes in a sequence of [n] elements. *)
Definition position (n index : Z) : nat :=
  Z.to_nat (if index <? 0 then index + n else index).

(** What [concat] makes of one column of this dataset. *)
Definition extend_col (dataset : DataSet) (k : string) (f : FieldArray) : FieldArray :=
  match Py.get k (field_arrays dataset) with
  | Some g => mkFieldArray (name f) (content f ++ content g)
  | None => f
  end.

(** A check of distinctness that computes. *)
Fixpoint distinctb (l : list string) : bool :=
  match l with
  | [] => true
  | k :: rest => negb (existsb (String.eqb k) rest) && distinctb rest
  end.

(** Every column of a merged result has [m] values. *)
Definition all_len (results : Py.dict (list pyval)) (m : nat) : Prop :=
  forall k col, In (k, col) results -> List.length col = m.

(** The rows that are dicts have distinct keys, as Python's dicts do. *)
Definition dict_rows (rows : list pyval) : Prop :=
  forall d, In (VDict d) rows -> NoDup (Py.keys d).

Definition sumZ (l : list Z) : Z := fold_right Z.add 0 l.

(** Every value of [rs] is one the user function returned. *)
Definition from_func (func : user_func) (rs : list pyval) : Prop :=
  forall r, In r rs -> exists a, func a = Ok r.

(** A row that is a dict with distinct keys, the keys of [ks] and no other. *)
Definition same_fields (ks : list string) (row : pyval) : Prop :=
  exists d, row = VDict d /\ NoDup (Py.keys d)
            /\ incl ks (Py.keys d) /\ incl (Py.keys d) ks.

(** ** Shards, the in-process run, the pipe *)

(** The shard of a range: the dataset of the column slices. *)
Definition shard_of (self : DataSet) (se : Z * Z) : DataSet :=
  mkDataSet (slice_cols (field_arrays self) (Some (fst se)) (Some (snd se))).

(** The claim of C6 for one worker count: the engine does what
    [_apply_single] does on the whole dataset, in this process, and nothing
    else. *)
Definition runs_in_process (self : DataSet) (num_proc : Z) (func : user_func)
  (show_progress_bar : bool) (_apply_field : option string)
  (progress_desc : option string) : Prop :=
  _apply_process self num_proc func show_progress_bar _apply_field progress_desc
  = (fst (_apply_single self _apply_field func show_progress_bar None progress_desc),
     of_py (snd (_apply_single self _apply_field func show_progress_bar None
                   progress_desc))).

(** What a worker sends: a list holding one integer. *)
Definition notification (m : pyval) : Prop := exists n, m = VList [VInt n].

(** The messages of several senders as one receiver may get them: each
    sender's messages in its order, the senders in any order. *)
Inductive interleaving {A : Type} : list (list A) -> list A -> Prop :=
| interleaving_done (ls : list (list A)) :
    Forall (fun l => l = []) ls -> interleaving ls []
| interleaving_next (pre : list (list A)) (x : A) (l : list A) (post : list (list A))
    (rest : list A) :
    interleaving (pre ++ l :: post) rest ->
    interleaving (pre ++ (x :: l) :: post) (x :: rest).

(** ** Rows and selections *)

(** The row at position [i]: every field with the value of its column. *)
Definition row_at (cols : Py.dict FieldArray) (i : nat) : Py.dict pyval :=
  map (fun kf => (fst kf, nth i (content (snd kf)) VNone)) cols.

(** The values of a column at the positions [idxs], in that order. *)
Definition select {A} (d : A) (idxs : list nat) (l : list A) : list A :=
  map (fun i => nth i l d) idxs.


(** The value of field [k] in a row; [None] stands for a field the row
    has not. *)
Definition value_of (k : string) (r : Py.dict pyval) : pyval :=
  match Py.get k r with
  | Some v => v
  | None => VNone
  end.

(** The rows of a dataset with equal columns, in order. *)
Definition rows (self : DataSet) : list Instance :=
  map (fun i => mkInstance (row_at (field_arrays self) i))
      (seq 0 (Z.to_nat (__len__ self))).

(** The positions of the rows on which [p] is false. *)
Definition kept (self : DataSet) (p : Instance -> bool) : list nat :=
  filter (fun i => negb (p (mkInstance (row_at (field_arrays self) i))))
         (seq 0 (Z.to_nat (__len__ self))).

(** The value of field [k] in a result of the user function. *)
Definition field_of (k : string) (row : pyval) : pyval :=
  match row with
  | VDict d => value_of k d
  | _ => VNone
  end.

(** The trace of an in-process run that completes every row. *)
Definition in_process_trace (n : Z) (show_progress_bar : bool) (desc : option string)
  : trace :=
  (if show_progress_bar
   then [EvAddTask (desc_or_main desc) n show_progress_bar]
   else [])
  ++ flat_map (row_events show_progress_bar None) (Py.range n)
  ++ (if show_progress_bar then [EvDestroyTask] else []).

(** A row with distinct field names, those of [ks] and no other. *)
Definition same_keys (ks : list string) (r : Py.dict pyval) : Prop :=
  NoDup (Py.keys r) /\ incl ks (Py.keys r) /\ incl (Py.keys r) ks.

(** The columns of [cols] at the positions [idxs], each under its field
    name. *)
Definition select_cols (cols : Py.dict FieldArray) (idxs : list nat)
  : Py.dict FieldArray :=
  map (fun kf => (fst kf, mkFieldArray (fst kf) (select VNone idxs (content (snd kf)))))
      cols.

(** The columns [apply_more] merges from the results of the rows: one per
    field of the first result [d0], holding the value of the field in every
    result, in row order. *)
Definition merged (d0 : Py.dict pyval) (rest : list pyval) : Py.dict (list pyval) :=
  map (fun kv => (fst kv, snd kv :: map (field_of (fst kv)) rest)) d0.

(** The events of the progress display in a trace. *)
Definition progress (tr : trace) : trace :=
  filter (fun e => match e with
                   | EvAddTask _ _ _ | EvUpdate | EvDestroyTask => true
                   | _ => false
                   end) tr.


(** ** Datasets and functions of the scenarios *)

Definition ex_x4 : DataSet :=
  mkDataSet [("x", mkFieldArray "x" [VInt 1; VInt 2; VInt 3; VInt 4])].

Definition double : user_func :=
  fun a => match a with
           | ArgField (VInt v) => Ok (VInt (v * 2))
           | _ => Err TypeError
           end.

(** Ten rows; the function raises on the value of row 4. *)
Definition ex_rows10 : DataSet :=
  mkDataSet [("x", mkFieldArray "x" (map VInt (Py.range 10)))].

Definition raise_on_4 : user_func :=
  fun a => match a with
           | ArgField (VInt v) => if v =? 4 then Err (UserError 4) else Ok (VInt (v * 2))
           | _ => Err TypeError
           end.

Definition ex_one_row : DataSet :=
  mkDataSet [("x", mkFieldArray "x" [VInt 1]); ("y", mkFieldArray "y" [VStr "a"])].

Definition ex_two_rows : DataSet :=
  mkDataSet [("x", mkFieldArray "x" [VInt 1; VInt 2]);
             ("y", mkFieldArray "y" [VStr "a"; VStr "b"])].

Definition ex_xy4 : DataSet :=
  mkDataSet [("x", mkFieldArray "x" [VInt 1; VInt 2; VInt 3; VInt 4]);
             ("y", mkFieldArray "y" [VStr "a"; VStr "b"; VStr "c"; VStr "d"])].

Definition ex_row : Instance := mkInstance [("y", VStr "e"); ("x", VInt 5)].

Definition ex_ab : DataSet :=
  mkDataSet [("a", mkFieldArray "a" [VInt 1]); ("b", mkFieldArray "b" [VInt 2])].

Definition ex_row_ac : Instance := mkInstance [("a", VInt 5); ("c", VInt 6)].

Definition x_of (a : farg) : option Z :=
  match a with
  | ArgIns ins => match Py.get "x" (fields ins) with
                  | Some (VInt n) => Some n
                  | _ => None
                  end
  | ArgField (VInt n) => Some n
  | ArgField _ => None
  end.

Definition row_ab : pyval := VDict [("a", VInt 1); ("b", VInt 2)].
Definition row_a : pyval := VDict [("a", VInt 1)].
Definition row_abc : pyval := VDict [("a", VInt 1); ("b", VInt 2); ("c", VInt 3)].

(** Returns [{a, b}] except on the row whose [x] is [bad]. *)
Definition func_fields (bad : Z) (other : pyval) : user_func :=
  fun a => match x_of a with
           | Some n => if n =? bad then Ok other else Ok row_ab
           | None => Err TypeError
           end.

Definition ex_x3 : DataSet :=
  mkDataSet [("x", mkFieldArray "x" [VInt 0; VInt 1; VInt 2])].

Definition ex_inbox : list pyval :=
  [VList [VInt 1]; VList [VInt 1]; VList [VInt 2]; VList [VInt 2]].


(** The function of a row: twice its [x]. *)
Definition double_x : user_func :=
  fun a => match a with
           | ArgIns ins => match Py.get "x" (fields ins) with
                           | Some (VInt v) => Ok (VInt (v * 2))
                           | _ => Err TypeError
                           end
           | ArgField _ => Err TypeError
           end.


(** * Part III: properties *)

(** ** The scenarios, run *)

Example apply_field_x4_serial :
  apply_field ex_x4 double "x" None 0 None false
  = ([EvCall 0; EvCall 1; EvCall 2; EvCall 3], ex_x4,
     Returns [VInt 2; VInt 4; VInt 6; VInt 8]).
Proof. reflexivity. Qed.

Example shard_plan_7_3 : shard_plan 7 3 = [(0, 3); (3, 5); (5, 7)].
Proof. reflexivity. Qed.

(** ** Arithmetic of the shard plan *)

Lemma range_length (n : Z) : 0 <= n -> Py.len (Py.range n) = n.
Proof.
  intros Hn. unfold Py.len, Py.range.
  rewrite length_map, length_seq. lia.
Qed.

Lemma shard_bounds_closed (q r : Z) (m a : nat) :
  shard_bounds q r (map Z.of_nat (seq a m)) (shard_start q r (Z.of_nat a))
  = map (fun i => (shard_start q r i, shard_start q r (i + 1)))
      (map Z.of_nat (seq a m)).
Proof.
  revert a. induction m as [|m IH]; intros a; simpl; [reflexivity|].
  assert (Hend : q + (if Z.of_nat a <? r then 1 else 0) + shard_start q r (Z.of_nat a)
                 = shard_start q r (Z.of_nat a + 1)).
  { unfold shard_start. destruct (Z.ltb_spec (Z.of_nat a) r); lia. }
  rewrite Hend. f_equal.
  replace (Z.of_nat a + 1) with (Z.of_nat (S a)) by lia.
  apply IH.
Qed.

Lemma shard_plan_closed (n k : Z) :
  0 < k ->
  shard_plan n k
  = map (fun i => (shard_start (n / k) (n mod k) i, shard_start (n / k) (n mod k) (i + 1)))
      (Py.range k).
Proof.
  intros Hk. unfold shard_plan, Py.range.
  pose proof (Z.mod_pos_bound n k Hk) as Hr.
  replace 0 with (shard_start (n / k) (n mod k) (Z.of_nat 0)) at 1
    by (unfold shard_start; lia).
  apply shard_bounds_closed.
Qed.

Lemma shard_start_step (q r i : Z) :
  shard_start q r (i + 1) - shard_start q r i = q + (if i <? r then 1 else 0).
Proof. unfold shard_start. destruct (Z.ltb_spec i r); lia. Qed.

Lemma chained_closed (q r : Z) (m a : nat) :
  1 <= q -> 0 <= r ->
  chained (shard_start q r (Z.of_nat a))
    (map (fun i => (shard_start q r i, shard_start q r (i + 1)))
       (map Z.of_nat (seq a m)))
    (shard_start q r (Z.of_nat (a + m))).
Proof.
  intros Hq Hr. revert a. induction m as [|m IH]; intros a; simpl.
  - f_equal. f_equal. lia.
  - split; [reflexivity|]. split.
    + pose proof (shard_start_step q r (Z.of_nat a)) as Hs.
      destruct (Z.of_nat a <? r); lia.
    + replace (Z.of_nat a + 1) with (Z.of_nat (S a)) by lia.
      replace (a + S m)%nat with (S a + m)%nat by lia.
      apply IH.
Qed.

Lemma ceil_div_rem (n k : Z) :
  0 < k -> 0 < n mod k -> ceil_div n k = n / k + 1.
Proof.
  intros Hk Hr. unfold ceil_div.
  pose proof (Z.mod_pos_bound n k Hk) as Hb.
  pose proof (Z.div_mod n k ltac:(lia)) as Hdm.
  symmetry. apply Z.div_unique with (r := n mod k - 1); lia.
Qed.

(** Every index between the ends of a chained plan lies in one range and
    in no other. *)
Lemma chained_cover (plan : list (Z * Z)) (start stop j : Z) :
  chained start plan stop -> start <= j < stop ->
  exists i s e, nth_error plan i = Some (s, e) /\ s <= j < e /\
    forall i' s' e', nth_error plan i' = Some (s', e') -> s' <= j < e' -> i' = i.
Proof.
  revert start. induction plan as [|[s e] rest IH]; intros start Hc Hj; simpl in Hc.
  - lia.
  - destruct Hc as [-> [Hlt Hc]].
    assert (Hmono : forall p a b, chained a p b -> a <= b).
    { clear. induction p as [|[s e] p IHp]; simpl; intros a b H.
      - lia.
      - destruct H as [-> [? H]]. apply IHp in H. lia. }
    assert (Hafter : forall p a b i' s' e', chained a p b ->
              nth_error p i' = Some (s', e') -> a <= s').
    { clear. induction p as [|[s e] p IHp]; intros a b i' s' e' H Hn.
      - destruct i'; discriminate.
      - simpl in H. destruct H as [-> [? H]]. destruct i'; simpl in Hn.
        + inversion Hn; subst. lia.
        + apply (IHp _ _ _ _ _ H) in Hn. lia. }
    destruct (Z.lt_ge_cases j e) as [Hin|Hout].
    + exists 0%nat, start, e. split; [reflexivity|]. split; [lia|].
      intros i' s' e' Hn Hr. destruct i'; [reflexivity|]. simpl in Hn.
      pose proof (Hafter _ _ _ _ _ _ Hc Hn). lia.
    + destruct (IH e Hc ltac:(lia)) as (i & s & e0 & Hn & Hr & Huniq).
      exists (S i), s, e0. split; [exact Hn|]. split; [exact Hr|].
      intros i' s' e' Hn' Hr'. destruct i'; simpl in Hn'.
      * inversion Hn'; subst. lia.
      * f_equal. eapply Huniq; eauto.
Qed.

Lemma shard_plan_chained (n k : Z) : 1 <= k <= n -> chained 0 (shard_plan n k) n.
Proof.
  intros Hk.
  assert (Hq : 1 <= n / k) by (apply Z.div_le_lower_bound; lia).
  pose proof (Z.mod_pos_bound n k ltac:(lia)) as Hr.
  rewrite shard_plan_closed by lia. unfold Py.range.
  pose proof (@chained_closed (n / k) (n mod k) (Z.to_nat k) 0 Hq ltac:(lia)) as Hc.
  replace (shard_start (n / k) (n mod k) (Z.of_nat 0)) with 0 in Hc
    by (unfold shard_start; lia).
  replace (shard_start (n / k) (n mod k) (Z.of_nat (0 + Z.to_nat k))) with n in Hc.
  - exact Hc.
  - unfold shard_start. pose proof (Z.div_mod n k ltac:(lia)).
    rewrite Nat.add_0_l, Z2Nat.id by lia. lia.
Qed.

(** ** Dicts and slices: basic facts *)

Lemma get_none_not_in {V} (k : string) (d : Py.dict V) :
  Py.get k d = None <-> ~ In k (Py.keys d).
Proof.
  induction d as [|[k' v] d IH]; simpl.
  - tauto.
  - destruct (String.eqb_spec k k') as [->|Hne].
    + split; [discriminate|]. intros H. exfalso. apply H. now left.
    + rewrite IH. split.
      * intros H [Heq|Hin]; [congruence|tauto].
      * intros H Hin. apply H. now right.
Qed.

Lemma get_some_in {V} (k : string) (d : Py.dict V) (v : V) :
  Py.get k d = Some v -> In (k, v) d.
Proof.
  induction d as [|[k' v'] d IH]; simpl; [discriminate|].
  destruct (String.eqb_spec k k') as [->|Hne].
  - intros H. injection H as ->. now left.
  - intros H. right. now apply IH.
Qed.

Lemma in_get_some {V} (k : string) (d : Py.dict V) (v : V) :
  NoDup (Py.keys d) -> In (k, v) d -> Py.get k d = Some v.
Proof.
  induction d as [|[k' v'] d IH]; simpl; intros Hnd Hin; [contradiction|].
  inversion Hnd as [|? ? Hnotin Hnd']; subst.
  destruct Hin as [Heq|Hin].
  - injection Heq as -> ->. now rewrite String.eqb_refl.
  - destruct (String.eqb_spec k k') as [->|Hne].
    + exfalso. apply Hnotin. change k' with (fst (k', v)). now apply in_map.
    + now apply IH.
Qed.

Lemma set_fresh {V} (k : string) (v : V) (d : Py.dict V) :
  ~ In k (Py.keys d) -> Py.set k v d = d ++ [(k, v)].
Proof.
  induction d as [|[k' v'] d IH]; simpl; intros Hn; [reflexivity|].
  destruct (String.eqb_spec k k') as [->|Hne].
  - exfalso. apply Hn. now left.
  - f_equal. apply IH. tauto.
Qed.

Lemma set_keys_present {V} (k : string) (v : V) (d : Py.dict V) :
  In k (Py.keys d) -> Py.keys (Py.set k v d) = Py.keys d.
Proof.
  induction d as [|[k' v'] d IH]; simpl; intros Hin; [contradiction|].
  destruct (String.eqb_spec k k') as [->|Hne]; simpl.
  - reflexivity.
  - f_equal. apply IH. destruct Hin; [congruence|assumption].
Qed.

Lemma get_set_same {V} (k : string) (v : V) (d : Py.dict V) :
  Py.get k (Py.set k v d) = Some v.
Proof.
  induction d as [|[k' v'] d IH]; simpl.
  - now rewrite String.eqb_refl.
  - destruct (String.eqb_spec k k') as [->|Hne]; simpl.
    + now rewrite String.eqb_refl.
    + destruct (String.eqb_spec k k'); [contradiction|exact IH].
Qed.

Lemma get_set_other {V} (k k0 : string) (v : V) (d : Py.dict V) :
  k0 <> k -> Py.get k0 (Py.set k v d) = Py.get k0 d.
Proof.
  intros Hne. induction d as [|[k' v'] d IH]; simpl.
  - destruct (String.eqb_spec k0 k); [contradiction|reflexivity].
  - destruct (String.eqb_spec k k') as [->|Hne']; simpl.
    + destruct (String.eqb_spec k0 k'); [contradiction|reflexivity].
    + destruct (String.eqb_spec k0 k'); [reflexivity|exact IH].
Qed.

Lemma slice_length_eq {A B} (l : list A) (l' : list B) (start stop : option Z) :
  List.length l = List.length l' ->
  List.length (Py.slice l start stop) = List.length (Py.slice l' start stop).
Proof.
  intros H. unfold Py.slice, Py.len.
  rewrite !length_firstn, !length_skipn, H. reflexivity.
Qed.

(** A slice with bounds [0 <= s <= e <= len l]. *)
Lemma slice_inner {A} (l : list A) (s e : Z) :
  0 <= s <= e -> e <= Py.len l ->
  Py.slice l (Some s) (Some e) = firstn (Z.to_nat (e - s)) (skipn (Z.to_nat s) l).
Proof.
  intros Hs He. unfold Py.slice, Py.slice_bound.
  destruct (Z.ltb_spec s 0); [lia|]. destruct (Z.ltb_spec e 0); [lia|].
  rewrite !Z.min_l by lia. reflexivity.
Qed.

Lemma firstn_plus {A} (a b : nat) (l : list A) :
  firstn (a + b) l = firstn a l ++ firstn b (skipn a l).
Proof.
  revert l. induction a as [|a IH]; intros l; simpl; [reflexivity|].
  destruct l as [|x l]; simpl.
  - now rewrite firstn_nil.
  - f_equal. apply IH.
Qed.

(** Two adjacent slices put end to end give the slice over both. *)
Lemma slice_adjacent {A} (l : list A) (s m e : Z) :
  0 <= s <= m -> m <= e -> e <= Py.len l ->
  Py.slice l (Some s) (Some m) ++ Py.slice l (Some m) (Some e)
  = Py.slice l (Some s) (Some e).
Proof.
  intros Hs Hm He. rewrite !slice_inner by lia.
  replace (Z.to_nat (e - s)) with (Z.to_nat (m - s) + Z.to_nat (e - m))%nat by lia.
  rewrite firstn_plus. f_equal. rewrite skipn_skipn.
  do 2 f_equal. lia.
Qed.

Lemma slice_whole {A} (l : list A) :
  Py.slice l (Some 0) (Some (Py.len l)) = l.
Proof.
  rewrite slice_inner by (unfold Py.len; lia).
  simpl. rewrite Z.sub_0_r. unfold Py.len. rewrite Nat2Z.id. apply firstn_all.
Qed.

Lemma slice_fill_uniform (l0 : list pyval) (start stop : option Z)
  (cols acc : Py.dict FieldArray) :
  NoDup (Py.keys acc ++ Py.keys cols) ->
  (forall f, In f (Py.values acc) ->
     List.length (content f) = List.length (Py.slice l0 start stop)) ->
  (forall f, In f (Py.values cols) -> List.length (content f) = List.length l0) ->
  slice_fill (mkDataSet acc) cols start stop
  = Ok (mkDataSet (acc ++ slice_cols cols start stop)).
Proof.
  revert acc. induction cols as [|[k f] cols IH]; intros acc Hnd Hacc Hcols; simpl.
  - now rewrite app_nil_r.
  - assert (Hlen : List.length (Py.slice (content f) start stop)
                   = List.length (Py.slice l0 start stop)).
    { apply slice_length_eq. apply Hcols. now left. }
    assert (Hfresh : ~ In k (Py.keys acc)).
    { intros Hin. apply NoDup_remove_2 in Hnd. apply Hnd.
      apply in_or_app. now left. }
    unfold add_field. simpl.
    assert (Hchk : negb (Py.len acc =? 0)
                   && negb (__len__ (mkDataSet acc)
                            =? Py.len (Py.slice (content f) start stop)) = false).
    { destruct acc as [|[k0 f0] acc']; [reflexivity|].
      unfold __len__, fa_len, Py.len. simpl field_arrays. cbv iota beta.
      rewrite Hlen, (Hacc f0) by (now left). rewrite Z.eqb_refl.
      now rewrite andb_false_r. }
    rewrite Hchk. rewrite set_fresh by exact Hfresh.
    rewrite IH.
    + now rewrite <- app_assoc.
    + unfold Py.keys in *. rewrite map_app, <- app_assoc. exact Hnd.
    + intros g Hg. unfold Py.values in Hg. rewrite map_app in Hg.
      apply in_app_or in Hg. destruct Hg as [Hg|[<-|[]]].
      * now apply Hacc.
      * exact Hlen.
    + intros g Hg. apply Hcols. now right.
Qed.

(** Slicing a well-formed dataset at a start inside it slices every column. *)
Lemma getitem_slice_uniform (self : DataSet) (s : Z) (stop : option Z) :
  uniform self -> distinct_fields self ->
  - __len__ self < s < __len__ self ->
  getitem_slice self (Some s) stop
  = Ok (mkDataSet (slice_cols (field_arrays self) (Some s) stop)).
Proof.
  intros Hu Hd Hs. unfold getitem_slice.
  destruct (Z.geb_spec s (__len__ self)); [lia|].
  destruct (Z.leb_spec s (- __len__ self)); [lia|]. simpl.
  destruct self as [cols]. simpl in *.
  destruct cols as [|[k0 f0] cols']; [reflexivity|].
  apply (@slice_fill_uniform (content f0) (Some s) stop ((k0, f0) :: cols') []).
  - exact Hd.
  - intros f [].
  - intros f Hf. specialize (Hu f Hf). unfold __len__, fa_len, Py.len in Hu.
    simpl in Hu. lia.
Qed.

(** ** The worker loop, row by row *)

Section SingleLoop.
Variable ds : DataSet.
Variable _apply_field : option string.
Variable func : user_func.
Variable show_progress_bar : bool.
Variable pipe : option pipe_end.

Let loop := single_loop ds _apply_field func show_progress_bar pipe.
Let ok_row (i : Z) : Prop := exists r, row_result ds _apply_field func i = Ok r.

Lemma single_loop_cons_ok (i : Z) (rest : list Z) (idx : Z) (results : list pyval)
  (r : pyval) :
  row_result ds _apply_field func i = Ok r ->
  loop (i :: rest) idx results
  = (row_events show_progress_bar pipe i ++ fst (loop rest i (results ++ [r])),
     snd (loop rest i (results ++ [r]))).
Proof.
  unfold row_result, loop. intros H. simpl.
  destruct (getitem_int ds i) as [ins|]; simpl in H; [|discriminate].
  destruct (func_arg _apply_field ins) as [a|]; simpl in H; [|discriminate].
  rewrite H.
  destruct (single_loop ds _apply_field func show_progress_bar pipe rest i
              (results ++ [r])) as [tr out].
  simpl. unfold row_events. simpl. now rewrite <- app_assoc.
Qed.

(** A row on which the user function itself raises: the call is made,
    [idx] is bound to the row, nothing is sent. *)
Lemma single_loop_cons_raise (i : Z) (rest : list Z) (idx : Z) (results : list pyval)
  (ins : Instance) (a : farg) (e : exn) :
  getitem_int ds i = Ok ins -> func_arg _apply_field ins = Ok a -> func a = Err e ->
  loop (i :: rest) idx results = ([EvCall i], (i, Err e)).
Proof.
  unfold loop. intros Hg Ha Hf. simpl. now rewrite Hg, Ha, Hf.
Qed.

(** A row that fails, whatever the reason: no notification, the error is
    the result. *)
Lemma single_loop_cons_err (i : Z) (rest : list Z) (idx : Z) (results : list pyval)
  (e : exn) :
  row_result ds _apply_field func i = Err e ->
  sends (fst (loop (i :: rest) idx results)) = []
  /\ snd (snd (loop (i :: rest) idx results)) = Err e
  /\ (fst (loop (i :: rest) idx results) = []
      \/ fst (loop (i :: rest) idx results) = [EvCall i]).
Proof.
  unfold row_result, loop. intros H. simpl.
  destruct (getitem_int ds i) as [ins|]; simpl in H.
  - destruct (func_arg _apply_field ins) as [a|]; simpl in H.
    + rewrite H. simpl. auto.
    + injection H as ->. simpl. auto.
  - injection H as ->. simpl. auto.
Qed.

(** The whole loop when every row succeeds. *)
Lemma single_loop_all_ok (todo : list Z) (idx : Z) (results : list pyval) :
  Forall ok_row todo ->
  loop todo idx results
  = (flat_map (row_events show_progress_bar pipe) todo,
     (last todo idx, Ok (results ++ map (row_value ds _apply_field func) todo))).
Proof.
  revert idx results. induction todo as [|i rest IH]; intros idx results Hall.
  - unfold loop. simpl. now rewrite app_nil_r.
  - inversion Hall as [|? ? [r Hr] Hrest]; subst.
    rewrite (single_loop_cons_ok i rest idx results r Hr).
    rewrite IH by exact Hrest. simpl fst. simpl snd.
    assert (Hv : row_value ds _apply_field func i = r)
      by (unfold row_value; now rewrite Hr).
    cbn [flat_map map]. rewrite Hv, <- app_assoc. simpl app.
    f_equal. f_equal. destruct rest as [|z rest]; [reflexivity|].
    change (last (i :: z :: rest) idx) with (last (z :: rest) idx).
    clear. revert z. induction rest as [|y rest IHr]; intros z; [reflexivity|].
    change (last (z :: y :: rest) i) with (last (y :: rest) i).
    change (last (z :: y :: rest) idx) with (last (y :: rest) idx).
    apply IHr.
Qed.

(** The loop in general: the completed rows leave their events, then the
    loop ends, or stops at the first row that fails. *)
Lemma single_loop_spec (todo : list Z) (idx : Z) (results : list pyval) :
  exists tail,
    fst (loop todo idx results)
    = flat_map (row_events show_progress_bar pipe)
        (completed ds _apply_field func todo) ++ tail
    /\ sends tail = []
    /\ match snd (snd (loop todo idx results)) with
       | Ok rs => completed ds _apply_field func todo = todo /\ tail = []
                  /\ rs = results ++ map (row_value ds _apply_field func) todo
       | Err e => (List.length (completed ds _apply_field func todo)
                   < List.length todo)%nat
       end.
Proof.
  revert idx results. induction todo as [|i rest IH]; intros idx results.
  - exists []. unfold loop. simpl. now rewrite app_nil_r.
  - destruct (row_result ds _apply_field func i) as [r|e] eqn:Hr.
    + rewrite (single_loop_cons_ok i rest idx results r Hr). simpl fst. simpl snd.
      destruct (IH i (results ++ [r])) as (tail & Htr & Hs & Hout).
      exists tail. simpl completed. rewrite Hr. simpl is_ok. cbv iota.
      split; [|split; [exact Hs|]].
      * rewrite Htr. cbn [flat_map]. now rewrite app_assoc.
      * destruct (snd (snd (loop rest i (results ++ [r])))) as [rs|e'].
        -- destruct Hout as (Hc & Ht & Hrs). split; [now f_equal|].
           split; [exact Ht|]. rewrite Hrs, <- app_assoc.
           assert (Hv : row_value ds _apply_field func i = r)
             by (unfold row_value; now rewrite Hr).
           cbn [map]. now rewrite Hv.
        -- simpl. lia.
    + destruct (single_loop_cons_err i rest idx results e Hr) as (Hs & Hout & Htr).
      exists (fst (loop (i :: rest) idx results)).
      simpl completed. rewrite Hr. simpl is_ok. cbv iota. simpl flat_map.
      split; [reflexivity|]. split; [exact Hs|].
      rewrite Hout. simpl. lia.
Qed.

End SingleLoop.

(** ** Reading a trace *)

Lemma sends_app (a b : trace) : sends (a ++ b) = sends a ++ sends b.
Proof. apply flat_map_app. Qed.

Lemma calls_app (a b : trace) : calls (a ++ b) = calls a ++ calls b.
Proof. apply flat_map_app. Qed.

Lemma prints_app (a b : trace) : prints (a ++ b) = prints a ++ prints b.
Proof. apply flat_map_app. Qed.

Lemma calls_row_events (show_progress_bar : bool) (pipe : option pipe_end) (todo : list Z) :
  calls (flat_map (row_events show_progress_bar pipe) todo) = todo.
Proof.
  induction todo as [|i rest IH]; [reflexivity|].
  cbn [flat_map]. rewrite calls_app, IH.
  unfold row_events. destruct pipe, show_progress_bar; reflexivity.
Qed.

Lemma prints_row_events (show_progress_bar : bool) (pipe : option pipe_end) (todo : list Z) :
  prints (flat_map (row_events show_progress_bar pipe) todo) = [].
Proof.
  induction todo as [|i rest IH]; [reflexivity|].
  cbn [flat_map]. rewrite prints_app, IH.
  unfold row_events. destruct pipe, show_progress_bar; reflexivity.
Qed.

Lemma sends_row_events (show_progress_bar : bool) (p : pipe_end) (todo : list Z) :
  sends (flat_map (row_events show_progress_bar (Some p)) todo)
  = map (fun i => VList [VInt (i + 1)]) todo.
Proof.
  induction todo as [|i rest IH]; [reflexivity|].
  cbn [flat_map map]. rewrite sends_app, IH.
  unfold row_events. destruct show_progress_bar; reflexivity.
Qed.

Lemma range_snoc (i : Z) : 0 <= i -> Py.range (i + 1) = Py.range i ++ [i].
Proof.
  intros Hi. unfold Py.range.
  replace (Z.to_nat (i + 1)) with (Z.to_nat i + 1)%nat by lia.
  rewrite seq_app, map_app. simpl. f_equal. f_equal. lia.
Qed.

Lemma range_split (n i : Z) :
  0 <= i < n ->
  Py.range n
  = Py.range i ++ i :: map Z.of_nat (seq (S (Z.to_nat i)) (Z.to_nat n - S (Z.to_nat i))).
Proof.
  intros Hi. unfold Py.range.
  replace (Z.to_nat n) with (Z.to_nat i + S (Z.to_nat n - S (Z.to_nat i)))%nat at 1 by lia.
  rewrite seq_app, map_app. simpl. f_equal. f_equal. lia.
Qed.

Lemma in_range (n j : Z) : In j (Py.range n) <-> 0 <= j < n.
Proof.
  unfold Py.range. rewrite in_map_iff. split.
  - intros (x & <- & Hx). apply in_seq in Hx. lia.
  - intros Hj. exists (Z.to_nat j). split; [lia|]. apply in_seq. lia.
Qed.

Lemma single_loop_app_ok (ds : DataSet) (_apply_field : option string) (func : user_func)
  (show_progress_bar : bool) (pipe : option pipe_end)
  (pre rest : list Z) (idx : Z) (results : list pyval) :
  Forall (fun i => exists r, row_result ds _apply_field func i = Ok r) pre ->
  single_loop ds _apply_field func show_progress_bar pipe (pre ++ rest) idx results
  = (flat_map (row_events show_progress_bar pipe) pre
       ++ fst (single_loop ds _apply_field func show_progress_bar pipe rest
                 (last pre idx) (results ++ map (row_value ds _apply_field func) pre)),
     snd (single_loop ds _apply_field func show_progress_bar pipe rest
            (last pre idx) (results ++ map (row_value ds _apply_field func) pre))).
Proof.
  revert idx results. induction pre as [|i pre IH]; intros idx results Hall.
  - simpl. rewrite app_nil_r. now destruct (single_loop _ _ _ _ _ _ _ _).
  - inversion Hall as [|? ? [r Hr] Hpre]; subst.
    rewrite <- app_comm_cons.
    rewrite (single_loop_cons_ok ds _apply_field func show_progress_bar pipe
               i (pre ++ rest) idx results r Hr).
    rewrite IH by exact Hpre. cbn [fst snd flat_map map].
    assert (Hv : row_value ds _apply_field func i = r)
      by (unfold row_value; now rewrite Hr).
    rewrite Hv, <- !app_assoc. cbn [app].
    assert (Hlast : last (i :: pre) idx = last pre i).
    { destruct pre as [|z pre']; [reflexivity|].
      change (last (i :: z :: pre') idx) with (last (z :: pre') idx).
      clear. revert z. induction pre' as [|y pre' IHp]; intros z; [reflexivity|].
      change (last (z :: y :: pre') i) with (last (y :: pre') i).
      change (last (z :: y :: pre') idx) with (last (y :: pre') idx).
      apply IHp. }
    now rewrite Hlast.
Qed.

(** C7. In a single-process apply whose user function raises [e] on row
    [i] after the rows before it were processed: the function was called on
    the rows [0 .. i] in order and on no other, [e] is what the caller
    gets, and the row index printed is [i], the index in the whole dataset;
    a function raising on row 4 of 10 reports index 4. *)
Theorem apply_single_reports_row (self : DataSet) (_apply_field : option string)
  (func : user_func) (show_progress_bar : bool) (progress_desc : option string)
  (i : Z) (ins : Instance) (a : farg) (e : exn) :
  0 <= i < __len__ self ->
  (forall j, 0 <= j < i -> exists r, row_result self _apply_field func j = Ok r) ->
  getitem_int self i = Ok ins ->
  func_arg _apply_field ins = Ok a ->
  func a = Err e ->
  let run := _apply_process self 0 func show_progress_bar _apply_field progress_desc in
  snd run = Raises e /\
  calls (fst run) = Py.range (i + 1) /\
  prints (fst run) = [ExceptionAt i] /\
  fst run
  = (if show_progress_bar
     then [EvAddTask (desc_or_main progress_desc) (__len__ self) show_progress_bar]
     else [])
    ++ flat_map (row_events show_progress_bar None) (Py.range i)
    ++ [EvCall i; EvPrint (ExceptionAt i)]
    ++ (if show_progress_bar then [EvDestroyTask] else []).
Proof.
  intros Hi Hbefore Hget Harg Hraise run.
  assert (Hrun : run
    = ((if show_progress_bar
        then [EvAddTask (desc_or_main progress_desc) (__len__ self) show_progress_bar]
        else [])
       ++ flat_map (row_events show_progress_bar None) (Py.range i)
       ++ [EvCall i; EvPrint (ExceptionAt i)]
       ++ (if show_progress_bar then [EvDestroyTask] else []),
       Raises e)).
  { unfold run, _apply_process, _apply_process_kw. simpl (0 =? 0). cbv iota.
    unfold _apply_single.
    rewrite (range_split (__len__ self) i Hi).
    rewrite single_loop_app_ok.
    2:{ apply Forall_forall. intros j Hj. apply in_range in Hj. now apply Hbefore. }
    rewrite (single_loop_cons_raise self _apply_field func show_progress_bar None
               i _ _ _ ins a e Hget Harg Hraise).
    cbn [fst snd].
    destruct (Z.eqb_spec i (-1)); [lia|]. cbn [negb of_py].
    f_equal. rewrite <- !app_assoc. reflexivity. }
  rewrite Hrun. cbn [fst snd].
  split; [reflexivity|]. split; [|split; [|reflexivity]].
  - rewrite !calls_app, calls_row_events, range_snoc by lia.
    destruct show_progress_bar; simpl; now rewrite ?app_nil_r.
  - rewrite !prints_app, prints_row_events.
    destruct show_progress_bar; reflexivity.
Qed.

Lemma apply_single_reports_row_witness :
  snd (_apply_process ex_rows10 0 raise_on_4 false (Some "x") None) = Raises (UserError 4)
  /\ calls (fst (_apply_process ex_rows10 0 raise_on_4 false (Some "x") None))
     = [0; 1; 2; 3; 4]
  /\ prints (fst (_apply_process ex_rows10 0 raise_on_4 false (Some "x") None))
     = [ExceptionAt 4].
Proof.
  pose proof (apply_single_reports_row ex_rows10 (Some "x") raise_on_4 false None 4
                (mkInstance [("x", VInt 4)]) (ArgField (VInt 4)) (UserError 4)) as H.
  assert (H1 : 0 <= 4 < __len__ ex_rows10) by (vm_compute; split; congruence).
  assert (H2 : forall j, 0 <= j < 4 ->
                 exists r, row_result ex_rows10 (Some "x") raise_on_4 j = Ok r).
  { intros j Hj.
    assert (Hc : j = 0 \/ j = 1 \/ j = 2 \/ j = 3) by lia.
    destruct Hc as [-> | [-> | [-> | ->]]]; eexists; reflexivity. }
  specialize (H H1 H2 eq_refl eq_refl eq_refl).
  destruct H as (Ha & Hb & Hc & _).
  split; [exact Ha|]. split; [exact Hb|exact Hc].
Defined.

(** ** Deleting an instance *)

Lemma norm_index_valid (n index : Z) :
  - n <= index < n -> Py.norm_index n index = Some (position n index).
Proof.
  intros H. unfold Py.norm_index, position.
  destruct (Z.ltb_spec index 0).
  - destruct (Z.leb_spec 0 (index + n)); [|lia].
    destruct (Z.ltb_spec (index + n) n); [reflexivity|lia].
  - destruct (Z.leb_spec 0 index); [|lia].
    destruct (Z.ltb_spec index n); [reflexivity|lia].
Qed.

Lemma pop_all_uniform (n index : Z) (cols : Py.dict FieldArray) :
  - n <= index < n ->
  (forall f, In f (Py.values cols) -> fa_len f = n) ->
  pop_all cols index
  = (map (fun kf => (fst kf, mkFieldArray (name (snd kf))
                               (remove_at (position n index) (content (snd kf))))) cols,
     Ok tt).
Proof.
  intros Hi. induction cols as [|[k f] cols IH]; intros Hu; [reflexivity|].
  simpl. unfold fa_pop, Py.pop.
  assert (Hf : Py.len (content f) = n) by (apply (Hu f); now left).
  rewrite Hf, norm_index_valid by exact Hi. simpl.
  rewrite IH by (intros g Hg; apply Hu; now right). reflexivity.
Qed.

Lemma remove_at_length {A} (p : nat) (l : list A) :
  (p < List.length l)%nat -> List.length (remove_at p l) = (List.length l - 1)%nat.
Proof.
  intros H. unfold remove_at. rewrite length_app, length_firstn, length_skipn. lia.
Qed.

(** C10. Deleting the instance of a one-row dataset clears the store: no
    field is left.  Deleting an instance of a dataset with two or more rows
    keeps every field, in place and under its name, and removes from each
    column the value at the deleted row and nothing else. *)
Theorem delete_instance_fields (self : DataSet) (index : Z) :
  (__len__ self = 1 -> index <= 0 ->
     delete_instance self index = (mkDataSet [], Ok tt)) /\
  (uniform self -> 2 <= __len__ self -> - __len__ self <= index < __len__ self ->
     let after := fst (delete_instance self index) in
     snd (delete_instance self index) = Ok tt /\
     Py.keys (field_arrays after) = Py.keys (field_arrays self) /\
     columns after
     = map (fun kc => (fst kc, remove_at (position (__len__ self) index) (snd kc)))
         (columns self) /\
     __len__ after = __len__ self - 1).
Proof.
  split.
  - intros Hlen Hidx. unfold delete_instance. rewrite Hlen.
    destruct (Z.leb_spec 1 index); [lia|]. reflexivity.
  - intros Hu Hlen Hidx after. unfold after, delete_instance.
    destruct (Z.leb_spec (__len__ self) index); [lia|].
    destruct (Z.eqb_spec (__len__ self) 1); [lia|].
    rewrite (pop_all_uniform (__len__ self) index (field_arrays self) Hidx Hu).
    cbn [fst snd field_arrays]. split; [reflexivity|]. split; [|split].
    + unfold Py.keys. rewrite map_map. reflexivity.
    + unfold columns. cbn [field_arrays]. rewrite !map_map. reflexivity.
    + destruct self as [cols]. unfold __len__ in *. cbn [field_arrays] in *.
      destruct cols as [|[k f] cols]; [lia|]. cbn [map fst snd].
      unfold fa_len, Py.len in *. cbn [content].
      rewrite remove_at_length; [lia|].
      unfold position. destruct (Z.ltb_spec index 0); lia.
Qed.

Lemma uniform_by_lengths (self : DataSet) :
  forallb (fun f => fa_len f =? __len__ self) (Py.values (field_arrays self)) = true ->
  uniform self.
Proof.
  intros H f Hf. rewrite forallb_forall in H. apply Z.eqb_eq. now apply H.
Qed.

Lemma delete_instance_fields_witness :
  delete_instance ex_one_row 0 = (mkDataSet [], Ok tt) /\
  columns (fst (delete_instance ex_two_rows 0)) = [("x", [VInt 2]); ("y", [VStr "b"])].
Proof.
  destruct (delete_instance_fields ex_one_row 0) as [H1 _].
  destruct (delete_instance_fields ex_two_rows 0) as [_ H2].
  split.
  - apply H1; [reflexivity|lia].
  - assert (Hu : uniform ex_two_rows) by (apply uniform_by_lengths; reflexivity).
    assert (Hl : 2 <= __len__ ex_two_rows) by (vm_compute; congruence).
    assert (Hi : - __len__ ex_two_rows <= 0 < __len__ ex_two_rows)
      by (vm_compute; split; congruence).
    destruct (H2 Hu Hl Hi) as (_ & _ & Hc & _). exact Hc.
Defined.

(** ** Slicing and concatenating, appending and reading back *)

Lemma get_map_values {V W} (h : string -> V -> W) (k : string) (d : Py.dict V) :
  Py.get k (map (fun kv => (fst kv, h (fst kv) (snd kv))) d)
  = option_map (h k) (Py.get k d).
Proof.
  induction d as [|[k' v] d IH]; simpl; [reflexivity|].
  destruct (String.eqb_spec k k') as [->|Hne]; [reflexivity|exact IH].
Qed.

Lemma keys_map_values {V W} (h : string -> V -> W) (d : Py.dict V) :
  Py.keys (map (fun kv => (fst kv, h (fst kv) (snd kv))) d) = Py.keys d.
Proof. unfold Py.keys. rewrite map_map. reflexivity. Qed.

Lemma get_in_keys {V} (k : string) (d : Py.dict V) :
  In k (Py.keys d) -> exists v, Py.get k d = Some v.
Proof.
  intros Hin. destruct (Py.get k d) as [v|] eqn:Hg; [now exists v|].
  apply get_none_not_in in Hg. contradiction.
Qed.

(** Two dicts with the same keys in the same order and the same value
    under every key are equal. *)
Lemma dict_ext {V} (a b : Py.dict V) :
  Py.keys a = Py.keys b -> NoDup (Py.keys a) ->
  (forall k, Py.get k a = Py.get k b) -> a = b.
Proof.
  revert b. induction a as [|[k v] a IH]; intros [|[k' v'] b] Hk Hnd Hget;
    try discriminate; [reflexivity|].
  simpl in Hk. injection Hk as <- Hk.
  inversion Hnd as [|? ? Hnotin Hnd']; subst.
  pose proof (Hget k) as Hk0. simpl in Hk0. rewrite String.eqb_refl in Hk0.
  injection Hk0 as <-. f_equal.
  apply IH; [exact Hk|exact Hnd'|].
  intros k0. specialize (Hget k0). simpl in Hget.
  destruct (String.eqb_spec k0 k) as [Heq|Hne]; [|exact Hget].
  rewrite Heq.
  assert (Ha : Py.get k a = None) by (now apply get_none_not_in).
  assert (Hb : Py.get k b = None) by (apply get_none_not_in; now rewrite <- Hk).
  now rewrite Ha, Hb.
Qed.

Lemma existsb_eqb_in (k : string) (l : list string) :
  existsb (String.eqb k) l = true <-> In k l.
Proof.
  rewrite existsb_exists. split.
  - intros (x & Hx & He). apply String.eqb_eq in He. now subst.
  - intros H. exists k. split; [exact H|apply String.eqb_refl].
Qed.

Lemma set_diff_nonempty_incl (a b : list string) :
  incl a b -> Py.set_diff_nonempty a b = false.
Proof.
  intros Hincl. unfold Py.set_diff_nonempty.
  apply not_true_is_false. intros H. apply existsb_exists in H.
  destruct H as (k & Hk & Hn). apply negb_true_iff in Hn.
  assert (Ht : existsb (String.eqb k) b = true) by (apply existsb_eqb_in; auto).
  congruence.
Qed.

Lemma set_diff_nonempty_false (a b : list string) :
  Py.set_diff_nonempty a b = false -> incl a b.
Proof.
  unfold Py.set_diff_nonempty. intros H k Hk.
  destruct (existsb (String.eqb k) b) eqn:Hb; [now apply existsb_eqb_in|].
  exfalso. assert (Ht : existsb (fun k => negb (existsb (String.eqb k) b)) a = true).
  { apply existsb_exists. exists k. split; [exact Hk|]. now rewrite Hb. }
  congruence.
Qed.

Lemma concat_extend_spec (dataset : DataSet) (order : list string) :
  forall cols : Py.dict FieldArray,
  NoDup order -> incl order (Py.keys cols) ->
  incl order (Py.keys (field_arrays dataset)) ->
  exists r, concat_extend cols dataset [] order = (r, Ok tt)
    /\ Py.keys r = Py.keys cols
    /\ forall k, Py.get k r
                 = if existsb (String.eqb k) order
                   then option_map (extend_col dataset k) (Py.get k cols)
                   else Py.get k cols.
Proof.
  induction order as [|fn rest IH]; intros cols Hnd Hin Hin2.
  - exists cols. simpl. auto.
  - inversion Hnd as [|? ? Hfresh Hnd']; subst.
    destruct (get_in_keys fn cols (Hin fn (or_introl eq_refl))) as [f Hf].
    destruct (get_in_keys fn (field_arrays dataset) (Hin2 fn (or_introl eq_refl)))
      as [g Hg].
    simpl. rewrite Hf. unfold get_field. rewrite Hg.
    assert (Hkeys : Py.keys (Py.set fn (mkFieldArray (name f) (content f ++ content g)) cols)
                    = Py.keys cols).
    { apply set_keys_present. apply Hin. now left. }
    destruct (IH (Py.set fn (mkFieldArray (name f) (content f ++ content g)) cols))
      as (r & Hr & Hk & Hget).
    + exact Hnd'.
    + rewrite Hkeys. intros x Hx. apply Hin. now right.
    + intros x Hx. apply Hin2. now right.
    + exists r. split; [exact Hr|]. split; [now rewrite Hk|].
      intros k. rewrite Hget.
      destruct (String.eqb_spec k fn) as [->|Hne].
      * assert (Hrest : existsb (String.eqb fn) rest = false).
        { apply not_true_is_false. intros H. apply existsb_eqb_in in H. contradiction. }
        rewrite Hrest, get_set_same, Hf. simpl. unfold extend_col. now rewrite Hg.
      * simpl. rewrite get_set_other by exact Hne. reflexivity.
Qed.

Lemma slice_cols_get (cols : Py.dict FieldArray) (start stop : option Z) (k : string) :
  Py.get k (slice_cols cols start stop)
  = option_map (fun f => mkFieldArray k (Py.slice (content f) start stop)) (Py.get k cols).
Proof.
  unfold slice_cols.
  apply (get_map_values (fun k f => mkFieldArray k (Py.slice (content f) start stop))).
Qed.

Lemma columns_get (self : DataSet) (k : string) :
  Py.get k (columns self) = option_map content (Py.get k (field_arrays self)).
Proof. unfold columns. apply (get_map_values (fun _ f => content f)). Qed.

Lemma columns_keys (self : DataSet) : Py.keys (columns self) = Py.keys (field_arrays self).
Proof. unfold columns. apply (keys_map_values (fun _ f => content f)). Qed.

(** Slicing at [a] and concatenating the two pieces gives the columns back. *)
Lemma slice_concat_columns (self : DataSet) (a : Z) (order : list string) :
  uniform self -> distinct_fields self -> 0 < a < __len__ self ->
  Permutation order (Py.keys (field_arrays self)) ->
  exists d1 d2 d,
    getitem_slice self (Some 0) (Some a) = Ok d1 /\
    getitem_slice self (Some a) (Some (__len__ self)) = Ok d2 /\
    concat d1 d2 true None order = (d, Ok d) /\
    columns d = columns self.
Proof.
  intros Hu Hd Ha Hperm.
  set (N := __len__ self) in *.
  set (d1 := mkDataSet (slice_cols (field_arrays self) (Some 0) (Some a))).
  set (d2 := mkDataSet (slice_cols (field_arrays self) (Some a) (Some N))).
  assert (Hk1 : Py.keys (field_arrays d1) = Py.keys (field_arrays self)).
  { unfold d1, slice_cols. cbn [field_arrays].
    apply (keys_map_values (fun k f => mkFieldArray k (Py.slice (content f) (Some 0) (Some a)))). }
  assert (Hk2 : Py.keys (field_arrays d2) = Py.keys (field_arrays self)).
  { unfold d2, slice_cols. cbn [field_arrays].
    apply (keys_map_values (fun k f => mkFieldArray k (Py.slice (content f) (Some a) (Some N)))). }
  assert (Hnd : NoDup order).
  { eapply Permutation_NoDup; [apply Permutation_sym; exact Hperm|exact Hd]. }
  destruct (concat_extend_spec d2 order (field_arrays d1) Hnd) as (r & Hr & Hkr & Hget).
  { rewrite Hk1. intros x Hx. eapply Permutation_in; eauto. }
  { rewrite Hk2. intros x Hx. eapply Permutation_in; eauto. }
  exists d1, d2, (mkDataSet r).
  split; [apply getitem_slice_uniform; auto; fold N; lia|].
  split; [apply getitem_slice_uniform; auto; fold N; lia|].
  split.
  - unfold concat. rewrite set_diff_nonempty_incl.
    2:{ rewrite Hk1, Hk2. intros x Hx. apply in_map_iff. exists x. split; [reflexivity|exact Hx]. }
    cbn [reverse_mapping]. rewrite Hr. reflexivity.
  - apply dict_ext.
    + rewrite !columns_keys. cbn [field_arrays]. now rewrite Hkr, Hk1.
    + rewrite columns_keys. cbn [field_arrays]. rewrite Hkr, Hk1. exact Hd.
    + intros k. rewrite !columns_get. cbn [field_arrays]. rewrite Hget.
      unfold d1 at 1 2. cbn [field_arrays]. rewrite slice_cols_get.
      destruct (Py.get k (field_arrays self)) as [f|] eqn:Hf.
      * assert (Hin : In k order).
        { eapply Permutation_in; [apply Permutation_sym; exact Hperm|].
          apply get_some_in in Hf. change k with (fst (k, f)). now apply in_map. }
        apply existsb_eqb_in in Hin. rewrite Hin. cbn [option_map].
        unfold extend_col, d2. cbn [field_arrays]. rewrite slice_cols_get, Hf.
        cbn [option_map content]. f_equal.
        assert (Hlen : Py.len (content f) = N).
        { apply (Hu f). apply get_some_in in Hf. change f with (snd (k, f)).
          now apply in_map. }
        rewrite slice_adjacent by lia. rewrite <- Hlen. apply slice_whole.
      * destruct (existsb (String.eqb k) order); reflexivity.
Qed.

Lemma append_seed_fresh (items : list (string * pyval)) :
  forall acc : Py.dict FieldArray,
  NoDup (Py.keys acc ++ Py.keys items) ->
  append_seed acc items
  = acc ++ map (fun kv => (fst kv, mkFieldArray (fst kv) [snd kv])) items.
Proof.
  induction items as [|[k v] items IH]; intros acc Hnd; simpl.
  - now rewrite app_nil_r.
  - rewrite set_fresh.
    + rewrite IH.
      * now rewrite <- app_assoc.
      * unfold Py.keys in *. rewrite map_app, <- app_assoc. exact Hnd.
    + intros Hin. apply NoDup_remove_2 in Hnd. apply Hnd. apply in_or_app. now left.
Qed.

Lemma row_of_spec (h : string -> pyval) (idx : Z) (cols : Py.dict FieldArray) :
  (forall k f, In (k, f) cols -> fa_getitem f idx = Ok (h k)) ->
  row_of cols idx = Ok (map (fun kf => (fst kf, h (fst kf))) cols).
Proof.
  induction cols as [|[k f] cols IH]; intros H; simpl; [reflexivity|].
  rewrite (H k f) by (now left). simpl.
  rewrite IH by (intros k' f' Hin; apply H; now right). reflexivity.
Qed.

Lemma getitem_last {A} (l : list A) (v : A) : Py.getitem (l ++ [v]) (Py.len l) = Ok v.
Proof.
  unfold Py.getitem, Py.norm_index, Py.len. rewrite length_app. simpl.
  destruct (Z.ltb_spec (Z.of_nat (List.length l)) 0); [lia|].
  destruct (Z.leb_spec 0 (Z.of_nat (List.length l))); [|lia].
  destruct (Z.ltb_spec (Z.of_nat (List.length l)) (Z.of_nat (List.length l + 1))); [|lia].
  simpl. rewrite Nat2Z.id, nth_error_app2 by lia.
  now rewrite Nat.sub_diag.
Qed.

Lemma append_fill_incl (items : list (string * pyval)) :
  forall cols r, append_fill cols items = (r, Ok tt) -> incl (Py.keys items) (Py.keys cols).
Proof.
  induction items as [|[k v] items IH]; intros cols r H; simpl in *.
  - intros x [].
  - destruct (Py.get k cols) as [f|] eqn:Hf; [|discriminate].
    assert (Hk : In k (Py.keys cols)).
    { apply get_some_in in Hf. change k with (fst (k, f)). now apply in_map. }
    apply IH in H. rewrite set_keys_present in H by exact Hk.
    intros x [<-|Hx]; auto.
Qed.

Lemma append_fill_spec (items : list (string * pyval)) :
  forall cols : Py.dict FieldArray,
  NoDup (Py.keys items) -> incl (Py.keys items) (Py.keys cols) ->
  exists r, append_fill cols items = (r, Ok tt)
    /\ Py.keys r = Py.keys cols
    /\ forall k, Py.get k r
                 = match Py.get k items with
                   | Some v => option_map (fun f => fa_append f v) (Py.get k cols)
                   | None => Py.get k cols
                   end.
Proof.
  induction items as [|[k v] items IH]; intros cols Hnd Hin.
  - exists cols. simpl. auto.
  - inversion Hnd as [|? ? Hfresh Hnd']; subst.
    destruct (get_in_keys k cols (Hin k (or_introl eq_refl))) as [f Hf].
    simpl. rewrite Hf.
    assert (Hkeys : Py.keys (Py.set k (fa_append f v) cols) = Py.keys cols).
    { apply set_keys_present. apply Hin. now left. }
    destruct (IH (Py.set k (fa_append f v) cols)) as (r & Hr & Hk & Hget).
    + exact Hnd'.
    + rewrite Hkeys. intros x Hx. apply Hin. now right.
    + exists r. split; [exact Hr|]. split; [now rewrite Hk|].
      intros k0. rewrite Hget.
      destruct (String.eqb_spec k0 k) as [Heq|Hne].
      * rewrite Heq.
        assert (Hnone : Py.get k items = None) by (now apply get_none_not_in).
        rewrite Hnone, get_set_same, Hf. reflexivity.
      * rewrite get_set_other by exact Hne. reflexivity.
Qed.

(** Appending a row to a well-formed dataset and reading the row at the
    former length gives the appended values back, field by field. *)
Lemma append_read_back (self self' : DataSet) (instance : Instance) :
  uniform self -> distinct_fields self -> NoDup (Py.keys (fields instance)) ->
  append self instance = (self', Ok tt) ->
  exists ins, getitem_int self' (__len__ self) = Ok ins
    /\ forall k, Py.get k (fields ins) = Py.get k (fields instance).
Proof.
  intros Hu Hd Hnd Happ. unfold append in Happ.
  destruct self as [cols]. destruct instance as [items].
  unfold ins_items, distinct_fields, uniform in *. cbn [field_arrays fields] in *.
  destruct (Z.eqb_spec (Py.len cols) 0) as [Hz|Hnz].
  - (* the first row *)
    destruct cols as [|c cols]; [|unfold Py.len in Hz; simpl in Hz; lia].
    injection Happ as <-. rewrite append_seed_fresh by exact Hnd.
    unfold getitem_int, __len__. cbn [field_arrays app].
    exists (mkInstance items). split; [|reflexivity].
    assert (Hrow : row_of (map (fun kv => (fst kv, mkFieldArray (fst kv) [snd kv])) items) 0
                   = Ok items).
    { clear. induction items as [|[k v] items IH]; [reflexivity|].
      simpl. rewrite IH. reflexivity. }
    now rewrite Hrow.
  - destruct (Z.eqb_spec (Py.len cols) (Py.len items)) as [Hcount|]; [|discriminate].
    cbn [negb] in Happ.
    destruct (append_fill cols items) as [cols' r] eqn:Hfill.
    injection Happ as <- ->.
    pose proof (append_fill_incl items cols cols' Hfill) as Hincl.
    destruct (append_fill_spec items cols Hnd Hincl) as (r & Hr & Hkeys & Hget).
    rewrite Hfill in Hr. injection Hr as <-.
    assert (Hincl' : incl (Py.keys cols) (Py.keys items)).
    { apply NoDup_length_incl; [exact Hnd| |exact Hincl].
      unfold Py.keys, Py.len in *. rewrite !length_map. lia. }
    set (h := fun k => match Py.get k items with Some v => v | None => VNone end).
    set (N := __len__ (mkDataSet cols)).
    assert (Hrow : row_of cols' N = Ok (map (fun kf => (fst kf, h (fst kf))) cols')).
    { apply row_of_spec. intros k f' Hin'.
      assert (Hg' : Py.get k cols' = Some f').
      { apply in_get_some; [now rewrite Hkeys|exact Hin']. }
      assert (Hk : In k (Py.keys cols)).
      { rewrite <- Hkeys. change k with (fst (k, f')). now apply in_map. }
      destruct (get_in_keys k items (Hincl' k Hk)) as [v Hv].
      destruct (get_in_keys k cols Hk) as [f Hf].
      rewrite Hget, Hv, Hf in Hg'. injection Hg' as <-.
      unfold h. rewrite Hv. unfold fa_getitem, fa_append. cbn [content].
      assert (HN : Py.len (content f) = N).
      { apply (Hu f). apply get_some_in in Hf. change f with (snd (k, f)).
        now apply in_map. }
      rewrite <- HN. apply getitem_last. }
    exists (mkInstance (map (fun kf => (fst kf, h (fst kf))) cols')).
    unfold getitem_int. cbn [field_arrays]. fold N. rewrite Hrow.
    split; [reflexivity|]. intros k. cbn [fields].
    rewrite (get_map_values (fun k _ => h k)).
    destruct (Py.get k items) as [v|] eqn:Hv.
    + assert (Hk : In k (Py.keys cols')).
      { rewrite Hkeys. apply Hincl. apply get_some_in in Hv.
        change k with (fst (k, v)). now apply in_map. }
      destruct (get_in_keys k cols' Hk) as [f' Hf']. rewrite Hf'.
      unfold h. now rewrite Hv.
    + assert (Hk : ~ In k (Py.keys cols')).
      { rewrite Hkeys. intros Hin. apply Hincl' in Hin.
        apply get_none_not_in in Hv. contradiction. }
      apply get_none_not_in in Hk. now rewrite Hk.
Qed.

(** C9. For a well-formed dataset with [N] rows and a split point
    [0 < a < N], the slices [[0:a]] and [[a:N]] exist and their
    concatenation, whatever the order in which [concat] visits the fields,
    has the columns of the original, field for field and element for
    element; and a row appended to a well-formed dataset is read back at its
    index with the inserted value under every field name. *)
Theorem slice_concat_append_round_trip (self : DataSet) :
  uniform self -> distinct_fields self ->
  (forall a order,
     0 < a < __len__ self -> Permutation order (Py.keys (field_arrays self)) ->
     exists d1 d2 d,
       getitem_slice self (Some 0) (Some a) = Ok d1 /\
       getitem_slice self (Some a) (Some (__len__ self)) = Ok d2 /\
       concat d1 d2 true None order = (d, Ok d) /\
       columns d = columns self) /\
  (forall instance self',
     NoDup (Py.keys (fields instance)) ->
     append self instance = (self', Ok tt) ->
     exists ins, getitem_int self' (__len__ self) = Ok ins
       /\ forall k, Py.get k (fields ins) = Py.get k (fields instance)).
Proof.
  intros Hu Hd. split.
  - intros a order Ha Hperm. now apply slice_concat_columns.
  - intros instance self' Hnd Happ. now apply append_read_back with (self' := self').
Qed.

Lemma distinctb_NoDup (l : list string) : distinctb l = true -> NoDup l.
Proof.
  induction l as [|k rest IH]; simpl; intros H; [constructor|].
  apply andb_true_iff in H. destruct H as [Hk Hrest]. constructor.
  - intros Hin. apply existsb_eqb_in in Hin. rewrite Hin in Hk. discriminate.
  - now apply IH.
Qed.

Lemma slice_concat_append_round_trip_witness :
  (exists d1 d2 d,
     getitem_slice ex_xy4 (Some 0) (Some 1) = Ok d1 /\
     getitem_slice ex_xy4 (Some 1) (Some (__len__ ex_xy4)) = Ok d2 /\
     concat d1 d2 true None ["y"; "x"] = (d, Ok d) /\
     columns d = columns ex_xy4) /\
  (exists ins, getitem_int (fst (append ex_xy4 ex_row)) (__len__ ex_xy4) = Ok ins
     /\ forall k, Py.get k (fields ins) = Py.get k (fields ex_row)).
Proof.
  assert (Hu : uniform ex_xy4) by (apply uniform_by_lengths; reflexivity).
  assert (Hd : distinct_fields ex_xy4) by (apply distinctb_NoDup; reflexivity).
  destruct (slice_concat_append_round_trip ex_xy4 Hu Hd) as [H1 H2].
  split.
  - apply H1.
    + vm_compute. split; congruence.
    + apply perm_swap.
  - apply (H2 ex_row (fst (append ex_xy4 ex_row))).
    + apply distinctb_NoDup. reflexivity.
    + reflexivity.
Defined.

(** ** A row whose fields do not match the store *)

(** C8, at a failing input.  The store has the fields [a] and [b], one
    row; the appended row has the fields [a] and [c].  The count of fields
    agrees, [a] is appended, then the assertion on [c] fails: the call
    raises and leaves column [a] with two values and column [b] with one. *)
Theorem append_mismatch_leaves_unequal_columns :
  uniform ex_ab /\
  append ex_ab ex_row_ac
  = (mkDataSet [("a", mkFieldArray "a" [VInt 1; VInt 5]);
                ("b", mkFieldArray "b" [VInt 2])],
     Err AssertionError) /\
  ~ uniform (fst (append ex_ab ex_row_ac)) /\
  __len__ (fst (append ex_ab ex_row_ac)) = 2 /\
  getitem_int (fst (append ex_ab ex_row_ac)) 1 = Err IndexError.
Proof.
  split; [apply uniform_by_lengths; reflexivity|].
  split; [reflexivity|]. split; [|split; reflexivity].
  intros Hu.
  specialize (Hu (mkFieldArray "b" [VInt 2])).
  assert (Hin : In (mkFieldArray "b" [VInt 2])
                  (Py.values (field_arrays (fst (append ex_ab ex_row_ac)))))
    by (right; left; reflexivity).
  specialize (Hu Hin). vm_compute in Hu. discriminate.
Qed.

(** ** The result merger *)

Lemma set_nodup {V} (k : string) (v : V) (d : Py.dict V) :
  NoDup (Py.keys d) -> NoDup (Py.keys (Py.set k v d)).
Proof.
  intros Hnd. destruct (in_dec string_dec k (Py.keys d)) as [Hin|Hnotin].
  - now rewrite set_keys_present.
  - rewrite set_fresh by exact Hnotin. unfold Py.keys in *. rewrite map_app. simpl.
    apply NoDup_app; [exact Hnd|repeat constructor; intros []|].
    intros x Hx [<-|[]]. contradiction.
Qed.

Lemma merge_seed_nodup (items : list (string * pyval)) :
  forall results, NoDup (Py.keys results) -> NoDup (Py.keys (merge_seed results items)).
Proof.
  induction items as [|[k v] items IH]; intros results Hnd; simpl; [exact Hnd|].
  apply IH. now apply set_nodup.
Qed.

Lemma set_in {V} (k : string) (v : V) (d : Py.dict V) (k0 : string) (v0 : V) :
  In (k0, v0) (Py.set k v d) -> (k0, v0) = (k, v) \/ In (k0, v0) d.
Proof.
  induction d as [|[k' v'] d IH]; simpl.
  - intros [H|[]]. left. now symmetry.
  - destruct (String.eqb_spec k k') as [->|Hne]; simpl.
    + intros [H|H]; [left; now symmetry|right; now right].
    + intros [H|H]; [right; now left|].
      destruct (IH H) as [Heq|Hin]; [now left|right; now right].
Qed.

Lemma merge_seed_len (items : list (string * pyval)) :
  forall results, all_len results 1 -> all_len (merge_seed results items) 1.
Proof.
  induction items as [|[k v] items IH]; intros results Hall; simpl; [exact Hall|].
  apply IH. intros k0 col Hin. apply set_in in Hin.
  destruct Hin as [Heq|Hin]; [now injection Heq as -> ->|eauto].
Qed.

Lemma merge_row_incl (items : list (string * pyval)) :
  forall results r, merge_row results items = (r, Ok tt) ->
                    incl (Py.keys items) (Py.keys results).
Proof.
  induction items as [|[k v] items IH]; intros results r H; simpl in *.
  - intros x [].
  - destruct (Py.get k results) as [col|] eqn:Hc; [|discriminate].
    assert (Hk : In k (Py.keys results)).
    { apply get_some_in in Hc. change k with (fst (k, col)). now apply in_map. }
    apply IH in H. rewrite set_keys_present in H by exact Hk.
    intros x [<-|Hx]; auto.
Qed.

Lemma merge_row_spec (items : list (string * pyval)) :
  forall results : Py.dict (list pyval),
  NoDup (Py.keys items) -> incl (Py.keys items) (Py.keys results) ->
  exists r, merge_row results items = (r, Ok tt)
    /\ Py.keys r = Py.keys results
    /\ forall k, Py.get k r
                 = match Py.get k items with
                   | Some v => option_map (fun col => col ++ [v]) (Py.get k results)
                   | None => Py.get k results
                   end.
Proof.
  induction items as [|[k v] items IH]; intros results Hnd Hin.
  - exists results. simpl. auto.
  - inversion Hnd as [|? ? Hfresh Hnd']; subst.
    destruct (get_in_keys k results (Hin k (or_introl eq_refl))) as [col Hc].
    simpl. rewrite Hc.
    assert (Hkeys : Py.keys (Py.set k (col ++ [v]) results) = Py.keys results).
    { apply set_keys_present. apply Hin. now left. }
    destruct (IH (Py.set k (col ++ [v]) results)) as (r & Hr & Hk & Hget).
    + exact Hnd'.
    + rewrite Hkeys. intros x Hx. apply Hin. now right.
    + exists r. split; [exact Hr|]. split; [now rewrite Hk|].
      intros k0. rewrite Hget.
      destruct (String.eqb_spec k0 k) as [Heq|Hne].
      * rewrite Heq.
        assert (Hnone : Py.get k items = None) by (now apply get_none_not_in).
        rewrite Hnone, get_set_same, Hc. reflexivity.
      * rewrite get_set_other by exact Hne. reflexivity.
Qed.

(** A row with distinct keys that passes the check and is merged without
    error adds one value to every column. *)
Lemma merge_row_len (results r : Py.dict (list pyval)) (d : list (string * pyval))
  (m : nat) :
  NoDup (Py.keys results) -> NoDup (Py.keys d) -> all_len results m ->
  Py.set_diff_nonempty (Py.keys results) (Py.keys d) = false ->
  merge_row results d = (r, Ok tt) ->
  NoDup (Py.keys r) /\ all_len r (S m).
Proof.
  intros Hndr Hndd Hall Hchk Hrow.
  pose proof (merge_row_incl d results r Hrow) as Hincl.
  destruct (merge_row_spec d results Hndd Hincl) as (r' & Hr' & Hkeys & Hget).
  rewrite Hrow in Hr'. injection Hr' as <-.
  split; [now rewrite Hkeys|].
  intros k col' Hin.
  assert (Hg : Py.get k r = Some col') by (apply in_get_some; [now rewrite Hkeys|exact Hin]).
  assert (Hk : In k (Py.keys results)).
  { rewrite <- Hkeys. change k with (fst (k, col')). now apply in_map. }
  destruct (get_in_keys k results Hk) as [col Hc].
  destruct (get_in_keys k d (set_diff_nonempty_false _ _ Hchk k Hk)) as [v Hv].
  rewrite Hget, Hv, Hc in Hg. injection Hg as <-.
  rewrite length_app. simpl. apply get_some_in in Hc. rewrite (Hall k col Hc). lia.
Qed.

Lemma merge_loop_len (rows : list pyval) :
  forall results i idx m out idx',
  dict_rows rows -> NoDup (Py.keys results) -> all_len results m ->
  merge_loop results rows i idx = (out, (idx', Ok tt)) ->
  all_len out (m + List.length rows).
Proof.
  induction rows as [|row rows IH]; intros results i idx m out idx' Hrows Hnd Hall H.
  - simpl in H. injection H as <- _. now rewrite Nat.add_0_r.
  - simpl in H. destruct row as [| | | |d]; try discriminate.
    destruct (Py.set_diff_nonempty (Py.keys results) (Py.keys d)) eqn:Hchk;
      [discriminate|].
    destruct (merge_row results d) as [r [[]|e]] eqn:Hrow; [|discriminate].
    destruct (merge_row_len results r d m Hnd (Hrows d (or_introl eq_refl)) Hall Hchk Hrow)
      as [Hnd' Hall'].
    apply IH with (m := S m) in H; auto.
    + simpl. now rewrite Nat.add_succ_r.
    + intros d' Hd'. apply Hrows. now right.
Qed.

(** A merge that succeeds gives every output column one value per row. *)
Lemma merge_ok_len (apply_out : list pyval) (tr : trace) (results : Py.dict (list pyval)) :
  dict_rows apply_out ->
  merge apply_out = (tr, results, Ok tt) ->
  all_len results (List.length apply_out).
Proof.
  intros Hrows H. unfold merge in H.
  destruct apply_out as [|first rest]; [discriminate|].
  destruct first as [| | | |d0]; try discriminate.
  destruct (merge_loop (merge_seed [] d0) rest 0 (-1)) as [out [idx [[]|e]]] eqn:Hloop.
  - injection H as _ <-.
    apply (merge_loop_len rest (merge_seed [] d0) 0 (-1) 1 out idx); auto.
    + intros d Hd. apply Hrows. now right.
    + apply merge_seed_nodup. constructor.
    + apply merge_seed_len. intros k col [].
  - destruct (negb (idx =? -1)); discriminate.
Qed.

(** Writing columns of the dataset's length back never fails. *)
Lemma write_back_ok (items : list (string * list pyval)) :
  forall self : DataSet,
  field_arrays self <> [] ->
  (forall k col, In (k, col) items -> Py.len col = __len__ self) ->
  snd (write_back self items) = Ok tt.
Proof.
  induction items as [|[k col] items IH]; intros self Hne Hlen; [reflexivity|].
  simpl. unfold add_field.
  assert (Hc : Py.len col = __len__ self) by (apply (Hlen k); now left).
  rewrite Hc, Z.eqb_refl, andb_false_r.
  apply IH.
  - cbn [field_arrays]. destruct (field_arrays self) as [|[k0 f0] cols]; [contradiction|].
    simpl. destruct (String.eqb k k0); discriminate.
  - intros k' col' Hin. rewrite (Hlen k' col') by (now right).
    unfold __len__. cbn [field_arrays].
    destruct (field_arrays self) as [|[k0 f0] cols] eqn:Hf; [contradiction|].
    simpl. destruct (String.eqb k k0) eqn:Hk; [|reflexivity].
    unfold fa_len. cbn [content]. rewrite Hc. unfold __len__. now rewrite Hf.
Qed.

(** ** The length of what the engine returns *)

Lemma ds_len_nonneg (self : DataSet) : 0 <= __len__ self.
Proof.
  unfold __len__, fa_len, Py.len. destruct (field_arrays self) as [|[k f] cols]; lia.
Qed.

Lemma apply_single_snd (ds : DataSet) (_apply_field : option string) (func : user_func)
  (show_progress_bar : bool) (pipe : option pipe_end) (desc : option string) :
  snd (_apply_single ds _apply_field func show_progress_bar pipe desc)
  = snd (snd (single_loop ds _apply_field func show_progress_bar pipe
                (Py.range (__len__ ds)) (-1) [])).
Proof.
  unfold _apply_single.
  destruct (single_loop _ _ _ _ _ _ _ _) as [tr [idx out]]. reflexivity.
Qed.

Lemma apply_single_sends (ds : DataSet) (_apply_field : option string) (func : user_func)
  (show_progress_bar : bool) (pipe : option pipe_end) (desc : option string) :
  sends (fst (_apply_single ds _apply_field func show_progress_bar pipe desc))
  = sends (fst (single_loop ds _apply_field func show_progress_bar pipe
                  (Py.range (__len__ ds)) (-1) [])).
Proof.
  unfold _apply_single.
  destruct (single_loop _ _ _ _ _ _ _ _) as [tr [idx out]]. cbn [fst].
  rewrite !sends_app.
  destruct show_progress_bar, out; try destruct (negb (idx =? -1));
    simpl; rewrite ?app_nil_r; reflexivity.
Qed.

(** A worker that returns gives one result per row of its dataset. *)
Lemma apply_single_len (ds : DataSet) (_apply_field : option string) (func : user_func)
  (show_progress_bar : bool) (pipe : option pipe_end) (desc : option string)
  (rs : list pyval) :
  snd (_apply_single ds _apply_field func show_progress_bar pipe desc) = Ok rs ->
  Py.len rs = __len__ ds.
Proof.
  rewrite apply_single_snd. intros H.
  destruct (single_loop_spec ds _apply_field func show_progress_bar pipe
              (Py.range (__len__ ds)) (-1) []) as (tail & _ & _ & Hout).
  rewrite H in Hout. destruct Hout as (_ & _ & ->).
  unfold Py.len. simpl. rewrite length_map. apply range_length. apply ds_len_nonneg.
Qed.

Lemma add_field_len (d d' : DataSet) (k : string) (l : list pyval) :
  field_arrays d <> [] -> add_field d k l = (d', Ok tt) ->
  field_arrays d' <> [] /\ __len__ d' = __len__ d.
Proof.
  intros Hne H. unfold add_field in H.
  destruct (negb (Py.len (field_arrays d) =? 0) && negb (__len__ d =? Py.len l)) eqn:Hc;
    [discriminate|].
  injection H as <-. cbn [field_arrays].
  assert (Hl : __len__ d = Py.len l).
  { apply andb_false_iff in Hc. destruct Hc as [Hc|Hc].
    - apply negb_false_iff, Z.eqb_eq in Hc. unfold Py.len in Hc.
      destruct (field_arrays d); [contradiction|simpl in Hc; lia].
    - now apply negb_false_iff, Z.eqb_eq in Hc. }
  unfold __len__ in *. cbn [field_arrays].
  destruct (field_arrays d) as [|[k0 f0] cols]; [contradiction|].
  simpl. destruct (String.eqb k k0); simpl; split; try discriminate; try reflexivity.
  unfold fa_len. cbn [content]. now symmetry.
Qed.

Lemma slice_fill_len (cols : Py.dict FieldArray) (start stop : option Z) :
  forall d d', field_arrays d <> [] -> slice_fill d cols start stop = Ok d' ->
               __len__ d' = __len__ d.
Proof.
  induction cols as [|[k f] cols IH]; intros d d' Hne H; simpl in H.
  - now injection H as <-.
  - destruct (add_field d k (Py.slice (content f) start stop)) as [d1 [[]|e]] eqn:Ha;
      [|discriminate].
    destruct (add_field_len d d1 k _ Hne Ha) as [Hne1 Hl1].
    rewrite (IH d1 d' Hne1 H). exact Hl1.
Qed.

Lemma slice_len {A} (l : list A) (s e : Z) :
  0 <= s <= e -> e <= Py.len l -> Py.len (Py.slice l (Some s) (Some e)) = e - s.
Proof.
  intros Hs He. rewrite slice_inner by lia. unfold Py.len in *.
  rewrite length_firstn, length_skipn. lia.
Qed.

(** A slice inside the dataset has as many rows as its range. *)
Lemma getitem_slice_len (self d : DataSet) (s e : Z) :
  0 <= s <= e -> e <= __len__ self ->
  getitem_slice self (Some s) (Some e) = Ok d -> __len__ d = e - s.
Proof.
  intros Hs He H. unfold getitem_slice in H.
  destruct ((s >=? __len__ self) || (s <=? - __len__ self)) eqn:Hg; [discriminate|].
  apply orb_false_iff in Hg. destruct Hg as [Hg _].
  destruct (Z.geb_spec s (__len__ self)); [discriminate|].
  destruct self as [cols]. cbn [field_arrays] in H.
  destruct cols as [|[k f] cols]; [unfold __len__ in *; simpl in *; lia|].
  simpl in H. unfold add_field in H. simpl in H.
  apply slice_fill_len in H; [|discriminate]. rewrite H.
  unfold __len__, fa_len in *. cbn [field_arrays content] in *.
  apply slice_len; lia.
Qed.

Lemma chained_le (plan : list (Z * Z)) : forall a b, chained a plan b -> a <= b.
Proof.
  induction plan as [|[s e] plan IH]; simpl; intros a b H.
  - lia.
  - destruct H as [-> [? H]]. apply IH in H. lia.
Qed.

Lemma chained_sum (plan : list (Z * Z)) :
  forall a b, chained a plan b -> sumZ (map (fun se => snd se - fst se) plan) = b - a.
Proof.
  induction plan as [|[s e] plan IH]; simpl; intros a b H.
  - lia.
  - destruct H as [-> [? H]]. rewrite (IH e b H). simpl. lia.
Qed.

(** The shards have the sizes of the plan. *)
Lemma make_shards_lens (self : DataSet) (q r : Z) (todo : list Z) :
  forall start stop shards,
  0 <= start -> stop <= __len__ self ->
  chained start (shard_bounds q r todo start) stop ->
  make_shards self q r todo start = Ok shards ->
  map __len__ shards = map (fun se => snd se - fst se) (shard_bounds q r todo start).
Proof.
  induction todo as [|i todo IH]; intros start stop shards H0 Hstop Hc H;
    cbn [make_shards shard_bounds chained map] in *.
  - now injection H as <-.
  - destruct Hc as (_ & Hlt & Hc).
    set (e := q + (if i <? r then 1 else 0) + start) in *.
    destruct (getitem_slice self (Some start) (Some e)) as [d|] eqn:Hd;
      simpl in H; [|discriminate].
    destruct (make_shards self q r todo e) as [ds|] eqn:Hm;
      simpl in H; [|discriminate].
    injection H as <-.
    pose proof (chained_le _ _ _ Hc) as Hle.
    cbn [map fst snd]. f_equal.
    + apply (getitem_slice_len self d start e); [lia|lia|exact Hd].
    + apply (IH e stop ds); auto. lia.
Qed.

Lemma collect_len (worker : DataSet -> py (list pyval)) (shards : list DataSet) :
  (forall d rs, worker d = Ok rs -> Py.len rs = __len__ d) ->
  forall acc res, collect (map worker shards) acc = Ok res ->
                  Py.len res = Py.len acc + sumZ (map __len__ shards).
Proof.
  intros Hw. induction shards as [|d shards IH]; intros acc res H; simpl in H.
  - injection H as <-. simpl. lia.
  - destruct (worker d) as [rs|] eqn:Hd; [|discriminate].
    apply IH in H. rewrite H. simpl.
    unfold Py.len in *. rewrite length_app. rewrite <- (Hw d rs Hd). lia.
Qed.

Lemma partial_single_map_len (_apply_field : option string) (func : user_func)
  (kwds : list string) (d : DataSet) (rs : list pyval) :
  snd (partial_single_map _apply_field func kwds d) = Ok rs -> Py.len rs = __len__ d.
Proof.
  unfold partial_single_map.
  destruct (accepts _ _); [apply apply_single_len|discriminate].
Qed.

Lemma row_result_from_func (ds : DataSet) (_apply_field : option string)
  (func : user_func) (i : Z) (r : pyval) :
  row_result ds _apply_field func i = Ok r -> exists a, func a = Ok r.
Proof.
  unfold row_result. destruct (getitem_int ds i) as [ins|]; simpl; [|discriminate].
  destruct (func_arg _apply_field ins) as [a|]; simpl; [|discriminate].
  intros H. now exists a.
Qed.

Lemma completed_all (ds : DataSet) (_apply_field : option string) (func : user_func)
  (todo : list Z) :
  completed ds _apply_field func todo = todo ->
  Forall (fun i => exists r, row_result ds _apply_field func i = Ok r) todo.
Proof.
  induction todo as [|i rest IH]; intros H; [constructor|].
  simpl in H. destruct (row_result ds _apply_field func i) as [r|] eqn:Hr;
    simpl in H; [|discriminate].
  injection H as H. constructor; [now exists r|now apply IH].
Qed.

Lemma apply_single_from_func (ds : DataSet) (_apply_field : option string)
  (func : user_func) (show_progress_bar : bool) (pipe : option pipe_end)
  (desc : option string) (rs : list pyval) :
  snd (_apply_single ds _apply_field func show_progress_bar pipe desc) = Ok rs ->
  from_func func rs.
Proof.
  rewrite apply_single_snd. intros H.
  destruct (single_loop_spec ds _apply_field func show_progress_bar pipe
              (Py.range (__len__ ds)) (-1) []) as (tail & _ & _ & Hout).
  rewrite H in Hout. destruct Hout as (Hc & _ & ->).
  apply completed_all in Hc. rewrite Forall_forall in Hc.
  intros r Hr. simpl in Hr. apply in_map_iff in Hr. destruct Hr as (i & <- & Hi).
  destruct (Hc i Hi) as [r Hr]. unfold row_value. rewrite Hr.
  now apply row_result_from_func in Hr.
Qed.

Lemma collect_from_func (func : user_func) (worker : DataSet -> py (list pyval))
  (shards : list DataSet) :
  (forall d rs, worker d = Ok rs -> from_func func rs) ->
  forall acc res, from_func func acc -> collect (map worker shards) acc = Ok res ->
                  from_func func res.
Proof.
  intros Hw. induction shards as [|d shards IH]; intros acc res Hacc H; simpl in H.
  - now injection H as <-.
  - destruct (worker d) as [rs|] eqn:Hd; [|discriminate].
    apply IH in H; [exact H|].
    intros r Hr. apply in_app_or in Hr. destruct Hr; [auto|eapply Hw; eauto].
Qed.

(** What the multi-process branch returns, when it returns: one result per
    row, each a value of the user function. *)
Lemma apply_pool_returns (kwds : list string) (self : DataSet) (k : Z)
  (func : user_func) (show_progress_bar : bool) (_apply_field : option string)
  (progress_desc : option string) (tr : trace) (out : list pyval) :
  k <= __len__ self ->
  apply_pool kwds self k func show_progress_bar _apply_field progress_desc
  = (tr, Returns out) ->
  Py.len out = __len__ self /\ from_func func out.
Proof.
  intros Hk H. unfold apply_pool in H.
  destruct (Z.eqb_spec k 0); [discriminate|].
  destruct (make_shards self (__len__ self / k) (__len__ self mod k) (Py.range k) 0)
    as [shards|] eqn:Hm; [|discriminate].
  destruct (Z.ltb_spec k 1); [discriminate|].
  assert (Hcollect : collect (map (fun d => snd (partial_single_map _apply_field func kwds d))
                                shards) [] = Ok out).
  { rewrite <- map_map.
    destruct (snd (_progress_bar _ _ _ _)); try discriminate;
      injection H as _ H; destruct (collect _ _); simpl in H; congruence. }
  split.
  - rewrite (collect_len (fun d => snd (partial_single_map _apply_field func kwds d))
               shards (partial_single_map_len _apply_field func kwds) [] out Hcollect).
    pose proof (shard_plan_chained (__len__ self) k ltac:(lia)) as Hc.
    rewrite (make_shards_lens self _ _ (Py.range k) 0 (__len__ self) shards
               ltac:(lia) ltac:(lia) Hc Hm).
    fold (shard_plan (__len__ self) k). rewrite (chained_sum _ _ _ Hc).
    unfold Py.len. simpl. lia.
  - apply (collect_from_func func
             (fun d => snd (partial_single_map _apply_field func kwds d)) shards)
      with (acc := []); [|intros r []|exact Hcollect].
    intros d rs. unfold partial_single_map.
    destruct (accepts _ _); [apply apply_single_from_func|discriminate].
Qed.

Lemma apply_process_returns (kwds : list string) (self : DataSet) (num_proc : Z)
  (func : user_func) (show_progress_bar : bool) (_apply_field : option string)
  (progress_desc : option string) (tr : trace) (out : list pyval) :
  _apply_process_kw kwds self num_proc func show_progress_bar _apply_field progress_desc
  = (tr, Returns out) ->
  Py.len out = __len__ self /\ from_func func out.
Proof.
  unfold _apply_process_kw. intros H.
  destruct (Z.eqb_spec num_proc 0).
  - destruct (_apply_single self _apply_field func show_progress_bar None progress_desc)
      as [tr' r] eqn:Hs.
    destruct r as [rs|]; simpl in H; [|discriminate]. injection H as _ <-.
    assert (Hsnd : snd (_apply_single self _apply_field func show_progress_bar None
                          progress_desc) = Ok rs) by (now rewrite Hs).
    split; [eapply apply_single_len|eapply apply_single_from_func]; eauto.
  - destruct (Z.gtb_spec num_proc (__len__ self)).
    + destruct (apply_pool kwds self (__len__ self) func show_progress_bar _apply_field
                  progress_desc) as [tr' r] eqn:Hp.
      injection H as _ ->. eapply apply_pool_returns; [|exact Hp]. lia.
    + eapply apply_pool_returns; [|exact H]. lia.
Qed.

(** The store after [merge_and_write] when it does not return. *)
Lemma merge_and_write_all_or_nothing (self : DataSet) (func : user_func)
  (modify_fields : bool) (applied : trace * outcome (list pyval)) :
  (forall a d, func a = Ok (VDict d) -> NoDup (Py.keys d)) ->
  __len__ self <> 0 ->
  (forall out, snd applied = Returns out -> Py.len out = __len__ self /\ from_func func out) ->
  (forall r, snd (merge_and_write self modify_fields applied) <> Returns r) ->
  snd (fst (merge_and_write self modify_fields applied)) = self.
Proof.
  intros Hwf Hlen Happlied Hfail. unfold merge_and_write in *.
  destruct applied as [tr [apply_out|e|]]; [|reflexivity|reflexivity].
  destruct (merge apply_out) as [[tr' results] [[]|e]] eqn:Hmerge; [|reflexivity].
  destruct modify_fields; [|reflexivity].
  destruct (Happlied apply_out eq_refl) as [Hout Hfrom].
  assert (Hrows : dict_rows apply_out).
  { intros d Hd. destruct (Hfrom _ Hd) as [a Ha]. eapply Hwf; eauto. }
  pose proof (merge_ok_len apply_out tr' results Hrows Hmerge) as Hall.
  assert (Hwb : snd (write_back self results) = Ok tt).
  { apply write_back_ok.
    - intros Hnil. unfold __len__ in Hlen. now rewrite Hnil in Hlen.
    - intros k col Hin. rewrite <- Hout. unfold Py.len. f_equal. eapply Hall; eauto. }
  destruct (write_back self results) as [d [[]|e]]; [|discriminate].
  exfalso. eapply Hfail. reflexivity.
Qed.

(** C5. Whenever [apply_more] or [apply_field_more] does not return (a
    failed precondition, an error of the user function, a first result
    that is not a dict, rows whose fields differ, a call that never
    comes back), the column store is what it was before the call: no column
    was added or overwritten. *)
Theorem apply_more_all_or_nothing (self : DataSet) (func : user_func)
  (field_name : string) (modify_fields : bool) (num_proc : Z)
  (progress_desc : option string) (show_progress_bar : bool) :
  (forall a d, func a = Ok (VDict d) -> NoDup (Py.keys d)) ->
  ((forall r, snd (apply_more self func modify_fields num_proc progress_desc
                     show_progress_bar) <> Returns r) ->
   snd (fst (apply_more self func modify_fields num_proc progress_desc
               show_progress_bar)) = self) /\
  ((forall r, snd (apply_field_more self func field_name modify_fields num_proc
                     progress_desc show_progress_bar) <> Returns r) ->
   snd (fst (apply_field_more self func field_name modify_fields num_proc
               progress_desc show_progress_bar)) = self).
Proof.
  intros Hwf. split; intros Hfail.
  - unfold apply_more in *.
    destruct (Z.eqb_spec (__len__ self) 0); [reflexivity|].
    destruct (negb (num_proc >=? 0)); [reflexivity|].
    apply (merge_and_write_all_or_nothing self func); auto.
    intros out Hout.
    destruct (_apply_process self num_proc func show_progress_bar None progress_desc)
      as [tr o] eqn:Hp.
    simpl in Hout. subst o. eapply apply_process_returns. exact Hp.
  - unfold apply_field_more in *.
    destruct (Z.eqb_spec (__len__ self) 0); [reflexivity|].
    destruct (negb (has_field self field_name)); [reflexivity|].
    apply (merge_and_write_all_or_nothing self func); auto.
    intros out Hout.
    destruct (_apply_process self num_proc func show_progress_bar (Some field_name)
                progress_desc) as [tr o] eqn:Hp.
    simpl in Hout. subst o. eapply apply_process_returns. exact Hp.
Qed.

(** ** Rows whose fields differ *)

Lemma merge_seed_fresh (items : list (string * pyval)) :
  forall acc : Py.dict (list pyval),
  NoDup (Py.keys acc ++ Py.keys items) ->
  merge_seed acc items = acc ++ map (fun kv => (fst kv, [snd kv])) items.
Proof.
  induction items as [|[k v] items IH]; intros acc Hnd; simpl.
  - now rewrite app_nil_r.
  - rewrite set_fresh.
    + rewrite IH.
      * now rewrite <- app_assoc.
      * unfold Py.keys in *. rewrite map_app, <- app_assoc. exact Hnd.
    + intros Hin. apply NoDup_remove_2 in Hnd. apply Hnd. apply in_or_app. now left.
Qed.

(** The merge loop over rows that all have the fields of the first row. *)
Lemma merge_loop_same_fields (pre : list pyval) :
  forall results i idx m,
  NoDup (Py.keys results) -> all_len results m ->
  Forall (same_fields (Py.keys results)) pre ->
  exists results',
    Py.keys results' = Py.keys results /\
    all_len results' (m + List.length pre) /\
    forall rest,
      merge_loop results (pre ++ rest) i idx
      = merge_loop results' rest (i + Py.len pre)
          (match pre with [] => idx | _ => i + Py.len pre - 1 end).
Proof.
  induction pre as [|row pre IH]; intros results i idx m Hnd Hall Hpre.
  - exists results. split; [reflexivity|]. split; [now rewrite Nat.add_0_r|].
    intros rest. simpl. f_equal. unfold Py.len. simpl. lia.
  - inversion Hpre as [|? ? (d & -> & Hndd & Hin1 & Hin2) Hpre']; subst.
    destruct (merge_row_spec d results Hndd Hin2) as (r & Hr & Hkeys & Hget).
    assert (Hchk : Py.set_diff_nonempty (Py.keys results) (Py.keys d) = false)
      by (now apply set_diff_nonempty_incl).
    destruct (merge_row_len results r d m Hnd Hndd Hall Hchk Hr) as [Hnd' Hall'].
    destruct (IH r (i + 1) i (S m) Hnd' Hall') as (results' & Hk' & Hall'' & Hloop).
    { now rewrite Hkeys. }
    exists results'. split; [now rewrite Hk', Hkeys|].
    split; [simpl; now rewrite Nat.add_succ_r|].
    intros rest. simpl. rewrite Hchk, Hr, Hloop.
    f_equal.
    + unfold Py.len. simpl List.length. lia.
    + unfold Py.len. simpl List.length. destruct pre; simpl List.length; lia.
Qed.

(** X7. A row that lacks a field of the first row, after rows that have
    the fields of the first row: the merge raises [ApplyResultException] with
    the position of the row, counted from the second row as 1, and has
    merged the rows before it and no other. *)
Lemma merge_missing_field (d0 d : list (string * pyval)) (pre rest : list pyval) :
  NoDup (Py.keys d0) ->
  Forall (same_fields (Py.keys d0)) pre ->
  ~ incl (Py.keys d0) (Py.keys d) ->
  exists results,
    merge (VDict d0 :: pre ++ VDict d :: rest)
    = ([EvPrint (Message different_fields); EvPrint (ExceptionAt (Py.len pre + 1))],
       results,
       Err (ApplyResultException different_fields (Py.len pre + 1)))
    /\ Py.keys results = Py.keys d0
    /\ all_len results (1 + List.length pre).
Proof.
  intros Hnd Hpre Hmiss.
  assert (Hseed : merge_seed [] d0 = map (fun kv => (fst kv, [snd kv])) d0).
  { now rewrite merge_seed_fresh. }
  assert (Hkeys0 : Py.keys (merge_seed [] d0) = Py.keys d0).
  { rewrite Hseed. apply (keys_map_values (fun _ v => [v])). }
  destruct (merge_loop_same_fields pre (merge_seed [] d0) 0 (-1) 1)
    as (results & Hk & Hall & Hloop).
  { now rewrite Hkeys0. }
  { apply merge_seed_len. intros k col []. }
  { now rewrite Hkeys0. }
  exists results. split; [|split; [now rewrite Hk|exact Hall]].
  unfold merge. rewrite Hloop. simpl merge_loop.
  assert (Hchk : Py.set_diff_nonempty (Py.keys results) (Py.keys d) = true).
  { destruct (Py.set_diff_nonempty (Py.keys results) (Py.keys d)) eqn:Hc; [reflexivity|].
    exfalso. apply Hmiss. rewrite <- Hkeys0, <- Hk. now apply set_diff_nonempty_false. }
  rewrite Hchk.
  assert (Hidx : negb (Py.len pre =? -1) = true).
  { unfold Py.len. destruct (Z.eqb_spec (Z.of_nat (List.length pre)) (-1)); [lia|reflexivity]. }
  rewrite Hidx. reflexivity.
Qed.

(** C4, at a failing input.  Row 1 returns the fields of row 0 and one
    more, [c].  The check [set(results.keys()) - set(per_out.keys())] is
    empty, so the row is merged: its [a] and [b] are appended, then
    [results["c"]] raises [KeyError].  No [ApplyResultException] is raised
    and no position is carried.  A row that lacks a field is reported as
    the claim says. *)
Theorem merge_extra_field_is_key_error :
  merge [row_ab; row_abc; row_ab]
  = ([EvPrint (ExceptionAt 1)],
     [("a", [VInt 1; VInt 1]); ("b", [VInt 2; VInt 2])],
     Err (KeyError "c")) /\
  apply_more ex_x3 (func_fields 1 row_abc) true 0 None false
  = ([EvCall 0; EvCall 1; EvCall 2; EvPrint (ExceptionAt 1)], ex_x3, Raises (KeyError "c")) /\
  merge [row_ab; row_a; row_ab]
  = ([EvPrint (Message different_fields); EvPrint (ExceptionAt 1)],
     [("a", [VInt 1]); ("b", [VInt 2])],
     Err (ApplyResultException different_fields 1)).
Proof. repeat split; reflexivity. Qed.

Lemma func_fields_distinct (bad : Z) (other : list (string * pyval)) :
  distinctb (Py.keys other) = true ->
  forall a d, func_fields bad (VDict other) a = Ok (VDict d) -> NoDup (Py.keys d).
Proof.
  intros Ho a d H. unfold func_fields in H.
  destruct (x_of a) as [n|]; [|discriminate].
  destruct (n =? bad); injection H as <-; apply distinctb_NoDup; [exact Ho|reflexivity].
Qed.

Lemma apply_more_all_or_nothing_witness :
  snd (apply_more ex_x3 (func_fields 2 row_a) true 0 None false)
  = Raises (ApplyResultException different_fields 2) /\
  snd (fst (apply_more ex_x3 (func_fields 2 row_a) true 0 None false)) = ex_x3 /\
  snd (fst (apply_field_more ex_x3 (func_fields 1 row_abc) "x" true 0 None false)) = ex_x3.
Proof.
  split; [reflexivity|]. split.
  - apply (apply_more_all_or_nothing ex_x3 (func_fields 2 row_a) "x" true 0 None false).
    + apply func_fields_distinct. reflexivity.
    + intros r H. vm_compute in H. discriminate.
  - apply (apply_more_all_or_nothing ex_x3 (func_fields 1 row_abc) "x" true 0 None false).
    + apply func_fields_distinct. reflexivity.
    + intros r H. vm_compute in H. discriminate.
Defined.

(** ** The two branches of [_apply_process] *)

(** The shards of a well-formed dataset are the slices at the plan. *)
Lemma make_shards_uniform (self : DataSet) (q r : Z) (todo : list Z) :
  uniform self -> distinct_fields self ->
  forall start stop,
  0 <= start -> stop <= __len__ self ->
  chained start (shard_bounds q r todo start) stop ->
  make_shards self q r todo start
  = Ok (map (shard_of self) (shard_bounds q r todo start)).
Proof.
  intros Hu Hd. induction todo as [|i todo IH]; intros start stop H0 Hstop Hc;
    cbn [make_shards shard_bounds chained map] in *; [reflexivity|].
  destruct Hc as (_ & Hlt & Hc).
  set (e := q + (if i <? r then 1 else 0) + start) in *.
  pose proof (chained_le _ _ _ Hc) as Hle.
  rewrite getitem_slice_uniform by (auto; lia). cbn [py_bind].
  rewrite (IH e stop) by (auto; lia). reflexivity.
Qed.

(** C1. For [N >= 1] rows and [1 <= k <= N] workers the plan of
    [_apply_process] has exactly [k] ranges, chained from [0] to [N]
    (contiguous, ascending, non-empty, without overlap), every row index
    lies in exactly one of them, the first [N mod k] have [ceil(N/k)] rows
    and the others [floor(N/k)]; the shards built over a well-formed dataset
    of [N] rows are its slices at these ranges; [N = 7], [k = 3] gives
    [0,3), [3,5), [5,7). *)
Theorem shard_plan_partition (N k : Z) :
  1 <= N -> 1 <= k <= N ->
  Py.len (shard_plan N k) = k /\
  chained 0 (shard_plan N k) N /\
  (forall j, 0 <= j < N ->
     exists i s e, nth_error (shard_plan N k) i = Some (s, e) /\ s <= j < e /\
       forall i' s' e', nth_error (shard_plan N k) i' = Some (s', e') ->
                        s' <= j < e' -> i' = i) /\
  (forall i s e, nth_error (shard_plan N k) i = Some (s, e) ->
     e - s = if Z.of_nat i <? N mod k then ceil_div N k else N / k) /\
  (forall self, uniform self -> distinct_fields self -> __len__ self = N ->
     make_shards self (N / k) (N mod k) (Py.range k) 0
     = Ok (map (shard_of self) (shard_plan N k))) /\
  shard_plan 7 3 = [(0, 3); (3, 5); (5, 7)] /\
  map (fun se => snd se - fst se) (shard_plan 7 3) = [3; 2; 2].
Proof.
  intros HN Hk.
  assert (Hq : 1 <= N / k).
  { apply Z.div_le_lower_bound; lia. }
  pose proof (Z.mod_pos_bound N k ltac:(lia)) as Hr.
  assert (Hchain : chained 0 (shard_plan N k) N) by (apply shard_plan_chained; lia).
  split.
  { rewrite shard_plan_closed by lia. unfold Py.len. rewrite length_map.
    apply range_length. lia. }
  split; [exact Hchain|].
  split.
  { intros j Hj. eapply chained_cover; eauto. }
  split.
  { intros i s e Hn. rewrite shard_plan_closed in Hn by lia. unfold Py.range in Hn.
    rewrite map_map in Hn.
    destruct (nth_error (seq 0 (Z.to_nat k)) i) as [a|] eqn:Hs.
    - erewrite map_nth_error in Hn by exact Hs. inversion Hn; subst.
      assert (Hlt : (i < Datatypes.length (seq 0 (Z.to_nat k)))%nat).
      { apply nth_error_Some. congruence. }
      rewrite nth_error_nth' with (d := 0%nat) in Hs by exact Hlt.
      rewrite length_seq in Hlt. rewrite seq_nth in Hs by exact Hlt.
      simpl in Hs. injection Hs as <-. simpl. rewrite shard_start_step.
      destruct (Z.ltb_spec (Z.of_nat i) (N mod k)).
      + rewrite ceil_div_rem; lia.
      + lia.
    - apply nth_error_None in Hs.
      assert (Hnone : nth_error
                (map (fun x => (shard_start (N / k) (N mod k) (Z.of_nat x),
                                shard_start (N / k) (N mod k) (Z.of_nat x + 1)))
                   (seq 0 (Z.to_nat k))) i = None).
      { apply nth_error_None. rewrite length_map. exact Hs. }
      congruence. }
  split.
  { intros self Hu Hd Hlen.
    apply (make_shards_uniform self _ _ (Py.range k) Hu Hd 0 N); try lia. exact Hchain. }
  split; reflexivity.
Qed.

Lemma shard_plan_partition_witness :
  Py.len (shard_plan 7 3) = 3 /\ chained 0 (shard_plan 7 3) 7.
Proof.
  pose proof (shard_plan_partition 7 3 ltac:(lia) ltac:(lia)) as H.
  split; [exact (proj1 H)|exact (proj1 (proj2 H))].
Defined.

(** C6 as stated fails for a worker count of 1: a pipe and a pool of one
    process are created. *)
Lemma worker_count_one_is_pooled :
  ~ runs_in_process ex_x4 1 double false (Some "x") None /\
  In EvPipe (fst (_apply_process ex_x4 1 double false (Some "x") None)) /\
  In (EvPool 1) (fst (_apply_process ex_x4 1 double false (Some "x") None)).
Proof.
  split; [|split].
  - intros H. vm_compute in H. discriminate.
  - vm_compute. auto.
  - vm_compute. auto.
Qed.

(** C6, amended.  A worker count of 0 runs [_apply_single] over the whole
    dataset in the invoking process and hands its result on: no pipe, no
    pool.  A worker count of 1 on a well-formed, non-empty dataset takes
    the multi-process branch: the plan is the one range [0, N), a pipe, the
    monitor thread and a pool of one process are created and the one shard,
    with the columns of the dataset, is dispatched. *)
Theorem worker_count_zero_in_process_one_pooled (self : DataSet) (func : user_func)
  (show_progress_bar : bool) (_apply_field : option string)
  (progress_desc : option string) :
  runs_in_process self 0 func show_progress_bar _apply_field progress_desc /\
  (uniform self -> distinct_fields self -> 1 <= __len__ self ->
   shard_plan (__len__ self) 1 = [(0, __len__ self)] /\
   columns (shard_of self (0, __len__ self)) = columns self /\
   fst (_apply_process self 1 func show_progress_bar _apply_field progress_desc)
   = [EvPipe; EvThreadStart; EvPool 1;
      EvApplyAsync 0 (shard_of self (0, __len__ self));
      EvPoolClose; EvPoolJoin; EvThreadJoin]).
Proof.
  split.
  - unfold runs_in_process, _apply_process, _apply_process_kw. simpl (0 =? 0).
    cbv iota. now destruct (_apply_single _ _ _ _ _ _).
  - intros Hu Hd Hlen.
    assert (Hplan : shard_plan (__len__ self) 1 = [(0, __len__ self)]).
    { unfold shard_plan. rewrite Z.div_1_r, Z.mod_1_r. simpl. f_equal. f_equal. lia. }
    split; [exact Hplan|]. split.
    + unfold shard_of, columns, slice_cols. cbn [field_arrays fst snd].
      rewrite map_map. apply map_ext_in. intros [k f] Hin. cbn [fst snd content].
      f_equal. assert (Hf : Py.len (content f) = __len__ self).
      { apply (Hu f). change f with (snd (k, f)). now apply in_map. }
      rewrite <- Hf. apply slice_whole.
    + unfold _apply_process, _apply_process_kw.
      destruct (Z.gtb_spec 1 (__len__ self)); [lia|]. simpl (1 =? 0). cbv iota.
      unfold apply_pool. simpl (1 =? 0). cbv iota.
      pose proof (shard_plan_chained (__len__ self) 1 ltac:(lia)) as Hc.
      rewrite (make_shards_uniform self _ _ (Py.range 1) Hu Hd 0 (__len__ self)
                 ltac:(lia) ltac:(lia) Hc).
      fold (shard_plan (__len__ self) 1). rewrite Hplan. simpl (1 <? 1). cbv iota.
      cbn [map]. destruct (snd (_progress_bar _ _ _ _)); reflexivity.
Qed.

Lemma worker_count_zero_in_process_one_pooled_witness :
  shard_plan (__len__ ex_x4) 1 = [(0, __len__ ex_x4)] /\
  columns (shard_of ex_x4 (0, __len__ ex_x4)) = columns ex_x4.
Proof.
  destruct (worker_count_zero_in_process_one_pooled ex_x4 double false (Some "x") None)
    as [_ H].
  assert (Hu : uniform ex_x4) by (apply uniform_by_lengths; reflexivity).
  assert (Hd : distinct_fields ex_x4) by (apply distinctb_NoDup; reflexivity).
  assert (Hl : 1 <= __len__ ex_x4) by (vm_compute; congruence).
  destruct (H Hu Hd Hl) as (H1 & H2 & _). split; [exact H1|exact H2].
Defined.

(** Every worker of the dispatch as written raises [TypeError] before it
    processes a row: [proc_id] is no parameter of [_apply_single]. *)
Lemma dispatch_raises_type_error (_apply_field : option string) (func : user_func)
  (d : DataSet) :
  partial_single_map _apply_field func dispatch_kwds d = ([], Err TypeError).
Proof. reflexivity. Qed.

Lemma dispatch_sends_nothing (_apply_field : option string) (func : user_func)
  (shards : list DataSet) :
  flat_map (fun w => sends (fst w))
    (map (partial_single_map _apply_field func dispatch_kwds) shards) = [].
Proof. induction shards as [|d shards IH]; [reflexivity|exact IH]. Qed.

(** C2, at a failing input.  On a well-formed, non-empty dataset every
    worker count of 1 or more ends the same way: the workers raise
    [TypeError] on the keyword [proc_id], no notification is sent, the
    monitor waits for the first of [N] and [main_thread.join()] never
    returns.  With [x = [1, 2, 3, 4]] and the doubling function a worker
    count of 0 returns [[2, 4, 6, 8]]; a worker count of 2 returns nothing. *)
Theorem apply_with_workers_blocks :
  (forall self num_proc func show_progress_bar _apply_field progress_desc,
     uniform self -> distinct_fields self -> 1 <= __len__ self -> 1 <= num_proc ->
     snd (_apply_process self num_proc func show_progress_bar _apply_field progress_desc)
     = Blocks) /\
  snd (apply_field ex_x4 double "x" None 0 None false)
  = Returns [VInt 2; VInt 4; VInt 6; VInt 8] /\
  snd (apply_field ex_x4 double "x" None 2 None false) = Blocks /\
  snd (apply_field ex_x4 double "x" None 1 None false) = Blocks.
Proof.
  split; [|repeat split; reflexivity].
  intros self num_proc func show_progress_bar _apply_field progress_desc Hu Hd Hlen Hk.
  assert (Hpool : forall k, 1 <= k <= __len__ self ->
            snd (apply_pool dispatch_kwds self k func show_progress_bar _apply_field
                   progress_desc) = Blocks).
  { intros k Hkn. unfold apply_pool.
    destruct (Z.eqb_spec k 0); [lia|].
    pose proof (shard_plan_chained (__len__ self) k Hkn) as Hc.
    rewrite (make_shards_uniform self _ _ (Py.range k) Hu Hd 0 (__len__ self)
               ltac:(lia) ltac:(lia) Hc).
    destruct (Z.ltb_spec k 1); [lia|].
    rewrite dispatch_sends_nothing. reflexivity. }
  unfold _apply_process, _apply_process_kw.
  destruct (Z.eqb_spec num_proc 0); [lia|].
  destruct (Z.gtb_spec num_proc (__len__ self)).
  - specialize (Hpool (__len__ self) ltac:(lia)).
    destruct (apply_pool _ _ _ _ _ _ _). exact Hpool.
  - apply Hpool. lia.
Qed.

Lemma apply_with_workers_blocks_witness :
  snd (_apply_process ex_xy4 3 double true None None) = Blocks.
Proof.
  destruct apply_with_workers_blocks as [H _].
  apply H.
  - apply uniform_by_lengths. reflexivity.
  - apply distinctb_NoDup. reflexivity.
  - vm_compute. congruence.
  - lia.
Defined.

(** ** The progress protocol *)

Lemma interleaving_perm {A} (ls : list (list A)) (m : list A) :
  interleaving ls m -> Permutation m (List.concat ls).
Proof.
  induction 1 as [ls Hnil|pre x l post rest _ IH].
  - induction Hnil as [|l ls -> _ IHl]; [constructor|exact IHl].
  - rewrite concat_app in *. simpl in *. now apply Permutation_cons_app.
Qed.

Lemma interleaving_nil_head {A} (ls : list (list A)) (m : list A) :
  interleaving ls m -> interleaving ([] :: ls) m.
Proof.
  induction 1 as [ls Hnil|pre x l post rest _ IH].
  - constructor. now constructor.
  - apply (interleaving_next ([] :: pre) x l post rest). exact IH.
Qed.

(** The senders one after the other is one of the interleavings. *)
Lemma interleaving_concat {A} (ls : list (list A)) : interleaving ls (List.concat ls).
Proof.
  induction ls as [|l ls IH]; [constructor; constructor|].
  simpl. induction l as [|x l IHl].
  - now apply interleaving_nil_head.
  - apply (interleaving_next [] x l ls). exact IHl.
Qed.

(** The monitor over notifications: it counts each of them and returns at
    the [total_len]-th; with fewer it waits. *)
Lemma monitor_loop_count (total_len : Z) (inbox : list pyval) :
  Forall notification inbox ->
  forall nums, nums < total_len ->
  monitor_loop total_len inbox nums
  = (repeat EvUpdate (Z.to_nat (Z.min (Py.len inbox) (total_len - nums))),
     nums + Z.min (Py.len inbox) (total_len - nums),
     if total_len - nums <=? Py.len inbox then Finished else Waiting).
Proof.
  induction 1 as [|m inbox [n ->] _ IH]; intros nums Hn.
  - simpl. unfold Py.len. simpl.
    destruct (Z.leb_spec (total_len - nums) 0); [lia|].
    rewrite Z.min_l by lia. simpl. f_equal. f_equal. lia.
  - cbn [monitor_loop].
    assert (Hlen : Py.len (VList [VInt n] :: inbox) = Py.len inbox + 1)
      by (unfold Py.len; simpl List.length; lia).
    rewrite Hlen.
    destruct (Z.eqb_spec (nums + 1) total_len) as [Heq|Hne].
    + destruct (Z.leb_spec (total_len - nums) (Py.len inbox + 1));
        [|unfold Py.len in *; lia].
      replace (Z.min (Py.len inbox + 1) (total_len - nums)) with 1
        by (unfold Py.len in *; lia).
      reflexivity.
    + rewrite IH by lia.
      replace (total_len - (nums + 1)) with (total_len - nums - 1) by lia.
      assert (Hpos : 0 <= Py.len inbox) by (unfold Py.len; lia).
      replace (Z.to_nat (Z.min (Py.len inbox + 1) (total_len - nums)))
        with (S (Z.to_nat (Z.min (Py.len inbox) (total_len - nums - 1)))) by lia.
      simpl. f_equal; [f_equal; lia|].
      destruct (Z.leb_spec (total_len - nums - 1) (Py.len inbox));
        destruct (Z.leb_spec (total_len - nums) (Py.len inbox + 1)); try lia; reflexivity.
Qed.

Lemma progress_bar_count (inbox : list pyval) (total_len : Z) (desc : option string)
  (show_progress_bar : bool) :
  1 <= total_len -> Forall notification inbox ->
  _progress_bar inbox total_len desc show_progress_bar
  = (EvAddTask (desc_or_main desc) total_len show_progress_bar
       :: repeat EvUpdate (Z.to_nat (Z.min (Py.len inbox) total_len)),
     Z.min (Py.len inbox) total_len,
     if total_len <=? Py.len inbox then Finished else Waiting).
Proof.
  intros Hn Hall. unfold _progress_bar.
  rewrite (monitor_loop_count total_len inbox Hall 0) by lia.
  now rewrite Z.sub_0_r, Z.add_0_l.
Qed.

(** The monitor ends the same way on every interleaving of the same
    notifications. *)
Lemma monitor_interleaving (sent : list (list pyval)) (inbox : list pyval)
  (total_len : Z) (desc : option string) (show_progress_bar : bool) :
  1 <= total_len -> Forall notification (List.concat sent) ->
  interleaving sent inbox ->
  _progress_bar inbox total_len desc show_progress_bar
  = _progress_bar (List.concat sent) total_len desc show_progress_bar.
Proof.
  intros Hn Hall Hil. apply interleaving_perm in Hil.
  assert (Hall' : Forall notification inbox).
  { rewrite Forall_forall in *. intros x Hx. apply Hall.
    eapply Permutation_in; eauto. }
  rewrite !progress_bar_count by assumption.
  unfold Py.len. now rewrite (Permutation_length Hil).
Qed.

Lemma completed_prefix_length (ds : DataSet) (_apply_field : option string)
  (func : user_func) (todo : list Z) :
  (List.length (completed ds _apply_field func todo) <= List.length todo)%nat.
Proof.
  induction todo as [|i rest IH]; simpl; [lia|].
  destruct (is_ok (row_result ds _apply_field func i)); simpl; lia.
Qed.

(** A worker with a pipe: its effects are, for each row it completed, the
    call and then the notification; whatever follows sends nothing.  It
    returns exactly when it completed every row. *)
Lemma worker_trace (ds : DataSet) (_apply_field : option string) (func : user_func)
  (desc : option string) :
  exists tail,
    fst (_apply_single ds _apply_field func false (Some child_conn) desc)
    = flat_map (fun i => [EvCall i; EvSend (VList [VInt (i + 1)])])
        (completed ds _apply_field func (Py.range (__len__ ds))) ++ tail
    /\ sends tail = []
    /\ (is_ok (snd (_apply_single ds _apply_field func false (Some child_conn) desc)) = true
        <-> completed ds _apply_field func (Py.range (__len__ ds)) = Py.range (__len__ ds)).
Proof.
  destruct (single_loop_spec ds _apply_field func false (Some child_conn)
              (Py.range (__len__ ds)) (-1) []) as (tail & Htr & Hs & Hout).
  rewrite apply_single_snd. unfold _apply_single.
  destruct (single_loop ds _apply_field func false (Some child_conn)
              (Py.range (__len__ ds)) (-1) []) as [tr [idx out]].
  cbn [fst snd] in *.
  exists (tail ++ match out with
                  | Ok _ => []
                  | Err _ => if negb (idx =? -1) then [EvPrint (ExceptionAt idx)] else []
                  end).
  split; [|split].
  - rewrite Htr. cbn [app]. rewrite app_nil_r, <- app_assoc. reflexivity.
  - rewrite sends_app, Hs. destruct out; [reflexivity|].
    destruct (negb (idx =? -1)); reflexivity.
  - destruct out as [rs|e]; simpl.
    + split; [intros _; apply Hout|reflexivity].
    + split; [discriminate|]. intros Hc. rewrite Hc in Hout. lia.
Qed.

(** The notifications of a dispatched worker: as many as rows completed,
    at most the rows of its shard, and all of them exactly when it returns. *)
Lemma worker_sends (_apply_field : option string) (func : user_func)
  (kwds : list string) (d : DataSet) :
  1 <= __len__ d ->
  let w := partial_single_map _apply_field func kwds d in
  Forall notification (sends (fst w))
  /\ Py.len (sends (fst w)) <= __len__ d
  /\ (Py.len (sends (fst w)) = __len__ d <-> is_ok (snd w) = true).
Proof.
  intros Hd w. unfold w, partial_single_map.
  destruct (accepts _ _).
  - destruct (worker_trace d _apply_field func None) as (tail & Htr & Hs & Hok).
    rewrite Htr, sends_app, Hs, app_nil_r.
    change (fun i => [EvCall i; EvSend (VList [VInt (i + 1)])])
      with (row_events false (Some child_conn)).
    rewrite sends_row_events.
    pose proof (completed_prefix_length d _apply_field func (Py.range (__len__ d))) as Hle.
    pose proof (range_length (__len__ d) ltac:(lia)) as Hr. unfold Py.len in *.
    rewrite length_map.
    split; [|split].
    + apply Forall_forall. intros m Hm. apply in_map_iff in Hm.
      destruct Hm as (i & <- & _). now exists (i + 1).
    + lia.
    + rewrite Hok. split.
      * intros Heq.
        assert (Hpre : forall todo,
                  List.length (completed d _apply_field func todo) = List.length todo ->
                  completed d _apply_field func todo = todo).
        { clear. induction todo as [|i rest IH]; simpl; [reflexivity|].
          destruct (is_ok (row_result d _apply_field func i)); simpl; [|discriminate].
          intros H. f_equal. apply IH. lia. }
        apply Hpre. lia.
      * intros ->. lia.
  - simpl. split; [constructor|]. unfold Py.len. simpl. split; [lia|].
    split; [lia|discriminate].
Qed.

Lemma chained_bounds (plan : list (Z * Z)) :
  forall a b, chained a plan b ->
  Forall (fun se => a <= fst se /\ fst se < snd se /\ snd se <= b) plan.
Proof.
  induction plan as [|[s e] plan IH]; simpl; intros a b H; [constructor|].
  destruct H as [-> [Hlt H]]. pose proof (chained_le _ _ _ H) as Hle.
  constructor; [simpl; lia|].
  apply IH in H. eapply Forall_impl; [|exact H]. simpl. intros se Hse. lia.
Qed.

Lemma shard_of_len (self : DataSet) (s e : Z) :
  0 <= s <= e -> e <= __len__ self -> __len__ (shard_of self (s, e)) = e - s.
Proof.
  intros Hs He. destruct self as [cols]. unfold shard_of, __len__ in *.
  cbn [field_arrays fst snd] in *. destruct cols as [|[k f] cols]; simpl in *; [lia|].
  unfold fa_len in *. cbn [content]. apply slice_len; lia.
Qed.

(** Totals that are bounded item by item agree only when every item does. *)
Lemma sum_bounded_eq {A} (f g : A -> Z) (ok : A -> Prop) (l : list A) :
  Forall (fun x => f x <= g x /\ (f x = g x <-> ok x)) l ->
  sumZ (map f l) <= sumZ (map g l)
  /\ (sumZ (map g l) <= sumZ (map f l) <-> Forall ok l).
Proof.
  induction 1 as [|x l [Hle Hiff] _ [IHle IHiff]]; simpl.
  - split; [lia|]. split; [constructor|lia].
  - split; [lia|]. split.
    + intros Hs. constructor; [apply Hiff; lia|apply IHiff; lia].
    + intros Hall. inversion Hall as [|? ? Hx Hl]; subst.
      apply Hiff in Hx. apply IHiff in Hl. lia.
Qed.

Lemma len_concat {A} (ls : list (list A)) :
  Py.len (List.concat ls) = sumZ (map Py.len ls).
Proof.
  induction ls as [|l ls IH]; [reflexivity|].
  simpl. unfold Py.len in *. rewrite length_app. lia.
Qed.

(** C3. The monitor starts its counter at 0, counts each notification
    once and returns exactly when the counter is [N]; with fewer messages
    it waits in [recv].  A worker with a pipe sends one notification right
    after each row it completed, before the next call, and nothing else.
    So, for the workers of a shard plan over a well-formed dataset and any
    interleaving of what they send on the one pipe, the counter reaches [N]
    if and only if every worker completed every row of its shard. *)
Theorem progress_monitor_complete :
  (forall inbox N desc show_progress_bar,
     1 <= N -> Forall notification inbox ->
     _progress_bar inbox N desc show_progress_bar
     = (EvAddTask (desc_or_main desc) N show_progress_bar
          :: repeat EvUpdate (Z.to_nat (Z.min (Py.len inbox) N)),
        Z.min (Py.len inbox) N,
        if N <=? Py.len inbox then Finished else Waiting)) /\
  (forall ds _apply_field func desc,
     exists tail,
       fst (_apply_single ds _apply_field func false (Some child_conn) desc)
       = flat_map (fun i => [EvCall i; EvSend (VList [VInt (i + 1)])])
           (completed ds _apply_field func (Py.range (__len__ ds))) ++ tail
       /\ sends tail = []
       /\ (is_ok (snd (_apply_single ds _apply_field func false (Some child_conn) desc))
           = true
           <-> completed ds _apply_field func (Py.range (__len__ ds))
               = Py.range (__len__ ds))) /\
  (forall self k kwds _apply_field func desc show_progress_bar,
     uniform self -> distinct_fields self -> 1 <= k <= __len__ self ->
     exists shards,
       make_shards self (__len__ self / k) (__len__ self mod k) (Py.range k) 0 = Ok shards /\
       forall inbox,
         let workers := map (partial_single_map _apply_field func kwds) shards in
         interleaving (map (fun w => sends (fst w)) workers) inbox ->
         (snd (fst (_progress_bar inbox (__len__ self) desc show_progress_bar))
          = __len__ self
          <-> Forall (fun w => is_ok (snd w) = true) workers)).
Proof.
  split; [intros; now apply progress_bar_count|].
  split; [intros; apply worker_trace|].
  intros self k kwds _apply_field func desc show_progress_bar Hu Hdist Hk.
  set (N := __len__ self) in *.
  pose proof (shard_plan_chained N k Hk) as Hc.
  exists (map (shard_of self) (shard_plan N k)).
  split.
  { apply (make_shards_uniform self _ _ (Py.range k) Hu Hdist 0 N); try lia. exact Hc. }
  intros inbox workers Hil.
  set (W := partial_single_map _apply_field func kwds) in *.
  set (shards := map (shard_of self) (shard_plan N k)) in *.
  assert (Hshards : Forall (fun d => 1 <= __len__ d) shards).
  { unfold shards. apply Forall_map. apply chained_bounds in Hc.
    eapply Forall_impl; [|exact Hc]. intros [s e] Hse. simpl in Hse.
    rewrite shard_of_len by (unfold N in *; lia). lia. }
  assert (Hsum : sumZ (map __len__ shards) = N).
  { unfold shards. rewrite map_map.
    rewrite (map_ext_in _ (fun se => snd se - fst se)).
    - rewrite (chained_sum _ _ _ Hc). lia.
    - intros [s e] Hin. apply chained_bounds in Hc. rewrite Forall_forall in Hc.
      specialize (Hc _ Hin). simpl in Hc. simpl.
      apply shard_of_len; unfold N in *; lia. }
  assert (Hw : Forall (fun d => Py.len (sends (fst (W d))) <= __len__ d
                                /\ (Py.len (sends (fst (W d))) = __len__ d
                                    <-> is_ok (snd (W d)) = true)) shards).
  { eapply Forall_impl; [|exact Hshards]. intros d Hd.
    destruct (worker_sends _apply_field func kwds d Hd) as (_ & Hle & Hiff).
    split; assumption. }
  assert (Hnotif : Forall notification
                     (List.concat (map (fun w => sends (fst w)) workers))).
  { unfold workers. rewrite map_map. apply Forall_concat. apply Forall_map.
    eapply Forall_impl; [|exact Hshards]. intros d Hd.
    now destruct (worker_sends _apply_field func kwds d Hd) as (Hn & _). }
  rewrite (monitor_interleaving _ inbox N desc show_progress_bar ltac:(lia) Hnotif Hil).
  rewrite progress_bar_count by (auto; lia). cbn [fst snd].
  rewrite len_concat. unfold workers. rewrite !map_map.
  destruct (sum_bounded_eq (fun d => Py.len (sends (fst (W d)))) __len__
              (fun d => is_ok (snd (W d)) = true) shards Hw) as [Hle Hiff].
  rewrite Forall_map. fold W. rewrite <- Hiff, Hsum. lia.
Qed.

Lemma progress_monitor_complete_witness :
  snd (fst (_progress_bar ex_inbox (__len__ ex_x4) None true)) = __len__ ex_x4.
Proof.
  destruct progress_monitor_complete as (_ & _ & H).
  assert (Hu : uniform ex_x4) by (apply uniform_by_lengths; reflexivity).
  assert (Hd : distinct_fields ex_x4) by (apply distinctb_NoDup; reflexivity).
  assert (Hk : 1 <= 2 <= __len__ ex_x4) by (vm_compute; split; congruence).
  destruct (H ex_x4 2 ["ds"] (Some "x") double None true Hu Hd Hk)
    as (shards & Hm & Hiff).
  vm_compute in Hm. injection Hm as <-.
  apply (Hiff ex_inbox).
  - exact (interleaving_next [] (VList [VInt 1]) [VList [VInt 2]] [[VList [VInt 1]; VList [VInt 2]]] _
             (interleaving_next [[VList [VInt 2]]] (VList [VInt 1]) [VList [VInt 2]] [] _
                (interleaving_next [] (VList [VInt 2]) [] [[VList [VInt 2]]] _
                   (interleaving_next [[]] (VList [VInt 2]) [] [] _
                      (interleaving_done [[]; []]
                         (Forall_cons _ eq_refl (Forall_cons _ eq_refl (Forall_nil _)))))))).
  - repeat constructor.
Defined.

(** ** The dispatch with keywords that [_apply_single] accepts

    What the multi-process branch computes once the workers run: the
    results of the single-process branch, in row order. *)

Lemma getitem_slice_at {A} (l : list A) (s e j : Z) :
  0 <= s <= e -> e <= Py.len l -> 0 <= j < e - s ->
  Py.getitem (Py.slice l (Some s) (Some e)) j = Py.getitem l (s + j).
Proof.
  intros Hs He Hj. unfold Py.getitem.
  rewrite (slice_len l s e Hs He).
  unfold Py.norm_index.
  destruct (Z.ltb_spec j 0); [lia|]. destruct (Z.ltb_spec (s + j) 0); [lia|].
  destruct (Z.leb_spec 0 j); [|lia]. destruct (Z.ltb_spec j (e - s)); [|lia].
  destruct (Z.leb_spec 0 (s + j)); [|lia]. destruct (Z.ltb_spec (s + j) (Py.len l)); [|lia].
  cbn [andb]. rewrite slice_inner by lia.
  rewrite nth_error_firstn.
  destruct (Nat.ltb_spec (Z.to_nat j) (Z.to_nat (e - s))); [|lia].
  rewrite nth_error_skipn. now rewrite <- Z2Nat.inj_add by lia.
Qed.

Lemma shard_row_of (cols : Py.dict FieldArray) (n s e j : Z) :
  (forall f, In f (Py.values cols) -> fa_len f = n) ->
  0 <= s <= e -> e <= n -> 0 <= j < e - s ->
  row_of (slice_cols cols (Some s) (Some e)) j = row_of cols (s + j).
Proof.
  intros Hu Hs He Hj. induction cols as [|[k f] cols IH]; [reflexivity|].
  change (slice_cols ((k, f) :: cols) (Some s) (Some e))
    with ((k, mkFieldArray k (Py.slice (content f) (Some s) (Some e)))
            :: slice_cols cols (Some s) (Some e)).
  cbn [row_of]. unfold fa_getitem. cbn [content].
  assert (Hf : Py.len (content f) = n) by (apply (Hu f); now left).
  rewrite getitem_slice_at by lia.
  rewrite IH by (intros g Hg; apply Hu; now right). reflexivity.
Qed.

Lemma shard_row_result (self : DataSet) (_apply_field : option string) (func : user_func)
  (s e j : Z) :
  uniform self -> 0 <= s <= e -> e <= __len__ self -> 0 <= j < e - s ->
  row_result (shard_of self (s, e)) _apply_field func j
  = row_result self _apply_field func (s + j).
Proof.
  intros Hu Hs He Hj. unfold row_result, getitem_int, shard_of.
  cbn [field_arrays fst snd].
  now rewrite (shard_row_of (field_arrays self) (__len__ self) s e j Hu Hs He Hj).
Qed.

Lemma seq_map_shift {B} (f : nat -> B) (m n : nat) :
  forall st, map f (seq (st + m) n) = map (fun x => f (x + m)%nat) (seq st n).
Proof.
  induction n as [|n IH]; intros st; [reflexivity|].
  simpl. f_equal. apply (IH (S st)).
Qed.

Lemma range_shift (a m n : Z) :
  0 <= m -> 0 <= n ->
  map (fun j => a + j) (Py.range (m + n))
  = map (fun j => a + j) (Py.range m) ++ map (fun j => a + m + j) (Py.range n).
Proof.
  intros Hm Hn. unfold Py.range. rewrite Z2Nat.inj_add by lia.
  rewrite seq_app, !map_app, !map_map. f_equal.
  rewrite seq_map_shift. apply map_ext. intros x. lia.
Qed.

(** The rows of a chained plan, range after range, are the rows from its
    start to its stop. *)
Lemma chained_rows {B} (g : Z -> B) (plan : list (Z * Z)) :
  forall a b, chained a plan b ->
  List.concat (map (fun se => map (fun j => g (fst se + j)) (Py.range (snd se - fst se)))
                 plan)
  = map (fun j => g (a + j)) (Py.range (b - a)).
Proof.
  induction plan as [|[s e] plan IH]; intros a b H; simpl in H.
  - subst. rewrite Z.sub_diag. reflexivity.
  - destruct H as (-> & Hlt & H). pose proof (chained_le _ _ _ H) as Hle.
    cbn [map List.concat fst snd]. rewrite (IH e b H).
    replace (b - a) with ((e - a) + (b - e)) by lia.
    rewrite <- (map_map (fun j => a + j) g (Py.range (e - a + (b - e)))).
    rewrite range_shift by lia. rewrite map_app, !map_map.
    f_equal. apply map_ext. intros j. f_equal. lia.
Qed.

Lemma collect_all_ok (outs : list (list pyval)) :
  forall acc, collect (map Ok outs) acc = Ok (acc ++ List.concat outs).
Proof.
  induction outs as [|o outs IH]; intros acc; simpl.
  - now rewrite app_nil_r.
  - rewrite IH. now rewrite app_assoc.
Qed.

(** A worker over a shard of rows that all succeed in the whole dataset. *)
Lemma shard_worker_ok (self : DataSet) (_apply_field : option string) (func : user_func)
  (s e : Z) :
  uniform self -> 0 <= s < e -> e <= __len__ self ->
  (forall i, 0 <= i < __len__ self -> exists r, row_result self _apply_field func i = Ok r) ->
  _apply_single (shard_of self (s, e)) _apply_field func false (Some child_conn) None
  = (flat_map (row_events false (Some child_conn)) (Py.range (e - s)),
     Ok (map (fun j => row_value self _apply_field func (s + j)) (Py.range (e - s)))).
Proof.
  intros Hu Hs He Hrows. unfold _apply_single.
  rewrite shard_of_len by lia.
  rewrite single_loop_all_ok.
  - cbn [app]. rewrite !app_nil_r. f_equal. f_equal.
    apply map_ext_in. intros j Hj. apply in_range in Hj.
    unfold row_value. now rewrite shard_row_result by (auto; lia).
  - apply Forall_forall. intros j Hj. apply in_range in Hj.
    rewrite shard_row_result by (auto; lia). apply Hrows. lia.
Qed.

(** With keywords that [_apply_single] accepts, every worker count gives
    the results of the single-process branch. *)
Lemma pool_matches_single (kwds : list string) (self : DataSet) (num_proc : Z)
  (func : user_func) (show_progress_bar : bool) (_apply_field : option string)
  (progress_desc : option string) (rs : list pyval) :
  accepts _apply_single_params
    (["_apply_field"; "func"; "pipe"; "show_progress_bar"] ++ kwds) = true ->
  uniform self -> distinct_fields self -> 1 <= __len__ self -> 1 <= num_proc ->
  snd (_apply_single self _apply_field func show_progress_bar None progress_desc) = Ok rs ->
  snd (_apply_process_kw kwds self num_proc func show_progress_bar _apply_field
         progress_desc) = Returns rs.
Proof.
  intros Hacc Hu Hd Hlen Hnp Hsingle.
  set (N := __len__ self) in *.
  (* every row succeeds, and rs lists their values *)
  rewrite apply_single_snd in Hsingle.
  destruct (single_loop_spec self _apply_field func show_progress_bar None
              (Py.range N) (-1) []) as (tail & _ & _ & Hout).
  fold N in Hsingle. rewrite Hsingle in Hout. destruct Hout as (Hc & _ & Hrs).
  apply completed_all in Hc. rewrite Forall_forall in Hc.
  assert (Hrows : forall i, 0 <= i < N -> exists r, row_result self _apply_field func i = Ok r).
  { intros i Hi. apply Hc. now apply in_range. }
  simpl in Hrs.
  assert (Hpool : forall k, 1 <= k <= N ->
            snd (apply_pool kwds self k func show_progress_bar _apply_field progress_desc)
            = Returns rs).
  { intros k Hk. unfold apply_pool. fold N.
    destruct (Z.eqb_spec k 0); [lia|].
    pose proof (shard_plan_chained N k Hk) as Hch.
    rewrite (make_shards_uniform self _ _ (Py.range k) Hu Hd 0 N ltac:(lia) ltac:(lia) Hch).
    fold (shard_plan N k).
    destruct (Z.ltb_spec k 1); [lia|].
    pose proof (chained_bounds _ _ _ Hch) as Hb. rewrite Forall_forall in Hb.
    assert (Hworkers : map (partial_single_map _apply_field func kwds)
                         (map (shard_of self) (shard_plan N k))
                       = map (fun se =>
                                (flat_map (row_events false (Some child_conn))
                                   (Py.range (snd se - fst se)),
                                 Ok (map (fun j => row_value self _apply_field func (fst se + j))
                                       (Py.range (snd se - fst se)))))
                           (shard_plan N k)).
    { rewrite map_map. apply map_ext_in. intros [s e] Hin.
      specialize (Hb _ Hin). simpl in Hb. unfold partial_single_map. rewrite Hacc.
      cbn [fst snd]. apply shard_worker_ok; auto; unfold N in *; lia. }
    rewrite Hworkers.
    set (inbox := flat_map _ _).
    assert (Hinbox : Forall notification inbox /\ Py.len inbox = N).
    { unfold inbox. rewrite flat_map_concat_map, map_map. cbn [fst].
      split.
      - apply Forall_concat. apply Forall_map. apply Forall_forall. intros se _.
        rewrite sends_row_events. apply Forall_forall. intros m Hm.
        apply in_map_iff in Hm. destruct Hm as (i & <- & _). now exists (i + 1).
      - rewrite len_concat, map_map.
        rewrite (map_ext_in _ (fun se => snd se - fst se)).
        + rewrite (chained_sum _ _ _ Hch). lia.
        + intros se Hin. specialize (Hb _ Hin). rewrite sends_row_events.
          unfold Py.len. rewrite length_map. apply range_length. lia. }
    destruct Hinbox as [Hnotif Hilen].
    rewrite progress_bar_count by (auto; lia). cbn [snd].
    destruct (Z.leb_spec N (Py.len inbox)); [|lia].
    cbn [snd]. rewrite map_map. cbn [snd].
    rewrite <- (map_map (fun se => map (fun j => row_value self _apply_field func (fst se + j))
                                     (Py.range (snd se - fst se))) Ok).
    rewrite collect_all_ok. cbn [app of_py]. f_equal.
    rewrite (chained_rows (row_value self _apply_field func) _ 0 N Hch).
    rewrite Hrs, Z.sub_0_r. apply map_ext. intros j. f_equal. }
  unfold _apply_process_kw. fold N.
  destruct (Z.eqb_spec num_proc 0); [lia|].
  destruct (Z.gtb_spec num_proc N).
  - specialize (Hpool N ltac:(lia)).
    destruct (apply_pool _ _ _ _ _ _ _). exact Hpool.
  - apply Hpool. lia.
Qed.

(** ** The operations that keep the columns equal *)

Lemma uniform_of_len (cols : Py.dict FieldArray) (n : Z) :
  (forall f, In f (Py.values cols) -> fa_len f = n) -> uniform (mkDataSet cols).
Proof.
  intros H f Hf. unfold __len__. cbn [field_arrays] in *.
  destruct cols as [|[k0 f0] cols]; [contradiction|].
  rewrite (H f Hf). symmetry. apply H. now left.
Qed.

Lemma values_set {V} (k : string) (v : V) (d : Py.dict V) (x : V) :
  In x (Py.values (Py.set k v d)) -> x = v \/ In x (Py.values d).
Proof.
  unfold Py.values. intros H. apply in_map_iff in H. destruct H as ([k0 v0] & <- & Hin).
  apply set_in in Hin. destruct Hin as [Heq|Hin].
  - left. now injection Heq.
  - right. change v0 with (snd (k0, v0)). now apply in_map.
Qed.

Lemma values_remove {V} (k : string) (d : Py.dict V) (x : V) :
  In x (Py.values (Py.remove k d)) -> In x (Py.values d).
Proof.
  induction d as [|[k' v'] d IH]; simpl; [tauto|].
  destruct (String.eqb k k'); simpl; [now right|].
  intros [H|H]; [now left|right; now apply IH].
Qed.

Lemma add_field_uniform (self : DataSet) (k : string) (l : list pyval) :
  uniform self -> uniform (fst (add_field self k l)).
Proof.
  intros Hu. unfold add_field.
  destruct (negb (Py.len (field_arrays self) =? 0)) eqn:Hne; cbn [andb].
  - destruct (Z.eqb_spec (__len__ self) (Py.len l)) as [Heq|]; cbn [negb fst]; [|exact Hu].
    apply (uniform_of_len _ (__len__ self)). intros f Hf. apply values_set in Hf.
    destruct Hf as [->|Hf]; [now symmetry|now apply Hu].
  - cbn [fst]. apply negb_false_iff, Z.eqb_eq in Hne.
    destruct self as [[|c cols]]; [|unfold Py.len in Hne; simpl in Hne; lia].
    apply (uniform_of_len _ (Py.len l)). intros f [<-|[]]. reflexivity.
Qed.

Lemma write_back_uniform (items : list (string * list pyval)) :
  forall self, uniform self -> uniform (fst (write_back self items)).
Proof.
  induction items as [|[k col] items IH]; intros self Hu; [exact Hu|].
  simpl. pose proof (add_field_uniform self k col Hu) as Ha.
  destruct (add_field self k col) as [d [[]|e]]; [now apply IH|exact Ha].
Qed.

Lemma delete_instance_uniform (self : DataSet) (index : Z) :
  uniform self -> uniform (fst (delete_instance self index)).
Proof.
  intros Hu. unfold delete_instance.
  destruct (Z.leb_spec (__len__ self) index); [exact Hu|].
  destruct (Z.eqb_spec (__len__ self) 1); [intros f []|].
  destruct (Z_le_gt_dec (- __len__ self) index) as [Hlo|Hlo].
  - rewrite (pop_all_uniform (__len__ self) index (field_arrays self) ltac:(lia) Hu).
    cbn [fst]. apply (uniform_of_len _ (__len__ self - 1)).
    intros f Hf. unfold Py.values in Hf. rewrite map_map in Hf.
    apply in_map_iff in Hf. destruct Hf as ([k0 f0] & <- & Hin). cbn [fst snd].
    assert (Hf0 : fa_len f0 = __len__ self).
    { apply Hu. change f0 with (snd (k0, f0)). now apply in_map. }
    unfold fa_len, Py.len in *. cbn [content].
    rewrite remove_at_length; [lia|]. unfold position.
    destruct (Z.ltb_spec index 0); lia.
  - destruct self as [[|[k f] cols]]; [intros g []|].
    cbn [field_arrays pop_all]. unfold fa_pop, Py.pop.
    assert (Hf : Py.len (content f) = __len__ (mkDataSet ((k, f) :: cols))) by reflexivity.
    assert (Hnone : Py.norm_index (Py.len (content f)) index = None).
    { unfold Py.norm_index. rewrite Hf.
      destruct (Z.ltb_spec index 0); [|pose proof (ds_len_nonneg (mkDataSet ((k, f) :: cols))); lia].
      destruct (Z.leb_spec 0 (index + __len__ (mkDataSet ((k, f) :: cols)))); [lia|reflexivity]. }
    rewrite Hnone. exact Hu.
Qed.

Lemma delete_field_uniform (self : DataSet) (field_name : string) :
  uniform self -> uniform (fst (delete_field self field_name)).
Proof.
  intros Hu. unfold delete_field. destruct (has_field self field_name); [|exact Hu].
  cbn [fst]. apply (uniform_of_len _ (__len__ self)).
  intros f Hf. apply Hu. now apply values_remove in Hf.
Qed.

Lemma rename_field_uniform (self : DataSet) (field_name new_field_name : string) :
  uniform self -> uniform (fst (rename_field self field_name new_field_name)).
Proof.
  intros Hu. unfold rename_field.
  destruct (Py.get field_name (field_arrays self)) as [f|] eqn:Hf; [|exact Hu].
  cbn [fst]. apply (uniform_of_len _ (__len__ self)).
  intros g Hg. apply values_set in Hg. destruct Hg as [->|Hg].
  - unfold fa_len, fa_rename. cbn [content]. apply (Hu f).
    apply get_some_in in Hf. change f with (snd (field_name, f)). now apply in_map.
  - apply Hu. now apply values_remove in Hg.
Qed.

Lemma append_uniform (self self' : DataSet) (instance : Instance) :
  uniform self -> distinct_fields self -> NoDup (Py.keys (fields instance)) ->
  append self instance = (self', Ok tt) -> uniform self'.
Proof.
  intros Hu Hd Hnd Happ. unfold append in Happ.
  destruct self as [cols]. destruct instance as [items].
  unfold ins_items, distinct_fields in *. cbn [field_arrays fields] in *.
  destruct (Z.eqb_spec (Py.len cols) 0) as [Hz|Hnz].
  - destruct cols as [|c cols]; [|unfold Py.len in Hz; simpl in Hz; lia].
    injection Happ as <-. rewrite append_seed_fresh by exact Hnd.
    apply (uniform_of_len _ 1). intros f Hf. unfold Py.values in Hf.
    cbn [app] in Hf. rewrite map_map in Hf. apply in_map_iff in Hf.
    destruct Hf as (kv & <- & _). reflexivity.
  - destruct (Z.eqb_spec (Py.len cols) (Py.len items)) as [Hcount|]; [|discriminate].
    cbn [negb] in Happ.
    destruct (append_fill cols items) as [cols' r] eqn:Hfill.
    injection Happ as <- ->.
    pose proof (append_fill_incl items cols cols' Hfill) as Hincl.
    destruct (append_fill_spec items cols Hnd Hincl) as (r & Hr & Hkeys & Hget).
    rewrite Hfill in Hr. injection Hr as <-.
    assert (Hincl' : incl (Py.keys cols) (Py.keys items)).
    { apply NoDup_length_incl; [exact Hnd| |exact Hincl].
      unfold Py.keys, Py.len in *. rewrite !length_map. lia. }
    apply (uniform_of_len _ (__len__ (mkDataSet cols) + 1)).
    intros f' Hf'. unfold Py.values in Hf'. apply in_map_iff in Hf'.
    destruct Hf' as ([k f0] & <- & Hin'). cbn [snd].
    assert (Hg' : Py.get k cols' = Some f0).
    { apply in_get_some; [now rewrite Hkeys|exact Hin']. }
    assert (Hk : In k (Py.keys cols)).
    { rewrite <- Hkeys. change k with (fst (k, f0)). now apply in_map. }
    destruct (get_in_keys k items (Hincl' k Hk)) as [v Hv].
    destruct (get_in_keys k cols Hk) as [f Hf].
    rewrite Hget, Hv, Hf in Hg'. injection Hg' as <-.
    assert (HN : fa_len f = __len__ (mkDataSet cols)).
    { apply (Hu f). apply get_some_in in Hf. change f with (snd (k, f)). now apply in_map. }
    unfold fa_len, fa_append, Py.len in *. cbn [content]. rewrite length_app. simpl. lia.
Qed.

(** X8. On a store with equal columns and distinct field names, adding
    a field, deleting an instance, deleting or renaming a field and writing
    merged columns back leave the columns equal whether they return or
    raise, and so does an [append] that returns. *)
Lemma mutators_keep_uniform (self : DataSet) :
  uniform self ->
  (forall k l, uniform (fst (add_field self k l))) /\
  (forall index, uniform (fst (delete_instance self index))) /\
  (forall k, uniform (fst (delete_field self k))) /\
  (forall k k', uniform (fst (rename_field self k k'))) /\
  (forall items, uniform (fst (write_back self items))) /\
  (forall instance self',
     distinct_fields self -> NoDup (Py.keys (fields instance)) ->
     append self instance = (self', Ok tt) -> uniform self').
Proof.
  intros Hu. repeat split; intros.
  - now apply add_field_uniform.
  - now apply delete_instance_uniform.
  - now apply delete_field_uniform.
  - now apply rename_field_uniform.
  - now apply write_back_uniform.
  - eapply append_uniform; eauto.
Qed.

(** ** Indexing rows and slicing *)

Lemma norm_index_inside (n i : Z) :
  0 <= i < n -> Py.norm_index n i = Some (Z.to_nat i).
Proof.
  intros H. unfold Py.norm_index.
  destruct (Z.ltb_spec i 0); [lia|].
  destruct (Z.leb_spec 0 i); [|lia]. destruct (Z.ltb_spec i n); [reflexivity|lia].
Qed.


Lemma norm_index_outside (n i : Z) :
  n <= i \/ i < - n -> Py.norm_index n i = None.
Proof.
  intros H. unfold Py.norm_index.
  destruct (Z.ltb_spec i 0).
  - destruct (Z.leb_spec 0 (i + n)); [|reflexivity].
    destruct (Z.ltb_spec (i + n) n); [lia|reflexivity].
  - destruct (Z.leb_spec 0 i); [|reflexivity].
    destruct (Z.ltb_spec i n); [lia|reflexivity].
Qed.

Lemma getitem_nth {A} (d : A) (l : list A) (i : Z) :
  0 <= i < Py.len l -> Py.getitem l i = Ok (nth (Z.to_nat i) l d).
Proof.
  intros H. unfold Py.getitem. rewrite norm_index_inside by exact H.
  rewrite nth_error_nth' with (d := d); [reflexivity|]. unfold Py.len in H. lia.
Qed.

Lemma row_of_uniform (n i : Z) (cols : Py.dict FieldArray) :
  (forall f, In f (Py.values cols) -> fa_len f = n) -> 0 <= i < n ->
  row_of cols i = Ok (row_at cols (Z.to_nat i)).
Proof.
  intros Hu Hi. induction cols as [|[k f] cols IH]; [reflexivity|].
  cbn [row_of row_at map fst snd]. unfold fa_getitem.
  assert (Hf : Py.len (content f) = n) by (apply (Hu f); now left).
  rewrite (getitem_nth VNone) by lia. cbn [py_bind].
  rewrite IH by (intros g Hg; apply Hu; now right). reflexivity.
Qed.








(** ** Fields: adding, looking up, deleting, renaming, copying *)

Lemma get_remove_same {V} (k : string) (d : Py.dict V) :
  NoDup (Py.keys d) -> Py.get k (Py.remove k d) = None.
Proof.
  induction d as [|[k' v] d IH]; simpl; intros Hnd; [reflexivity|].
  inversion Hnd as [|? ? Hnotin Hnd']; subst.
  destruct (String.eqb_spec k k') as [->|Hne].
  - now apply get_none_not_in.
  - simpl. destruct (String.eqb_spec k k'); [contradiction|now apply IH].
Qed.

Lemma get_remove_other {V} (k k0 : string) (d : Py.dict V) :
  k0 <> k -> Py.get k0 (Py.remove k d) = Py.get k0 d.
Proof.
  intros Hne. induction d as [|[k' v] d IH]; simpl; [reflexivity|].
  destruct (String.eqb_spec k k') as [->|Hne'].
  - destruct (String.eqb_spec k0 k'); [contradiction|reflexivity].
  - simpl. destruct (String.eqb_spec k0 k'); [reflexivity|exact IH].
Qed.

Lemma remove_absent {V} (k : string) (d : Py.dict V) :
  ~ In k (Py.keys d) -> Py.remove k d = d.
Proof.
  induction d as [|[k' v] d IH]; simpl; intros Hn; [reflexivity|].
  destruct (String.eqb_spec k k') as [->|Hne].
  - exfalso. apply Hn. now left.
  - f_equal. apply IH. tauto.
Qed.

Lemma remove_set_fresh {V} (k : string) (v : V) (d : Py.dict V) :
  ~ In k (Py.keys d) -> Py.remove k (Py.set k v d) = d.
Proof.
  induction d as [|[k' v'] d IH]; simpl; intros Hn.
  - now rewrite String.eqb_refl.
  - destruct (String.eqb_spec k k') as [->|Hne].
    + exfalso. apply Hn. now left.
    + simpl. destruct (String.eqb_spec k k'); [contradiction|].
      f_equal. apply IH. tauto.
Qed.

Lemma remove_keys_incl {V} (k : string) (d : Py.dict V) :
  incl (Py.keys (Py.remove k d)) (Py.keys d).
Proof.
  induction d as [|[k' v] d IH]; simpl; [intros x []|].
  destruct (String.eqb k k'); simpl.
  - intros x Hx. now right.
  - intros x [<-|Hx]; [now left|right; now apply IH].
Qed.

Lemma remove_nodup {V} (k : string) (d : Py.dict V) :
  NoDup (Py.keys d) -> NoDup (Py.keys (Py.remove k d)).
Proof.
  induction d as [|[k' v] d IH]; simpl; intros Hnd; [constructor|].
  inversion Hnd as [|? ? Hnotin Hnd']; subst.
  destruct (String.eqb k k'); simpl; [exact Hnd'|].
  constructor; [|now apply IH].
  intros Hin. apply Hnotin. now apply (remove_keys_incl k d).
Qed.


Lemma len_set (cols : Py.dict FieldArray) (k : string) (v : FieldArray) :
  cols <> [] -> fa_len v = __len__ (mkDataSet cols) ->
  __len__ (mkDataSet (Py.set k v cols)) = __len__ (mkDataSet cols).
Proof.
  intros Hne Hv. unfold __len__ in *. cbn [field_arrays] in *.
  destruct cols as [|[k0 f0] cols]; [contradiction|].
  simpl. destruct (String.eqb k k0); [exact Hv|reflexivity].
Qed.



(** X4. [rename_field] of a name that is no field raises [KeyError] and
    changes nothing.  Of a field, in a store with distinct names, it
    succeeds: the column is found under the new name with its values, the
    old name is gone, and the fields with other names are untouched, so a
    field that already had the new name is replaced.  Renaming to a name
    that is free and back gives every field its values again. *)
Theorem rename_field_effect (self : DataSet) (k k' : string) :
  (Py.get k (field_arrays self) = None ->
   rename_field self k k' = (self, Err (KeyError k))) /\
  (forall f, distinct_fields self -> Py.get k (field_arrays self) = Some f ->
   snd (rename_field self k k') = Ok tt /\
   get_field (fst (rename_field self k k')) k' = Ok (fa_rename f k') /\
   (k <> k' -> has_field (fst (rename_field self k k')) k = false) /\
   (forall k0, k0 <> k -> k0 <> k' ->
      get_field (fst (rename_field self k k')) k0 = get_field self k0) /\
   (~ In k' (Py.keys (field_arrays self)) ->
    snd (rename_field (fst (rename_field self k k')) k' k) = Ok tt /\
    forall k0,
      Py.get k0 (columns (fst (rename_field (fst (rename_field self k k')) k' k)))
      = Py.get k0 (columns self))).
Proof.
  split.
  - intros Hnone. unfold rename_field. now rewrite Hnone.
  - intros f Hd Hf. unfold rename_field at 1 2 3 4. rewrite Hf. cbn [fst snd].
    split; [reflexivity|]. split; [|split; [|split]].
    + unfold get_field. cbn [field_arrays]. now rewrite get_set_same.
    + intros Hne. unfold has_field, Py.mem. cbn [field_arrays].
      rewrite get_set_other by exact Hne. now rewrite get_remove_same.
    + intros k0 Hk Hk'. unfold get_field. cbn [field_arrays].
      now rewrite get_set_other, get_remove_other.
    + intros Hfresh.
      assert (Hfresh' : ~ In k' (Py.keys (Py.remove k (field_arrays self)))).
      { intros Hin. apply Hfresh. now apply (remove_keys_incl k). }
      unfold rename_field. rewrite Hf. cbn [fst snd field_arrays].
      rewrite get_set_same. cbn [fst snd]. split; [reflexivity|].
      intros k0. rewrite !columns_get. cbn [field_arrays].
      rewrite remove_set_fresh by exact Hfresh'.
      destruct (String.eqb_spec k0 k) as [->|Hne].
      * rewrite get_set_same, Hf. reflexivity.
      * now rewrite get_set_other, get_remove_other.
Qed.

Lemma rename_field_effect_witness :
  get_field (fst (rename_field ex_xy4 "x" "y")) "y"
  = Ok (mkFieldArray "y" [VInt 1; VInt 2; VInt 3; VInt 4])
  /\ has_field (fst (rename_field ex_xy4 "x" "y")) "x" = false.
Proof.
  destruct (rename_field_effect ex_xy4 "x" "y") as [_ H].
  assert (Hd : distinct_fields ex_xy4) by (apply distinctb_NoDup; reflexivity).
  destruct (H (mkFieldArray "x" [VInt 1; VInt 2; VInt 3; VInt 4]) Hd eq_refl)
    as (_ & H1 & H2 & _).
  split; [exact H1|]. apply H2. discriminate.
Defined.

(** X5. [copy_field] of a name that is no field raises [KeyError]; of a
    column whose length is not [len(self)] it raises [RuntimeError]; both
    change nothing.  In a store with equal columns it succeeds: the new name
    holds the values of the copied column, every other field is as before,
    and the columns stay equal with [len(self)] unchanged. *)
Theorem copy_field_effect (self : DataSet) (k k' : string) :
  (has_field self k = false -> copy_field self k k' = (self, Err (KeyError k))) /\
  (forall f, Py.get k (field_arrays self) = Some f -> fa_len f <> __len__ self ->
   copy_field self k k' = (self, Err RuntimeError)) /\
  (forall f, uniform self -> Py.get k (field_arrays self) = Some f ->
   snd (copy_field self k k') = Ok tt /\
   get_field (fst (copy_field self k k')) k' = Ok (fa_rename f k') /\
   (forall k0, k0 <> k' ->
      get_field (fst (copy_field self k k')) k0 = get_field self k0) /\
   uniform (fst (copy_field self k k')) /\
   __len__ (fst (copy_field self k k')) = __len__ self).
Proof.
  split; [|split].
  - intros H. unfold copy_field. now rewrite H.
  - intros f Hf Hlen. unfold copy_field, has_field, Py.mem, get_field. rewrite Hf.
    cbn [negb]. unfold add_fieldarray, fa_len, fa_rename in *. cbn [content].
    destruct (Z.eqb_spec (__len__ self) (Py.len (content f))); [lia|reflexivity].
  - intros f Hu Hf.
    assert (Hlen : fa_len f = __len__ self).
    { apply Hu. apply get_some_in in Hf. change f with (snd (k, f)). now apply in_map. }
    assert (Hcopy : copy_field self k k'
                    = (mkDataSet (Py.set k' (fa_rename f k') (field_arrays self)), Ok tt)).
    { unfold copy_field, has_field, Py.mem, get_field. rewrite Hf. cbn [negb].
      unfold add_fieldarray, fa_len, fa_rename in *. cbn [content].
      now rewrite <- Hlen, Z.eqb_refl. }
    rewrite Hcopy. cbn [fst snd]. split; [reflexivity|]. split; [|split; [|split]].
    + unfold get_field. cbn [field_arrays]. now rewrite get_set_same.
    + intros k0 Hne. unfold get_field. cbn [field_arrays]. now rewrite get_set_other.
    + apply (uniform_of_len _ (__len__ self)). intros g Hg. apply values_set in Hg.
      destruct Hg as [->|Hg]; [exact Hlen|now apply Hu].
    + destruct self as [cols]. cbn [field_arrays] in *. apply len_set.
      * intros Hnil. now rewrite Hnil in Hf.
      * exact Hlen.
Qed.

Lemma copy_field_effect_witness :
  get_field (fst (copy_field ex_xy4 "x" "x2")) "x2"
  = Ok (mkFieldArray "x2" [VInt 1; VInt 2; VInt 3; VInt 4])
  /\ copy_field ex_xy4 "q" "x2" = (ex_xy4, Err (KeyError "q")).
Proof.
  destruct (copy_field_effect ex_xy4 "x" "x2") as (_ & _ & H).
  destruct (copy_field_effect ex_xy4 "q" "x2") as (Hq & _).
  assert (Hu : uniform ex_xy4) by (apply uniform_by_lengths; reflexivity).
  destruct (H (mkFieldArray "x" [VInt 1; VInt 2; VInt 3; VInt 4]) Hu eq_refl)
    as (_ & H1 & _).
  split; [exact H1|]. apply Hq. reflexivity.
Defined.

(** ** The constructor *)





(** ** The merger and the field operations, at concrete inputs *)

Lemma merge_missing_field_witness :
  exists results,
    merge [row_ab; row_ab; row_a]
    = ([EvPrint (Message different_fields); EvPrint (ExceptionAt 2)],
       results,
       Err (ApplyResultException different_fields 2))
    /\ Py.keys results = ["a"; "b"]
    /\ all_len results 2.
Proof.
  apply (merge_missing_field [("a", VInt 1); ("b", VInt 2)] [("a", VInt 1)] [row_ab] []).
  - apply distinctb_NoDup. reflexivity.
  - constructor; [|constructor].
    exists [("a", VInt 1); ("b", VInt 2)]. split; [reflexivity|].
    split; [apply distinctb_NoDup; reflexivity|]. split; apply incl_refl.
  - intros H. specialize (H "b" (or_intror (or_introl eq_refl))).
    simpl in H. destruct H as [H|[]]. discriminate.
Defined.

Lemma mutators_keep_uniform_witness :
  uniform (fst (delete_instance ex_xy4 1)) /\ uniform (fst (add_field ex_xy4 "z" [VInt 0])).
Proof.
  assert (Hu : uniform ex_xy4) by (apply uniform_by_lengths; reflexivity).
  destruct (mutators_keep_uniform ex_xy4 Hu) as (Ha & Hd & _).
  split; [apply Hd|apply Ha].
Defined.

(** ** [apply_field] and [apply] in this process *)

Lemma map_nth_range {A} (d : A) (l : list A) :
  map (fun i => nth (Z.to_nat i) l d) (Py.range (Py.len l)) = l.
Proof.
  unfold Py.range, Py.len. rewrite Nat2Z.id, map_map.
  transitivity (map (fun n => nth n l d) (seq 0 (List.length l))).
  { apply map_ext. intros n. now rewrite Nat2Z.id. }
  induction l as [|x l IH]; [reflexivity|].
  cbn [List.length seq map nth]. f_equal.
  rewrite <- seq_shift, map_map. exact IH.
Qed.

Lemma getitem_int_row (self : DataSet) (i : Z) :
  uniform self -> 0 <= i < __len__ self ->
  getitem_int self i = Ok (mkInstance (row_at (field_arrays self) (Z.to_nat i))).
Proof.
  intros Hu Hi. unfold getitem_int.
  now rewrite (row_of_uniform (__len__ self) i (field_arrays self) Hu Hi).
Qed.

Lemma row_at_get (cols : Py.dict FieldArray) (i : nat) (k : string) :
  Py.get k (row_at cols i)
  = option_map (fun f => nth i (content f) VNone) (Py.get k cols).
Proof. apply (get_map_values (fun _ f => nth i (content f) VNone)). Qed.

Lemma row_result_field (self : DataSet) (k : string) (f : FieldArray) (func : user_func)
  (i : Z) :
  uniform self -> Py.get k (field_arrays self) = Some f -> 0 <= i < __len__ self ->
  row_result self (Some k) func i = func (ArgField (nth (Z.to_nat i) (content f) VNone)).
Proof.
  intros Hu Hf Hi. unfold row_result. rewrite getitem_int_row by assumption.
  cbn [py_bind func_arg]. unfold ins_getitem. cbn [fields].
  now rewrite row_at_get, Hf.
Qed.

Lemma row_result_ins (self : DataSet) (func : user_func) (i : Z) :
  uniform self -> 0 <= i < __len__ self ->
  row_result self None func i
  = func (ArgIns (mkInstance (row_at (field_arrays self) (Z.to_nat i)))).
Proof.
  intros Hu Hi. unfold row_result. now rewrite getitem_int_row by assumption.
Qed.

Lemma in_process_all_ok (self : DataSet) (_apply_field : option string) (func : user_func)
  (show_progress_bar : bool) (progress_desc : option string) :
  (forall i, 0 <= i < __len__ self ->
     exists r, row_result self _apply_field func i = Ok r) ->
  _apply_process self 0 func show_progress_bar _apply_field progress_desc
  = (in_process_trace (__len__ self) show_progress_bar progress_desc,
     Returns (map (row_value self _apply_field func) (Py.range (__len__ self)))).
Proof.
  intros Hok. unfold _apply_process, _apply_process_kw. simpl (0 =? 0). cbv iota.
  unfold _apply_single. rewrite single_loop_all_ok.
  - cbn [app of_py]. reflexivity.
  - apply Forall_forall. intros j Hj. apply in_range in Hj. now apply Hok.
Qed.

Lemma in_field (self : DataSet) (k : string) (f : FieldArray) :
  Py.get k (field_arrays self) = Some f -> In f (Py.values (field_arrays self)).
Proof.
  intros Hf. apply get_some_in in Hf. change f with (snd (k, f)). now apply in_map.
Qed.

Lemma nonempty_len (self : DataSet) : 0 < __len__ self -> Py.len (field_arrays self) <> 0.
Proof.
  unfold __len__, Py.len. destruct (field_arrays self); simpl; lia.
Qed.

Lemma store_results_ok (self : DataSet) (new_field_name : option string) (tr : trace)
  (results : list pyval) :
  Py.len results = __len__ self ->
  store_results self new_field_name (tr, Returns results)
  = (tr,
     match new_field_name with
     | Some nm => mkDataSet (Py.set nm (mkFieldArray nm results) (field_arrays self))
     | None => self
     end,
     Returns results).
Proof.
  intros Hlen. unfold store_results. destruct new_field_name as [nm|]; [|reflexivity].
  unfold add_field. now rewrite Hlen, Z.eqb_refl, andb_false_r.
Qed.

Lemma apply_field_in_process (self : DataSet) (func : user_func) (k : string)
  (f : FieldArray) (h : pyval -> pyval) (new_field_name progress_desc : option string)
  (show_progress_bar : bool) :
  uniform self -> 0 < __len__ self -> Py.get k (field_arrays self) = Some f ->
  (forall v, In v (content f) -> func (ArgField v) = Ok (h v)) ->
  apply_field self func k new_field_name 0 progress_desc show_progress_bar
  = (in_process_trace (__len__ self) show_progress_bar progress_desc,
     match new_field_name with
     | Some nm =>
         mkDataSet (Py.set nm (mkFieldArray nm (map h (content f))) (field_arrays self))
     | None => self
     end,
     Returns (map h (content f))).
Proof.
  intros Hu Hpos Hf Hfunc.
  assert (Hlen : Py.len (content f) = __len__ self) by (apply Hu; eapply in_field; eauto).
  assert (Hrow : forall i, 0 <= i < __len__ self ->
            row_result self (Some k) func i
            = Ok (h (nth (Z.to_nat i) (content f) VNone))).
  { intros i Hi. rewrite (row_result_field self k f) by assumption.
    apply Hfunc. apply nth_In. unfold Py.len in Hlen. lia. }
  unfold apply_field.
  destruct (Z.eqb_spec (__len__ self) 0); [lia|].
  unfold has_field, Py.mem. rewrite Hf. cbn [negb].
  rewrite in_process_all_ok by (intros i Hi; eexists; now apply Hrow).
  assert (Hres : map (row_value self (Some k) func) (Py.range (__len__ self))
                 = map h (content f)).
  { transitivity (map h (map (fun i => nth (Z.to_nat i) (content f) VNone)
                             (Py.range (Py.len (content f))))).
    - rewrite Hlen, map_map. apply map_ext_in. intros i Hi. apply in_range in Hi.
      unfold row_value. now rewrite Hrow.
    - now rewrite map_nth_range. }
  rewrite Hres. apply store_results_ok.
  unfold Py.len in *. now rewrite length_map.
Qed.

(** X9. [apply_field] on a dataset without rows raises [AssertionError],
    and on a name that is no field [KeyError], before any row is read.  In
    this process, on a dataset with equal columns and at least one row, for
    a function that returns [h v] on every value [v] of the field: it
    returns the values of the column mapped by [h], in row order, and
    nothing is printed; with a new field name, that list is the column
    stored under the name, at the place of an existing field of that name
    or after the last field, and no other column changes; with no name,
    the dataset is as it was. *)
Theorem apply_field_maps_column (self : DataSet) (func : user_func) (k : string)
  (new_field_name progress_desc : option string) (show_progress_bar : bool) :
  (__len__ self = 0 ->
   forall num_proc,
   apply_field self func k new_field_name num_proc progress_desc show_progress_bar
   = ([], self, Raises AssertionError)) /\
  (__len__ self <> 0 -> has_field self k = false ->
   forall num_proc,
   apply_field self func k new_field_name num_proc progress_desc show_progress_bar
   = ([], self, Raises (KeyError k))) /\
  (forall (f : FieldArray) (h : pyval -> pyval),
   uniform self -> 0 < __len__ self -> Py.get k (field_arrays self) = Some f ->
   (forall v, In v (content f) -> func (ArgField v) = Ok (h v)) ->
   apply_field self func k new_field_name 0 progress_desc show_progress_bar
   = (in_process_trace (__len__ self) show_progress_bar progress_desc,
      match new_field_name with
      | Some nm =>
          mkDataSet (Py.set nm (mkFieldArray nm (map h (content f))) (field_arrays self))
      | None => self
      end,
      Returns (map h (content f)))).
Proof.
  split; [|split].
  - intros Hz num_proc. unfold apply_field. now rewrite Hz.
  - intros Hnz Hno num_proc. unfold apply_field.
    destruct (Z.eqb_spec (__len__ self) 0); [contradiction|]. now rewrite Hno.
  - intros f h. apply apply_field_in_process.
Qed.

Lemma apply_field_maps_column_witness :
  apply_field ex_xy4 double "x" (Some "x") 0 None false
  = ([EvCall 0; EvCall 1; EvCall 2; EvCall 3],
     mkDataSet [("x", mkFieldArray "x" [VInt 2; VInt 4; VInt 6; VInt 8]);
                ("y", mkFieldArray "y" [VStr "a"; VStr "b"; VStr "c"; VStr "d"])],
     Returns [VInt 2; VInt 4; VInt 6; VInt 8]).
Proof.
  destruct (apply_field_maps_column ex_xy4 double "x" (Some "x") None false)
    as (_ & _ & H).
  apply (H (mkFieldArray "x" [VInt 1; VInt 2; VInt 3; VInt 4])
           (fun v => match v with VInt n => VInt (n * 2) | _ => VNone end)).
  - apply uniform_by_lengths. reflexivity.
  - reflexivity.
  - reflexivity.
  - intros v Hv. simpl in Hv.
    destruct Hv as [<- | [<- | [<- | [<- | []]]]]; reflexivity.
Defined.

(** X10. [apply] in this process on a dataset with equal columns and at
    least one row, for a function that returns [h ins] on every row: it
    returns the rows mapped by [h], in order; with a new field name that
    list is stored as the column of that name, with no name the dataset is
    as it was.  A negative worker count raises [AssertionError] before any
    row is read, and so does a dataset without rows. *)
Theorem apply_maps_rows (self : DataSet) (func : user_func) (h : Instance -> pyval)
  (new_field_name progress_desc : option string) (show_progress_bar : bool) :
  (__len__ self = 0 ->
   forall num_proc,
   apply self func new_field_name num_proc show_progress_bar progress_desc
   = ([], self, Raises AssertionError)) /\
  (forall num_proc, num_proc < 0 ->
   apply self func new_field_name num_proc show_progress_bar progress_desc
   = ([], self, Raises AssertionError)) /\
  (uniform self -> 0 < __len__ self ->
   (forall ins, In ins (rows self) -> func (ArgIns ins) = Ok (h ins)) ->
   apply self func new_field_name 0 show_progress_bar progress_desc
   = (in_process_trace (__len__ self) show_progress_bar progress_desc,
      match new_field_name with
      | Some nm =>
          mkDataSet (Py.set nm (mkFieldArray nm (map h (rows self))) (field_arrays self))
      | None => self
      end,
      Returns (map h (rows self)))).
Proof.
  split; [|split].
  - intros Hz num_proc. unfold apply. now rewrite Hz.
  - intros num_proc Hneg. unfold apply.
    destruct (__len__ self =? 0); [reflexivity|].
    destruct (Z.geb_spec num_proc 0); [lia|reflexivity].
  - intros Hu Hpos Hfunc.
    assert (Hrow : forall i, 0 <= i < __len__ self ->
              row_result self None func i
              = Ok (h (mkInstance (row_at (field_arrays self) (Z.to_nat i))))).
    { intros i Hi. rewrite row_result_ins by assumption.
      apply Hfunc. unfold rows. apply in_map_iff. exists (Z.to_nat i).
      split; [reflexivity|]. apply in_seq. lia. }
    unfold apply.
    destruct (Z.eqb_spec (__len__ self) 0); [lia|]. simpl (0 >=? 0). cbn [negb].
    rewrite in_process_all_ok by (intros i Hi; eexists; now apply Hrow).
    assert (Hres : map (row_value self None func) (Py.range (__len__ self))
                   = map h (rows self)).
    { unfold rows, Py.range. rewrite !map_map. apply map_ext_in. intros m Hn.
      apply in_seq in Hn. unfold row_value. rewrite Hrow by lia.
      now rewrite Nat2Z.id. }
    rewrite Hres. apply store_results_ok.
    unfold rows, Py.len. rewrite !length_map, length_seq. lia.
Qed.

Lemma apply_maps_rows_witness :
  apply ex_xy4 double_x (Some "z") 0 false None
  = ([EvCall 0; EvCall 1; EvCall 2; EvCall 3],
     mkDataSet [("x", mkFieldArray "x" [VInt 1; VInt 2; VInt 3; VInt 4]);
                ("y", mkFieldArray "y" [VStr "a"; VStr "b"; VStr "c"; VStr "d"]);
                ("z", mkFieldArray "z" [VInt 2; VInt 4; VInt 6; VInt 8])],
     Returns [VInt 2; VInt 4; VInt 6; VInt 8]).
Proof.
  destruct (apply_maps_rows ex_xy4 double_x
              (fun ins => match Py.get "x" (fields ins) with
                          | Some (VInt v) => VInt (v * 2)
                          | _ => VNone
                          end)
              (Some "z") None false) as (_ & _ & H).
  apply H.
  - apply uniform_by_lengths. reflexivity.
  - reflexivity.
  - intros ins Hin. vm_compute in Hin.
    destruct Hin as [<- | [<- | [<- | [<- | []]]]]; reflexivity.
Defined.

(** ** Datasets built row by row *)

Lemma select_seq {A} (d : A) (l : list A) : select d (seq 0 (List.length l)) l = l.
Proof.
  unfold select. induction l as [|x l IH]; [reflexivity|].
  cbn [List.length seq map nth]. f_equal.
  rewrite <- seq_shift, map_map. exact IH.
Qed.

Lemma value_of_row_at (cols : Py.dict FieldArray) (k : string) (f : FieldArray) (i : nat) :
  NoDup (Py.keys cols) -> In (k, f) cols ->
  value_of k (row_at cols i) = nth i (content f) VNone.
Proof.
  intros Hnd Hin. unfold value_of.
  now rewrite row_at_get, (in_get_some k cols f Hnd Hin).
Qed.

Lemma row_at_keys (cols : Py.dict FieldArray) (i : nat) :
  Py.keys (row_at cols i) = Py.keys cols.
Proof. apply (keys_map_values (fun _ f => nth i (content f) VNone)). Qed.

Lemma same_keys_len (ks : list string) (r : Py.dict pyval) :
  NoDup ks -> same_keys ks r -> List.length r = List.length ks.
Proof.
  intros Hnd (Hr & H1 & H2).
  pose proof (NoDup_incl_length Hnd H1) as Ha.
  pose proof (NoDup_incl_length Hr H2) as Hb.
  unfold Py.keys in *. rewrite length_map in *. lia.
Qed.

Lemma append_aligned (cols : Py.dict FieldArray) (r : Py.dict pyval) :
  cols <> [] -> NoDup (Py.keys cols) -> same_keys (Py.keys cols) r ->
  append (mkDataSet cols) (mkInstance r)
  = (mkDataSet (map (fun kf => (fst kf, fa_append (snd kf) (value_of (fst kf) r))) cols),
     Ok tt).
Proof.
  intros Hne Hnd Hsame. pose proof (same_keys_len _ _ Hnd Hsame) as Hlen.
  destruct Hsame as (Hr & H1 & H2).
  unfold append, ins_items. cbn [field_arrays fields].
  assert (Hz : (Py.len cols =? 0) = false).
  { apply Z.eqb_neq. unfold Py.len. destruct cols; [contradiction|simpl; lia]. }
  rewrite Hz.
  assert (Hc : (Py.len cols =? Py.len r) = true).
  { apply Z.eqb_eq. unfold Py.len, Py.keys in *. rewrite length_map in Hlen. lia. }
  rewrite Hc. cbn [negb].
  destruct (append_fill_spec r cols Hr H2) as (res & Hres & Hkeys & Hget).
  rewrite Hres. f_equal. f_equal. apply dict_ext.
  - rewrite Hkeys. symmetry.
    apply (keys_map_values (fun k f => fa_append f (value_of k r))).
  - now rewrite Hkeys.
  - intros k. rewrite Hget, (get_map_values (fun k f => fa_append f (value_of k r))).
    unfold value_of. destruct (Py.get k r) as [v|] eqn:Hv; [reflexivity|].
    assert (Hnone : Py.get k cols = None).
    { apply get_none_not_in. intros Hin. apply H1 in Hin.
      apply get_none_not_in in Hv. contradiction. }
    now rewrite Hnone.
Qed.

Lemma init_append_spec (rws : list (Py.dict pyval)) :
  forall cols : Py.dict FieldArray,
  cols <> [] -> NoDup (Py.keys cols) -> Forall (same_keys (Py.keys cols)) rws ->
  init_append (mkDataSet cols) (map mkInstance rws)
  = Ok (mkDataSet
          (map (fun kf => (fst kf,
                           mkFieldArray (name (snd kf))
                             (content (snd kf) ++ map (value_of (fst kf)) rws)))
               cols)).
Proof.
  induction rws as [|r rws IH]; intros cols Hne Hnd Hall.
  - cbn [map init_append]. f_equal. f_equal. rewrite <- (map_id cols) at 1.
    apply map_ext. intros [k [n c]]. cbn. now rewrite app_nil_r.
  - inversion Hall as [|? ? Hr Hall']; subst.
    cbn [map init_append]. rewrite append_aligned by assumption.
    set (E := map (fun kf => (fst kf, fa_append (snd kf) (value_of (fst kf) r))) cols).
    assert (HkE : Py.keys E = Py.keys cols)
      by (apply (keys_map_values (fun k f => fa_append f (value_of k r)))).
    rewrite IH.
    + f_equal. f_equal. unfold E. rewrite map_map. apply map_ext.
      intros [k f]. cbn [fst snd fa_append name content]. now rewrite <- app_assoc.
    + unfold E. destruct cols; [contradiction|discriminate].
    + now rewrite HkE.
    + now rewrite HkE.
Qed.

Lemma init_append_app (l1 l2 : list Instance) :
  forall d, init_append d (l1 ++ l2)
            = py_bind (init_append d l1) (fun d' => init_append d' l2).
Proof.
  induction l1 as [|ins l1 IH]; intros d; [reflexivity|].
  cbn [app init_append]. destruct (append d ins) as [d' [[]|e]]; [apply IH|reflexivity].
Qed.

Lemma init_first_row (r0 : Py.dict pyval) (rest : list Instance) :
  NoDup (Py.keys r0) ->
  init_append (mkDataSet []) (mkInstance r0 :: rest)
  = init_append
      (mkDataSet (map (fun kv => (fst kv, mkFieldArray (fst kv) [snd kv])) r0)) rest.
Proof.
  intros Hnd. cbn [init_append]. unfold append, ins_items. cbn [field_arrays fields].
  change (Py.len (@nil (string * FieldArray)) =? 0) with true. cbv iota.
  now rewrite append_seed_fresh.
Qed.

(** X11. [DataSet(data)] for a list of rows.  The empty list gives a
    dataset without fields.  Rows that all have the field names of the
    first row, in any order, give one column per field of the first row,
    in its order, holding the values of the field row after row.  A row
    whose number of fields differs from the first row's raises
    [ValueError]. *)
Theorem init_from_list (r0 : Py.dict pyval) (rws : list (Py.dict pyval)) :
  __init__ (FromList []) = Ok (mkDataSet []) /\
  (r0 <> [] -> NoDup (Py.keys r0) -> Forall (same_keys (Py.keys r0)) rws ->
   __init__ (FromList (map mkInstance (r0 :: rws)))
   = Ok (mkDataSet
           (map (fun kv => (fst kv,
                            mkFieldArray (fst kv)
                              (snd kv :: map (value_of (fst kv)) rws)))
                r0))
   /\ forall r rest, Py.len r <> Py.len r0 ->
      __init__ (FromList (map mkInstance (r0 :: rws ++ r :: rest))) = Err ValueError).
Proof.
  split; [reflexivity|]. intros Hne Hnd Hall.
  set (seed := map (fun kv => (fst kv, mkFieldArray (fst kv) [snd kv])) r0).
  assert (Hks : Py.keys seed = Py.keys r0)
    by (apply (keys_map_values (fun k v => mkFieldArray k [v]))).
  assert (Hseed : seed <> []) by (unfold seed; destruct r0; [contradiction|discriminate]).
  assert (Hrun : init_append (mkDataSet seed) (map mkInstance rws)
                 = Ok (mkDataSet
                         (map (fun kv => (fst kv,
                                          mkFieldArray (fst kv)
                                            (snd kv :: map (value_of (fst kv)) rws)))
                              r0))).
  { rewrite init_append_spec; [|exact Hseed|now rewrite Hks|now rewrite Hks].
    f_equal. f_equal. unfold seed. rewrite map_map. apply map_ext. now intros [k v]. }
  split.
  - unfold __init__. cbn [map]. rewrite init_first_row by exact Hnd. exact Hrun.
  - intros r rest Hlen. unfold __init__. cbn [map].
    rewrite init_first_row by exact Hnd.
    rewrite map_app, init_append_app. fold seed. rewrite Hrun.
    cbn [py_bind map init_append]. unfold append. cbn [field_arrays fields].
    assert (Hl : Py.len (map (fun kv : string * pyval =>
                   (fst kv, mkFieldArray (fst kv) (snd kv :: map (value_of (fst kv)) rws)))
                   r0) = Py.len r0) by (unfold Py.len; now rewrite length_map).
    rewrite Hl.
    destruct (Z.eqb_spec (Py.len r0) 0) as [Hz|_].
    { unfold Py.len in Hz. destruct r0; [contradiction|simpl in Hz; lia]. }
    destruct (Z.eqb_spec (Py.len r0) (Py.len r)); [congruence|reflexivity].
Qed.

Lemma init_from_list_witness :
  __init__ (FromList (map mkInstance
              [[("x", VInt 1); ("y", VStr "a")]; [("y", VStr "b"); ("x", VInt 2)]]))
  = Ok ex_two_rows.
Proof.
  destruct (init_from_list [("x", VInt 1); ("y", VStr "a")]
              [[("y", VStr "b"); ("x", VInt 2)]]) as [_ H].
  destruct H as [H _].
  - discriminate.
  - apply distinctb_NoDup. reflexivity.
  - constructor; [|constructor]. split; [apply distinctb_NoDup; reflexivity|].
    split; intros k Hk; simpl in *; tauto.
  - exact H.
Defined.

Lemma init_rows_select (self : DataSet) (i0 : nat) (idxs : list nat) :
  distinct_fields self -> field_arrays self <> [] ->
  init_append (mkDataSet [])
    (map (fun i => mkInstance (row_at (field_arrays self) i)) (i0 :: idxs))
  = Ok (mkDataSet (select_cols (field_arrays self) (i0 :: idxs))).
Proof.
  intros Hd Hne. destruct self as [cols]. unfold distinct_fields in Hd.
  cbn [field_arrays] in *. cbn [map].
  rewrite init_first_row by (now rewrite row_at_keys).
  set (seed := map (fun kv => (fst kv, mkFieldArray (fst kv) [snd kv])) (row_at cols i0)).
  assert (Hks : Py.keys seed = Py.keys cols).
  { unfold seed. rewrite (keys_map_values (fun k v => mkFieldArray k [v])).
    apply row_at_keys. }
  replace (map (fun i => mkInstance (row_at cols i)) idxs)
    with (map mkInstance (map (row_at cols) idxs)) by (now rewrite map_map).
  rewrite init_append_spec.
  - f_equal. f_equal. unfold seed, select_cols.
    change (row_at cols i0)
      with (map (fun kf : string * FieldArray => (fst kf, nth i0 (content (snd kf)) VNone))
              cols).
    rewrite !map_map.
    apply map_ext_in. intros [k f] Hin. cbn [fst snd name content app].
    f_equal. f_equal. unfold select. cbn [map]. f_equal.
    rewrite map_map. apply map_ext. intros i. now apply value_of_row_at.
  - unfold seed, row_at. destruct cols; [contradiction|discriminate].
  - now rewrite Hks.
  - rewrite Hks. apply Forall_forall. intros r Hr. apply in_map_iff in Hr.
    destruct Hr as (i & <- & _). unfold same_keys. rewrite row_at_keys.
    split; [exact Hd|]. split; apply incl_refl.
Qed.

Lemma py_map_ok {A B} (f : A -> py B) (g : A -> B) (l : list A) :
  (forall x, In x l -> f x = Ok (g x)) -> py_map f l = Ok (map g l).
Proof.
  induction l as [|x l IH]; intros H; [reflexivity|].
  cbn [py_map map]. rewrite (H x) by (now left). cbn [py_bind].
  rewrite IH by (intros y Hy; apply H; now right). reflexivity.
Qed.

Lemma range_to_nat (n : Z) : map Z.to_nat (Py.range n) = seq 0 (Z.to_nat n).
Proof.
  unfold Py.range. rewrite map_map. rewrite <- (map_id (seq 0 (Z.to_nat n))) at 2.
  apply map_ext. intros i. apply Nat2Z.id.
Qed.

Lemma iter_rows_spec (self : DataSet) : uniform self -> iter_rows self = Ok (rows self).
Proof.
  intros Hu. unfold iter_rows, rows. rewrite <- range_to_nat, map_map.
  apply py_map_ok. intros i Hi. apply in_range in Hi. now apply getitem_int_row.
Qed.

Lemma columns_select_all (self : DataSet) :
  uniform self ->
  columns (mkDataSet (select_cols (field_arrays self) (seq 0 (Z.to_nat (__len__ self)))))
  = columns self.
Proof.
  intros Hu. unfold columns, select_cols. cbn [field_arrays]. rewrite map_map.
  apply map_ext_in. intros [k f] Hin. cbn [fst snd content]. f_equal.
  assert (Hf : fa_len f = __len__ self).
  { apply Hu. change f with (snd (k, f)). now apply in_map. }
  unfold fa_len, Py.len in Hf. rewrite <- Hf, Nat2Z.id. apply select_seq.
Qed.

(** X12. Iterating a dataset with equal columns yields its rows in order,
    each with every field and the value of its column.  Building a dataset
    from these rows gives the columns back, field for field and value for
    value, when there is at least one row; from a dataset with fields but
    no row it gives a dataset without fields. *)
Theorem rows_round_trip (self : DataSet) :
  uniform self -> distinct_fields self ->
  iter_rows self = Ok (rows self) /\
  Py.len (rows self) = __len__ self /\
  (0 < __len__ self ->
   exists d, __init__ (FromList (rows self)) = Ok d /\ columns d = columns self) /\
  (__len__ self = 0 -> __init__ (FromList (rows self)) = Ok (mkDataSet [])).
Proof.
  intros Hu Hd. split; [now apply iter_rows_spec|]. split; [|split].
  - unfold rows, Py.len. rewrite length_map, length_seq.
    pose proof (ds_len_nonneg self). lia.
  - intros Hpos.
    exists (mkDataSet (select_cols (field_arrays self) (seq 0 (Z.to_nat (__len__ self))))).
    split; [|now apply columns_select_all].
    unfold __init__, rows.
    destruct (Z.to_nat (__len__ self)) as [|n] eqn:Hn; [lia|].
    cbn [seq]. apply init_rows_select; [exact Hd|].
    intros Hnil. unfold __len__ in Hpos. rewrite Hnil in Hpos. lia.
  - intros Hz. unfold rows. now rewrite Hz.
Qed.

Lemma rows_round_trip_witness :
  iter_rows ex_two_rows
  = Ok [mkInstance [("x", VInt 1); ("y", VStr "a")];
        mkInstance [("x", VInt 2); ("y", VStr "b")]]
  /\ exists d, __init__ (FromList (rows ex_two_rows)) = Ok d
               /\ columns d = columns ex_two_rows.
Proof.
  assert (Hu : uniform ex_two_rows) by (apply uniform_by_lengths; reflexivity).
  assert (Hd : distinct_fields ex_two_rows) by (apply distinctb_NoDup; reflexivity).
  destruct (rows_round_trip ex_two_rows Hu Hd) as (H1 & _ & H2 & _).
  split; [exact H1|]. apply H2. reflexivity.
Defined.

(** ** Selecting rows: a list of indices, [drop] *)









Lemma drop_keep_spec (self : DataSet) (func : Instance -> py bool) (p : Instance -> bool)
  (todo : list Z) :
  uniform self ->
  (forall ins, In ins (rows self) -> func ins = Ok (p ins)) ->
  (forall i, In i todo -> 0 <= i < __len__ self) ->
  drop_keep self func todo
  = Ok (map (fun i => mkInstance (row_at (field_arrays self) i))
          (filter (fun i => negb (p (mkInstance (row_at (field_arrays self) i))))
             (map Z.to_nat todo))).
Proof.
  intros Hu Hfunc. induction todo as [|i todo IH]; intros Hval; [reflexivity|].
  assert (Hi : 0 <= i < __len__ self) by (apply Hval; now left).
  cbn [drop_keep map filter]. rewrite getitem_int_row by assumption. cbn [py_bind].
  rewrite Hfunc.
  - cbn [py_bind]. rewrite IH by (intros j Hj; apply Hval; now right). cbn [py_bind].
    destruct (p (mkInstance (row_at (field_arrays self) (Z.to_nat i)))); reflexivity.
  - unfold rows. apply in_map_iff. exists (Z.to_nat i). split; [reflexivity|].
    apply in_seq. lia.
Qed.

Lemma drop_assign_spec (results : list Instance) (val : string -> Instance -> pyval)
  (cols : Py.dict FieldArray) :
  (forall k f ins, In (k, f) cols -> In ins results -> ins_getitem ins k = Ok (val k ins)) ->
  drop_assign cols results
  = (map (fun kf => (fst kf, mkFieldArray (name (snd kf)) (map (val (fst kf)) results)))
       cols,
     Ok tt).
Proof.
  induction cols as [|[k f] cols IH]; intros H; [reflexivity|].
  cbn [drop_assign map fst snd].
  rewrite (py_map_ok _ (val k)) by (intros ins Hin; apply (H k f); [now left|exact Hin]).
  rewrite IH by (intros k' f' ins Hin Hr; apply (H k' f'); [now right|exact Hr]).
  reflexivity.
Qed.

(** X14. [drop] on a dataset with equal columns, for a function that
    answers [p ins] on every row.  In place, every column is left with its
    values at the rows on which [p] is false, in order, under its field
    and name; when every row is dropped the fields stay, with empty
    columns.  Not in place, this dataset is unchanged and the dataset
    returned has these columns when a row is kept, and no field at all
    when every row is dropped. *)
Theorem drop_selects (self : DataSet) (func : Instance -> py bool) (p : Instance -> bool) :
  uniform self -> distinct_fields self ->
  (forall ins, In ins (rows self) -> func ins = Ok (p ins)) ->
  drop self func true
  = (mkDataSet (map (fun kf => (fst kf,
                                mkFieldArray (name (snd kf))
                                  (select VNone (kept self p) (content (snd kf)))))
                  (field_arrays self)),
     Ok (mkDataSet (map (fun kf => (fst kf,
                                    mkFieldArray (name (snd kf))
                                      (select VNone (kept self p) (content (snd kf)))))
                      (field_arrays self)))) /\
  (kept self p <> [] ->
   drop self func false
   = (self, Ok (mkDataSet (select_cols (field_arrays self) (kept self p))))) /\
  (kept self p = [] -> drop self func false = (self, Ok (mkDataSet []))).
Proof.
  intros Hu Hd Hfunc.
  assert (Hkeep : drop_keep self func (Py.range (__len__ self))
                  = Ok (map (fun i => mkInstance (row_at (field_arrays self) i))
                          (kept self p))).
  { rewrite (drop_keep_spec self func p) by (auto; intros i Hi; now apply in_range).
    now rewrite range_to_nat. }
  split; [|split].
  - unfold drop. rewrite Hkeep.
    rewrite (drop_assign_spec _ (fun k ins => value_of k (fields ins))).
    + cbn [py_bind]. f_equal; [f_equal|f_equal; f_equal];
        apply map_ext_in; intros [k f] Hin; cbn [fst snd]; f_equal; f_equal;
        unfold select; rewrite map_map; apply map_ext; intros i; cbn [fields];
        now apply value_of_row_at.
    + intros k f ins Hin Hr. apply in_map_iff in Hr. destruct Hr as (i & <- & _).
      unfold ins_getitem, value_of. cbn [fields].
      now rewrite row_at_get, (in_get_some k _ f Hd Hin).
  - intros Hne. unfold drop. rewrite Hkeep.
    destruct (kept self p) as [|i0 idxs] eqn:Hk; [contradiction|].
    assert (Hlen : (Py.len (map (fun i => mkInstance (row_at (field_arrays self) i))
                              (i0 :: idxs)) =? 0) = false).
    { apply Z.eqb_neq. unfold Py.len. simpl. lia. }
    rewrite Hlen. cbn [negb]. f_equal. unfold __init__.
    apply init_rows_select; [exact Hd|].
    intros Hnil. unfold kept, __len__ in Hk. rewrite Hnil in Hk. discriminate.
  - intros Hnil. unfold drop. rewrite Hkeep, Hnil. reflexivity.
Qed.

Lemma drop_selects_witness :
  fst (drop ex_two_rows (fun _ => Ok true) true)
  = mkDataSet [("x", mkFieldArray "x" []); ("y", mkFieldArray "y" [])]
  /\ snd (drop ex_two_rows (fun _ => Ok true) false) = Ok (mkDataSet []).
Proof.
  assert (Hu : uniform ex_two_rows) by (apply uniform_by_lengths; reflexivity).
  assert (Hd : distinct_fields ex_two_rows) by (apply distinctb_NoDup; reflexivity).
  destruct (drop_selects ex_two_rows (fun _ => Ok true) (fun _ => true) Hu Hd
              (fun _ _ => eq_refl)) as (H1 & _ & H3).
  split.
  - rewrite H1. reflexivity.
  - rewrite H3; reflexivity.
Defined.

(** ** [concat] in general *)

Lemma concat_extend_all (dataset : DataSet) (order : list string)
  (cols : Py.dict FieldArray) :
  NoDup (Py.keys cols) -> Permutation order (Py.keys cols) ->
  incl (Py.keys cols) (Py.keys (field_arrays dataset)) ->
  concat_extend cols dataset [] order
  = (map (fun kf => (fst kf, extend_col dataset (fst kf) (snd kf))) cols, Ok tt).
Proof.
  intros Hnd Hperm Hincl.
  assert (Hnd' : NoDup order).
  { eapply Permutation_NoDup; [apply Permutation_sym; exact Hperm|exact Hnd]. }
  assert (Hin : incl order (Py.keys cols)).
  { intros k Hk. eapply Permutation_in; eauto. }
  destruct (concat_extend_spec dataset order cols Hnd' Hin) as (r & Hr & Hkeys & Hget).
  { intros k Hk. apply Hincl. now apply Hin. }
  rewrite Hr. f_equal. apply dict_ext.
  - rewrite Hkeys. symmetry. apply (keys_map_values (extend_col dataset)).
  - now rewrite Hkeys.
  - intros k. rewrite Hget, (get_map_values (extend_col dataset)).
    destruct (existsb (String.eqb k) order) eqn:Hex; [reflexivity|].
    assert (Hnone : Py.get k cols = None).
    { apply get_none_not_in. intros Hk.
      assert (Ht : existsb (String.eqb k) order = true).
      { apply existsb_eqb_in. eapply Permutation_in; [apply Permutation_sym|]; eauto. }
      congruence. }
    now rewrite Hnone.
Qed.

(** X15. [concat] without a field mapping, on a dataset with distinct
    field names, whatever the order in which the fields are visited.  When
    a field of this dataset is no field of the other it raises
    [RuntimeError] and nothing changes.  Otherwise every column of this
    dataset is followed by the column of the same name of the other; the
    fields, their order and their names are those of this dataset and a
    field only the other has is ignored.  In place this dataset is that
    result; not in place it is unchanged.  For two datasets with equal
    columns the result has equal columns and the sum of the lengths. *)
Theorem concat_columns (self dataset : DataSet) (inplace : bool) (order : list string) :
  distinct_fields self -> Permutation order (Py.keys (field_arrays self)) ->
  (~ incl (Py.keys (field_arrays self)) (Py.keys (field_arrays dataset)) ->
   concat self dataset inplace None order = (self, Err RuntimeError)) /\
  (incl (Py.keys (field_arrays self)) (Py.keys (field_arrays dataset)) ->
   let d := mkDataSet (map (fun kf => (fst kf, extend_col dataset (fst kf) (snd kf)))
                         (field_arrays self)) in
   concat self dataset inplace None order = (if inplace then d else self, Ok d) /\
   (forall k f g,
      Py.get k (field_arrays self) = Some f -> Py.get k (field_arrays dataset) = Some g ->
      get_field d k = Ok (mkFieldArray (name f) (content f ++ content g))) /\
   (uniform self -> uniform dataset -> field_arrays self <> [] ->
    uniform d /\ __len__ d = __len__ self + __len__ dataset)).
Proof.
  intros Hd Hperm.
  assert (Hmap : map (mapping_get None) (Py.keys (field_arrays dataset))
                 = Py.keys (field_arrays dataset)).
  { rewrite <- (map_id (Py.keys (field_arrays dataset))) at 2. now apply map_ext. }
  split.
  - intros Hmiss. unfold concat. rewrite Hmap.
    destruct (Py.set_diff_nonempty (Py.keys (field_arrays self))
                (Py.keys (field_arrays dataset))) eqn:Hc; [reflexivity|].
    exfalso. apply Hmiss. now apply set_diff_nonempty_false.
  - intros Hincl d. split; [|split].
    + unfold concat. rewrite Hmap, (set_diff_nonempty_incl _ _ Hincl).
      cbn [reverse_mapping]. rewrite concat_extend_all by assumption.
      destruct inplace; reflexivity.
    + intros k f g Hf Hg. unfold get_field, d. cbn [field_arrays].
      rewrite (get_map_values (extend_col dataset)), Hf. cbn [option_map].
      unfold extend_col. now rewrite Hg.
    + intros Hu Hu' Hne.
      assert (Hcol : forall k f, In (k, f) (field_arrays self) ->
                fa_len (extend_col dataset k f) = __len__ self + __len__ dataset).
      { intros k f Hin.
        assert (Hk : In k (Py.keys (field_arrays dataset))).
        { apply Hincl. change k with (fst (k, f)). now apply in_map. }
        destruct (get_in_keys k _ Hk) as [g Hg]. unfold extend_col. rewrite Hg.
        unfold fa_len, Py.len. cbn [content]. rewrite length_app, Nat2Z.inj_add.
        assert (H1 : fa_len f = __len__ self).
        { apply Hu. change f with (snd (k, f)). now apply in_map. }
        assert (H2 : fa_len g = __len__ dataset) by (apply Hu'; eapply in_field; eauto).
        unfold fa_len, Py.len in H1, H2. lia. }
      split.
      * apply (uniform_of_len _ (__len__ self + __len__ dataset)). intros f Hf.
        unfold Py.values in Hf. rewrite map_map in Hf. apply in_map_iff in Hf.
        destruct Hf as ([k f0] & <- & Hin). now apply Hcol.
      * unfold d. destruct (field_arrays self) as [|[k f] cols] eqn:Hcols;
          [contradiction|].
        cbn [map fst snd]. unfold __len__ at 1. cbn [field_arrays].
        apply Hcol. now left.
Qed.

Lemma concat_columns_witness :
  concat ex_two_rows ex_xy4 false None ["y"; "x"]
  = (ex_two_rows,
     Ok (mkDataSet
           [("x", mkFieldArray "x" [VInt 1; VInt 2; VInt 1; VInt 2; VInt 3; VInt 4]);
            ("y", mkFieldArray "y" [VStr "a"; VStr "b"; VStr "a"; VStr "b"; VStr "c";
                                    VStr "d"])]))
  /\ concat ex_two_rows ex_x4 true None ["y"; "x"] = (ex_two_rows, Err RuntimeError).
Proof.
  assert (Hd : distinct_fields ex_two_rows) by (apply distinctb_NoDup; reflexivity).
  assert (Hp : Permutation ["y"; "x"] (Py.keys (field_arrays ex_two_rows)))
    by apply perm_swap.
  split.
  - destruct (concat_columns ex_two_rows ex_xy4 false ["y"; "x"] Hd Hp) as [_ H].
    destruct H as [H _]; [apply incl_refl|exact H].
  - destruct (concat_columns ex_two_rows ex_x4 true ["y"; "x"] Hd Hp) as [H _].
    apply H. intros Hincl. specialize (Hincl "y" (or_intror (or_introl eq_refl))).
    simpl in Hincl. destruct Hincl as [Hc|[]]. discriminate.
Defined.

(** ** [apply_more] and [apply_field_more] when every row has the fields
    of the first *)

Lemma merge_loop_values (pre : list pyval) :
  forall (results : Py.dict (list pyval)) (i idx : Z) (col : string -> list pyval),
  NoDup (Py.keys results) ->
  (forall k, In k (Py.keys results) -> Py.get k results = Some (col k)) ->
  Forall (same_fields (Py.keys results)) pre ->
  exists results' idx',
    merge_loop results pre i idx = (results', (idx', Ok tt))
    /\ Py.keys results' = Py.keys results
    /\ forall k, In k (Py.keys results) ->
         Py.get k results' = Some (col k ++ map (field_of k) pre).
Proof.
  induction pre as [|row pre IH]; intros results i idx col Hnd Hcol Hpre.
  - exists results, idx. split; [reflexivity|]. split; [reflexivity|].
    intros k Hk. cbn [map]. rewrite app_nil_r. now apply Hcol.
  - inversion Hpre as [|? ? (d & -> & Hndd & Hin1 & Hin2) Hpre']; subst.
    destruct (merge_row_spec d results Hndd Hin2) as (r & Hr & Hkeys & Hget).
    assert (Hchk : Py.set_diff_nonempty (Py.keys results) (Py.keys d) = false)
      by (now apply set_diff_nonempty_incl).
    destruct (IH r (i + 1) i (fun k => col k ++ [field_of k (VDict d)]))
      as (results' & idx' & Hloop & Hk' & Hget').
    + now rewrite Hkeys.
    + rewrite Hkeys. intros k Hk. rewrite Hget.
      destruct (get_in_keys k d (Hin1 k Hk)) as [v Hv].
      rewrite Hv, (Hcol k Hk). cbn [option_map field_of]. unfold value_of.
      now rewrite Hv.
    + now rewrite Hkeys.
    + exists results', idx'. cbn [merge_loop]. rewrite Hchk, Hr.
      split; [exact Hloop|]. split; [now rewrite Hk', Hkeys|].
      intros k Hk. rewrite Hget' by (now rewrite Hkeys).
      cbn [map]. now rewrite <- app_assoc.
Qed.

Lemma merge_same_fields (d0 : Py.dict pyval) (rest : list pyval) :
  NoDup (Py.keys d0) -> Forall (same_fields (Py.keys d0)) rest ->
  merge (VDict d0 :: rest) = ([], merged d0 rest, Ok tt).
Proof.
  intros Hnd Hall.
  assert (Hseed : merge_seed [] d0 = map (fun kv => (fst kv, [snd kv])) d0)
    by (now rewrite merge_seed_fresh).
  assert (Hks : Py.keys (merge_seed [] d0) = Py.keys d0).
  { rewrite Hseed. apply (keys_map_values (fun _ v => [v])). }
  destruct (merge_loop_values rest (merge_seed [] d0) 0 (-1) (fun k => [value_of k d0]))
    as (results & idx & Hloop & Hkeys & Hget).
  - now rewrite Hks.
  - rewrite Hks. intros k Hk. rewrite Hseed, (get_map_values (fun _ v => [v])).
    destruct (get_in_keys k d0 Hk) as [v Hv]. unfold value_of. now rewrite Hv.
  - now rewrite Hks.
  - unfold merge. rewrite Hloop. f_equal. f_equal. apply dict_ext.
    + rewrite Hkeys, Hks. symmetry.
      apply (keys_map_values (fun k v => v :: map (field_of k) rest)).
    + now rewrite Hkeys, Hks.
    + intros k. unfold merged.
      rewrite (get_map_values (fun k v => v :: map (field_of k) rest)).
      destruct (Py.get k d0) as [v|] eqn:Hv.
      * rewrite Hget.
        -- unfold value_of. now rewrite Hv.
        -- rewrite Hks. apply get_some_in in Hv. change k with (fst (k, v)).
           now apply in_map.
      * apply get_none_not_in. rewrite Hkeys, Hks. now apply get_none_not_in.
Qed.

Lemma write_back_get (items : list (string * list pyval)) :
  forall self : DataSet,
  NoDup (Py.keys items) -> snd (write_back self items) = Ok tt ->
  forall k, Py.get k (field_arrays (fst (write_back self items)))
            = match Py.get k items with
              | Some col => Some (mkFieldArray k col)
              | None => Py.get k (field_arrays self)
              end.
Proof.
  induction items as [|[k0 c0] items IH]; intros self Hnd Hok k; [reflexivity|].
  inversion Hnd as [|? ? Hfresh Hnd']; subst.
  cbn [write_back] in *. unfold add_field in *.
  destruct (negb (Py.len (field_arrays self) =? 0) && negb (__len__ self =? Py.len c0));
    [discriminate|].
  rewrite IH by assumption. cbn [field_arrays Py.get].
  destruct (String.eqb_spec k k0) as [->|Hne].
  - apply get_none_not_in in Hfresh. now rewrite Hfresh, get_set_same.
  - destruct (Py.get k items); [reflexivity|]. now apply get_set_other.
Qed.

Lemma merged_keys (d0 : Py.dict pyval) (rest : list pyval) :
  Py.keys (merged d0 rest) = Py.keys d0.
Proof. apply (keys_map_values (fun k v => v :: map (field_of k) rest)). Qed.

Lemma merge_and_write_ok (self : DataSet) (modify_fields : bool) (tr : trace)
  (d0 : Py.dict pyval) (rest : list pyval) :
  uniform self -> NoDup (Py.keys d0) -> Forall (same_fields (Py.keys d0)) rest ->
  Py.len (VDict d0 :: rest) = __len__ self ->
  let run := merge_and_write self modify_fields (tr, Returns (VDict d0 :: rest)) in
  fst (fst run) = tr /\
  snd run = Returns (merged d0 rest) /\
  (modify_fields = false -> snd (fst run) = self) /\
  (modify_fields = true ->
   (forall k, Py.get k (field_arrays (snd (fst run)))
              = match Py.get k (merged d0 rest) with
                | Some col => Some (mkFieldArray k col)
                | None => Py.get k (field_arrays self)
                end) /\
   uniform (snd (fst run))).
Proof.
  intros Hu Hnd Hall Hlen run. unfold run, merge_and_write.
  rewrite merge_same_fields by assumption. rewrite app_nil_r.
  destruct modify_fields.
  - assert (Hne : field_arrays self <> []).
    { intros Hnil. unfold __len__ in Hlen. rewrite Hnil in Hlen.
      unfold Py.len in Hlen. simpl in Hlen. lia. }
    assert (Hok : snd (write_back self (merged d0 rest)) = Ok tt).
    { apply write_back_ok; [exact Hne|]. intros k col Hin. rewrite <- Hlen.
      unfold merged in Hin. apply in_map_iff in Hin. destruct Hin as ([k' v] & Heq & _).
      injection Heq as _ <-. unfold Py.len. cbn [List.length]. now rewrite length_map. }
    pose proof (write_back_get (merged d0 rest) self) as Hget.
    pose proof (write_back_uniform (merged d0 rest) self Hu) as Hun.
    destruct (write_back self (merged d0 rest)) as [d [[]|e]]; [|discriminate].
    cbn [fst snd] in *. split; [reflexivity|]. split; [reflexivity|].
    split; [discriminate|]. intros _. split; [|exact Hun].
    apply Hget; [now rewrite merged_keys|reflexivity].
  - cbn [fst snd]. split; [reflexivity|]. split; [reflexivity|].
    split; [reflexivity|discriminate].
Qed.

Lemma same_keys_fields (ks : list string) (d : Py.dict pyval) :
  same_keys ks d -> same_fields ks (VDict d).
Proof. intros (H1 & H2 & H3). exists d. auto. Qed.

(** X16. [apply_more] in this process on a dataset with equal columns
    whose rows are [r0] and [rest], for a function that returns on every
    row a dict with the field names of its result on [r0].  It returns one
    list per field of the first result, in the order of that result,
    holding the value of the field for every row in row order.  With
    [modify_fields] every such list is stored as the column of its name,
    the other columns are untouched and the columns stay equal; without,
    the dataset is as it was. *)
Theorem apply_more_merges (self : DataSet) (func : user_func)
  (h : Instance -> Py.dict pyval) (r0 : Instance) (rest : list Instance)
  (modify_fields : bool) (progress_desc : option string) (show_progress_bar : bool) :
  uniform self -> rows self = r0 :: rest ->
  (forall ins, In ins (rows self) ->
     func (ArgIns ins) = Ok (VDict (h ins)) /\ same_keys (Py.keys (h r0)) (h ins)) ->
  let results := merged (h r0) (map (fun ins => VDict (h ins)) rest) in
  let run := apply_more self func modify_fields 0 progress_desc show_progress_bar in
  fst (fst run) = in_process_trace (__len__ self) show_progress_bar progress_desc /\
  snd run = Returns results /\
  (modify_fields = false -> snd (fst run) = self) /\
  (modify_fields = true ->
   (forall k, Py.get k (field_arrays (snd (fst run)))
              = match Py.get k results with
                | Some col => Some (mkFieldArray k col)
                | None => Py.get k (field_arrays self)
                end) /\
   uniform (snd (fst run))).
Proof.
  intros Hu Hrows Hfunc results run.
  assert (HN : Py.len (rows self) = __len__ self).
  { unfold rows, Py.len. rewrite length_map, length_seq.
    pose proof (ds_len_nonneg self). lia. }
  assert (Hpos : 0 < __len__ self).
  { rewrite <- HN, Hrows. unfold Py.len. simpl. lia. }
  assert (Hrow : forall i, 0 <= i < __len__ self ->
            row_result self None func i
            = Ok (VDict (h (mkInstance (row_at (field_arrays self) (Z.to_nat i)))))).
  { intros i Hi. rewrite row_result_ins by assumption.
    apply Hfunc. unfold rows. apply in_map_iff. exists (Z.to_nat i).
    split; [reflexivity|]. apply in_seq. lia. }
  assert (Hres : map (row_value self None func) (Py.range (__len__ self))
                 = map (fun ins => VDict (h ins)) (rows self)).
  { unfold rows, Py.range. rewrite !map_map. apply map_ext_in. intros m Hm.
    apply in_seq in Hm. unfold row_value. rewrite Hrow by lia. now rewrite Nat2Z.id. }
  unfold run, apply_more.
  destruct (Z.eqb_spec (__len__ self) 0); [lia|]. simpl (0 >=? 0). cbn [negb].
  rewrite in_process_all_ok by (intros i Hi; eexists; now apply Hrow).
  rewrite Hres, Hrows. cbn [map].
  apply merge_and_write_ok.
  - exact Hu.
  - destruct (Hfunc r0) as [_ (Hnd & _)]; [rewrite Hrows; now left|exact Hnd].
  - apply Forall_forall. intros row Hrow'. apply in_map_iff in Hrow'.
    destruct Hrow' as (ins & <- & Hin). apply same_keys_fields.
    apply Hfunc. rewrite Hrows. now right.
  - rewrite <- HN, Hrows. unfold Py.len. cbn [List.length]. now rewrite length_map.
Qed.

Lemma apply_more_merges_witness :
  snd (apply_more ex_x3 (func_fields 7 row_ab) true 0 None false)
  = Returns [("a", [VInt 1; VInt 1; VInt 1]); ("b", [VInt 2; VInt 2; VInt 2])]
  /\ uniform (snd (fst (apply_more ex_x3 (func_fields 7 row_ab) true 0 None false))).
Proof.
  destruct (apply_more_merges ex_x3 (func_fields 7 row_ab)
              (fun _ => [("a", VInt 1); ("b", VInt 2)])
              (mkInstance [("x", VInt 0)])
              [mkInstance [("x", VInt 1)]; mkInstance [("x", VInt 2)]]
              true None false) as (_ & H1 & _ & H2).
  - apply uniform_by_lengths. reflexivity.
  - reflexivity.
  - intros ins Hin. vm_compute in Hin.
    destruct Hin as [<- | [<- | [<- | []]]];
      (split; [reflexivity|]);
      (split; [apply distinctb_NoDup; reflexivity|split; apply incl_refl]).
  - split; [exact H1|]. now apply H2.
Defined.

(** X17. [apply_field_more] in this process on a dataset with equal
    columns, for a function that returns on every value of the field a
    dict with the field names of its result on the first value: the lists
    returned hold, per field of the first result, the value of the field
    for every row in row order, and [modify_fields] stores them as for
    [apply_more].  A name that is no field raises [KeyError] and a dataset
    without rows [AssertionError]; both leave the dataset as it was. *)
Theorem apply_field_more_merges (self : DataSet) (func : user_func) (k : string)
  (modify_fields : bool) (num_proc : Z) (progress_desc : option string)
  (show_progress_bar : bool) :
  (__len__ self = 0 ->
   apply_field_more self func k modify_fields num_proc progress_desc show_progress_bar
   = ([], self, Raises AssertionError)) /\
  (__len__ self <> 0 -> has_field self k = false ->
   apply_field_more self func k modify_fields num_proc progress_desc show_progress_bar
   = ([], self, Raises (KeyError k))) /\
  (forall (f : FieldArray) (h : pyval -> Py.dict pyval) (v0 : pyval) (rest : list pyval),
   uniform self -> Py.get k (field_arrays self) = Some f -> content f = v0 :: rest ->
   (forall v, In v (content f) ->
      func (ArgField v) = Ok (VDict (h v)) /\ same_keys (Py.keys (h v0)) (h v)) ->
   let results := merged (h v0) (map (fun v => VDict (h v)) rest) in
   let run := apply_field_more self func k modify_fields 0 progress_desc
                show_progress_bar in
   fst (fst run) = in_process_trace (__len__ self) show_progress_bar progress_desc /\
   snd run = Returns results /\
   (modify_fields = false -> snd (fst run) = self) /\
   (modify_fields = true ->
    (forall k', Py.get k' (field_arrays (snd (fst run)))
                = match Py.get k' results with
                  | Some col => Some (mkFieldArray k' col)
                  | None => Py.get k' (field_arrays self)
                  end) /\
    uniform (snd (fst run)))).
Proof.
  split; [|split].
  - intros Hz. unfold apply_field_more. now rewrite Hz.
  - intros Hnz Hno. unfold apply_field_more.
    destruct (Z.eqb_spec (__len__ self) 0); [contradiction|]. now rewrite Hno.
  - intros f h v0 rest Hu Hf Hc Hfunc results run.
    assert (Hlen : Py.len (content f) = __len__ self)
      by (apply Hu; eapply in_field; eauto).
    assert (Hpos : 0 < __len__ self).
    { rewrite <- Hlen, Hc. unfold Py.len. simpl. lia. }
    assert (Hrow : forall i, 0 <= i < __len__ self ->
              row_result self (Some k) func i
              = Ok (VDict (h (nth (Z.to_nat i) (content f) VNone)))).
    { intros i Hi. rewrite (row_result_field self k f) by assumption.
      apply Hfunc. apply nth_In. unfold Py.len in Hlen. lia. }
    assert (Hres : map (row_value self (Some k) func) (Py.range (__len__ self))
                   = map (fun v => VDict (h v)) (content f)).
    { transitivity (map (fun v => VDict (h v))
                      (map (fun i => nth (Z.to_nat i) (content f) VNone)
                         (Py.range (Py.len (content f))))).
      - rewrite Hlen, map_map. apply map_ext_in. intros i Hi. apply in_range in Hi.
        unfold row_value. now rewrite Hrow.
      - now rewrite map_nth_range. }
    unfold run, apply_field_more.
    destruct (Z.eqb_spec (__len__ self) 0); [lia|].
    unfold has_field, Py.mem. rewrite Hf. cbn [negb].
    rewrite in_process_all_ok by (intros i Hi; eexists; now apply Hrow).
    rewrite Hres, Hc. cbn [map].
    apply merge_and_write_ok.
    + exact Hu.
    + destruct (Hfunc v0) as [_ (Hnd & _)]; [rewrite Hc; now left|exact Hnd].
    + apply Forall_forall. intros row Hrow'. apply in_map_iff in Hrow'.
      destruct Hrow' as (v & <- & Hin). apply same_keys_fields.
      apply Hfunc. rewrite Hc. now right.
    + rewrite <- Hlen, Hc. unfold Py.len. cbn [List.length]. now rewrite length_map.
Qed.

Lemma apply_field_more_merges_witness :
  apply_field_more ex_x3 (func_fields 7 row_ab) "q" true 0 None false
  = ([], ex_x3, Raises (KeyError "q"))
  /\ snd (apply_field_more ex_x3 (func_fields 7 row_ab) "x" false 0 None false)
     = Returns [("a", [VInt 1; VInt 1; VInt 1]); ("b", [VInt 2; VInt 2; VInt 2])].
Proof.
  split.
  - destruct (apply_field_more_merges ex_x3 (func_fields 7 row_ab) "q" true 0 None false)
      as (_ & H & _).
    apply H; [vm_compute; congruence|reflexivity].
  - destruct (apply_field_more_merges ex_x3 (func_fields 7 row_ab) "x" false 0 None false)
      as (_ & _ & H).
    destruct (H (mkFieldArray "x" [VInt 0; VInt 1; VInt 2])
                (fun _ => [("a", VInt 1); ("b", VInt 2)])
                (VInt 0) [VInt 1; VInt 2]) as (_ & H1 & _).
    + apply uniform_by_lengths. reflexivity.
    + reflexivity.
    + reflexivity.
    + intros v Hin. simpl in Hin.
      destruct Hin as [<- | [<- | [<- | []]]];
        (split; [reflexivity|]);
        (split; [apply distinctb_NoDup; reflexivity|split; apply incl_refl]).
    + exact H1.
Defined.

(** ** What [apply] and [apply_field] leave behind *)

Lemma store_results_cases (self : DataSet) (new_field_name : option string)
  (func : user_func) (applied : trace * outcome (list pyval)) :
  (forall out, snd applied = Returns out -> Py.len out = __len__ self /\ from_func func out) ->
  (forall rs, snd (store_results self new_field_name applied) = Returns rs ->
     Py.len rs = __len__ self /\ from_func func rs /\
     snd (fst (store_results self new_field_name applied))
     = match new_field_name with
       | Some nm => mkDataSet (Py.set nm (mkFieldArray nm rs) (field_arrays self))
       | None => self
       end) /\
  ((forall rs, snd (store_results self new_field_name applied) <> Returns rs) ->
   snd (fst (store_results self new_field_name applied)) = self).
Proof.
  intros Happlied. destruct applied as [tr [out|e|]].
  - destruct (Happlied out eq_refl) as [Hlen Hfrom].
    rewrite store_results_ok by exact Hlen. cbn [fst snd]. split.
    + intros rs Hrs. injection Hrs as <-. auto.
    + intros Hfail. exfalso. now apply (Hfail out).
  - split; [discriminate|reflexivity].
  - split; [discriminate|reflexivity].
Qed.

(** X18. [apply] and [apply_field], for every function, worker count and
    dataset.  When the call returns, the list returned has one value per
    row, each a value the function returned, and with a new field name
    that list is stored as the column of the name: the length check of
    [add_field] cannot fail here.  When the call does not return, whatever
    the reason, the dataset is what it was before the call. *)
Theorem apply_stores_or_leaves (self : DataSet) (func : user_func) (field_name : string)
  (new_field_name : option string) (num_proc : Z) (progress_desc : option string)
  (show_progress_bar : bool) :
  ((forall rs,
      snd (apply self func new_field_name num_proc show_progress_bar progress_desc)
      = Returns rs ->
      Py.len rs = __len__ self /\ from_func func rs /\
      snd (fst (apply self func new_field_name num_proc show_progress_bar progress_desc))
      = match new_field_name with
        | Some nm => mkDataSet (Py.set nm (mkFieldArray nm rs) (field_arrays self))
        | None => self
        end) /\
   ((forall rs,
       snd (apply self func new_field_name num_proc show_progress_bar progress_desc)
       <> Returns rs) ->
    snd (fst (apply self func new_field_name num_proc show_progress_bar progress_desc))
    = self)) /\
  ((forall rs,
      snd (apply_field self func field_name new_field_name num_proc progress_desc
             show_progress_bar) = Returns rs ->
      Py.len rs = __len__ self /\ from_func func rs /\
      snd (fst (apply_field self func field_name new_field_name num_proc progress_desc
                  show_progress_bar))
      = match new_field_name with
        | Some nm => mkDataSet (Py.set nm (mkFieldArray nm rs) (field_arrays self))
        | None => self
        end) /\
   ((forall rs,
       snd (apply_field self func field_name new_field_name num_proc progress_desc
              show_progress_bar) <> Returns rs) ->
    snd (fst (apply_field self func field_name new_field_name num_proc progress_desc
                show_progress_bar)) = self)).
Proof.
  split.
  - unfold apply.
    destruct (__len__ self =? 0); [split; [discriminate|reflexivity]|].
    destruct (negb (num_proc >=? 0)); [split; [discriminate|reflexivity]|].
    apply (store_results_cases self new_field_name func). intros out Hout.
    destruct (_apply_process self num_proc func show_progress_bar None progress_desc)
      as [tr o] eqn:Hp.
    simpl in Hout. subst o. eapply apply_process_returns. exact Hp.
  - unfold apply_field.
    destruct (__len__ self =? 0); [split; [discriminate|reflexivity]|].
    destruct (negb (has_field self field_name)); [split; [discriminate|reflexivity]|].
    apply (store_results_cases self new_field_name func). intros out Hout.
    destruct (_apply_process self num_proc func show_progress_bar (Some field_name)
                progress_desc) as [tr o] eqn:Hp.
    simpl in Hout. subst o. eapply apply_process_returns. exact Hp.
Qed.

Lemma apply_stores_or_leaves_witness :
  snd (fst (apply_field ex_rows10 raise_on_4 "x" (Some "x") 0 None false)) = ex_rows10.
Proof.
  destruct (apply_stores_or_leaves ex_rows10 raise_on_4 "x" (Some "x") 0 None false)
    as [_ [_ H]].
  apply H. intros rs. vm_compute. discriminate.
Defined.

(** ** [add_seq_len] *)



(** ** The progress task of [_apply_single] *)

Lemma single_loop_tail (ds : DataSet) (_apply_field : option string) (func : user_func)
  (show_progress_bar : bool) (pipe : option pipe_end) (todo : list Z) :
  forall idx results,
  exists tail,
    fst (single_loop ds _apply_field func show_progress_bar pipe todo idx results)
    = flat_map (row_events show_progress_bar pipe) (completed ds _apply_field func todo)
      ++ tail
    /\ (tail = [] \/ exists i, tail = [EvCall i]).
Proof.
  induction todo as [|i rest IH]; intros idx results.
  - exists []. split; [reflexivity|now left].
  - destruct (row_result ds _apply_field func i) as [r|e] eqn:Hr.
    + rewrite (single_loop_cons_ok ds _apply_field func show_progress_bar pipe
                 i rest idx results r Hr).
      destruct (IH i (results ++ [r])) as (tail & Htr & Htail).
      exists tail. cbn [fst completed]. rewrite Hr. cbn [is_ok flat_map].
      split; [now rewrite Htr, app_assoc|exact Htail].
    + destruct (single_loop_cons_err ds _apply_field func show_progress_bar pipe
                  i rest idx results e Hr) as (_ & _ & Htr).
      exists (fst (single_loop ds _apply_field func show_progress_bar pipe
                     (i :: rest) idx results)).
      cbn [completed]. rewrite Hr. cbn [is_ok flat_map app].
      split; [reflexivity|]. destruct Htr as [->| ->]; [now left|right; now exists i].
Qed.

Lemma progress_app (a b : trace) : progress (a ++ b) = progress a ++ progress b.
Proof. apply filter_app. Qed.

Lemma progress_row_events (show_progress_bar : bool) (pipe : option pipe_end)
  (todo : list Z) :
  progress (flat_map (row_events show_progress_bar pipe) todo)
  = if show_progress_bar then repeat EvUpdate (List.length todo) else [].
Proof.
  induction todo as [|i todo IH]; [now destruct show_progress_bar|].
  cbn [flat_map]. rewrite progress_app, IH.
  unfold row_events. destruct show_progress_bar, pipe; reflexivity.
Qed.

Lemma sends_no_pipe (show_progress_bar : bool) (todo : list Z) :
  sends (flat_map (row_events show_progress_bar None) todo) = [].
Proof.
  induction todo as [|i todo IH]; [reflexivity|].
  cbn [flat_map]. rewrite sends_app, IH. unfold row_events.
  destruct show_progress_bar; reflexivity.
Qed.

(** X20. The progress task of [_apply_single], for every dataset and
    function.  With the progress bar shown, the task is added first, under
    the description given or [Main] when it is missing or empty and with
    the number of rows as total; it advances once per row the function
    returned on; and it is destroyed last, also when a row raises.  With
    the progress bar off there is no task.  Without a pipe nothing is
    sent. *)
Theorem apply_single_progress (ds : DataSet) (_apply_field : option string)
  (func : user_func) (pipe : option pipe_end) (desc : option string) :
  progress (fst (_apply_single ds _apply_field func true pipe desc))
  = EvAddTask (desc_or_main desc) (__len__ ds) true
      :: repeat EvUpdate
           (List.length (completed ds _apply_field func (Py.range (__len__ ds))))
      ++ [EvDestroyTask] /\
  (exists body, fst (_apply_single ds _apply_field func true pipe desc)
                = EvAddTask (desc_or_main desc) (__len__ ds) true :: body
                    ++ [EvDestroyTask]) /\
  progress (fst (_apply_single ds _apply_field func false pipe desc)) = [] /\
  forall show_progress_bar,
    sends (fst (_apply_single ds _apply_field func show_progress_bar None desc)) = [].
Proof.
  assert (Hshape : forall show,
            exists tail h,
              fst (_apply_single ds _apply_field func show pipe desc)
              = (if show then [EvAddTask (desc_or_main desc) (__len__ ds) show] else [])
                ++ (flat_map (row_events show pipe)
                      (completed ds _apply_field func (Py.range (__len__ ds))) ++ tail)
                ++ h ++ (if show then [EvDestroyTask] else [])
              /\ (tail = [] \/ exists i, tail = [EvCall i])
              /\ (h = [] \/ exists i, h = [EvPrint (ExceptionAt i)])).
  { intros show. unfold _apply_single.
    destruct (single_loop_tail ds _apply_field func show pipe
                (Py.range (__len__ ds)) (-1) []) as (tail & Htr & Htail).
    destruct (single_loop ds _apply_field func show pipe (Py.range (__len__ ds)) (-1) [])
      as [tr [idx out]].
    cbn [fst] in *. exists tail.
    exists (match out with
            | Err _ => if negb (idx =? -1) then [EvPrint (ExceptionAt idx)] else []
            | Ok _ => []
            end).
    split; [now rewrite Htr|]. split; [exact Htail|].
    destruct out; [now left|]. destruct (negb (idx =? -1)); [right; now exists idx|now left]. }
  assert (Hprog : forall tail h : trace,
            (tail = [] \/ exists i, tail = [EvCall i]) ->
            (h = [] \/ exists i, h = [EvPrint (ExceptionAt i)]) ->
            progress tail = [] /\ progress h = []).
  { intros tail h [->|[i ->]] [->|[j ->]]; split; reflexivity. }
  split; [|split; [|split]].
  - destruct (Hshape true) as (tail & h & Htr & Htail & Hh).
    destruct (Hprog tail h Htail Hh) as [Ht Hp].
    rewrite Htr, !progress_app, progress_row_events, Ht, Hp.
    cbn [app]. now rewrite app_nil_r.
  - destruct (Hshape true) as (tail & h & Htr & _).
    exists ((flat_map (row_events true pipe)
               (completed ds _apply_field func (Py.range (__len__ ds))) ++ tail) ++ h).
    rewrite Htr. cbn [app]. rewrite <- !app_assoc. reflexivity.
  - destruct (Hshape false) as (tail & h & Htr & Htail & Hh).
    destruct (Hprog tail h Htail Hh) as [Ht Hp].
    rewrite Htr, !progress_app, progress_row_events, Ht, Hp. reflexivity.
  - intros show. rewrite apply_single_sends.
    destruct (single_loop_spec ds _apply_field func show None (Py.range (__len__ ds))
                (-1) []) as (tail & Htr & Hs & _).
    rewrite Htr, sends_app, Hs, app_nil_r. apply sends_no_pipe.
Qed.

(** ** [delete_instance] and [append] at their edges *)

(** X21. [delete_instance] with an index [>= len(self)] raises
    [IndexError]; so does, on a dataset with two or more rows, an index
    below [-len(self)], where the first column already refuses the index.
    Both leave the store as it was.  On a dataset without fields a negative
    index is accepted and nothing happens. *)
Theorem delete_instance_errors (self : DataSet) (index : Z) :
  (__len__ self <= index -> delete_instance self index = (self, Err IndexError)) /\
  (2 <= __len__ self -> index < - __len__ self ->
   delete_instance self index = (self, Err IndexError)) /\
  (field_arrays self = [] -> index < 0 -> delete_instance self index = (self, Ok tt)).
Proof.
  split; [|split].
  - intros H. unfold delete_instance. destruct (Z.leb_spec (__len__ self) index); [|lia].
    reflexivity.
  - intros HN Hi. unfold delete_instance.
    destruct (Z.leb_spec (__len__ self) index); [lia|].
    destruct (Z.eqb_spec (__len__ self) 1); [lia|].
    destruct self as [[|[k f] cols]]; [unfold __len__ in HN; simpl in HN; lia|].
    cbn [field_arrays pop_all]. unfold fa_pop, Py.pop.
    assert (Hf : Py.len (content f) = __len__ (mkDataSet ((k, f) :: cols))) by reflexivity.
    rewrite Hf, norm_index_outside by (now right). reflexivity.
  - intros Hnil Hi. unfold delete_instance, __len__. rewrite Hnil.
    destruct (Z.leb_spec 0 index); [lia|]. cbn. destruct self as [cols].
    cbn [field_arrays] in Hnil. now rewrite Hnil.
Qed.

Lemma delete_instance_errors_witness :
  delete_instance ex_xy4 4 = (ex_xy4, Err IndexError)
  /\ delete_instance ex_xy4 (-5) = (ex_xy4, Err IndexError).
Proof.
  split.
  - destruct (delete_instance_errors ex_xy4 4) as [H _]. apply H. vm_compute. congruence.
  - destruct (delete_instance_errors ex_xy4 (-5)) as (_ & H & _).
    apply H; vm_compute; congruence.
Defined.

(** X22. [append].  On a dataset without fields the row defines them:
    one column per field of the row, in the order of the row, holding its
    value.  On a dataset with fields, a row with another number of fields
    raises [ValueError] and changes nothing; a row with the field names of
    the dataset, in any order, leaves the fields, their order and their
    names and puts its value of every field at the end of that column. *)
Theorem append_extends_columns (self : DataSet) (r : Py.dict pyval) :
  (field_arrays self = [] -> NoDup (Py.keys r) ->
   append self (mkInstance r)
   = (mkDataSet (map (fun kv => (fst kv, mkFieldArray (fst kv) [snd kv])) r), Ok tt)) /\
  (field_arrays self <> [] -> Py.len r <> Py.len (field_arrays self) ->
   append self (mkInstance r) = (self, Err ValueError)) /\
  (field_arrays self <> [] -> distinct_fields self ->
   same_keys (Py.keys (field_arrays self)) r ->
   append self (mkInstance r)
   = (mkDataSet (map (fun kf => (fst kf, fa_append (snd kf) (value_of (fst kf) r)))
                   (field_arrays self)),
      Ok tt)).
Proof.
  split; [|split].
  - intros Hnil Hnd. unfold append, ins_items. rewrite Hnil. cbn [fields].
    change (Py.len (@nil (string * FieldArray)) =? 0) with true. cbv iota.
    now rewrite append_seed_fresh.
  - intros Hne Hlen. unfold append. cbn [fields].
    destruct (Z.eqb_spec (Py.len (field_arrays self)) 0) as [Hz|_].
    { unfold Py.len in Hz. destruct (field_arrays self); [contradiction|simpl in Hz; lia]. }
    destruct (Z.eqb_spec (Py.len (field_arrays self)) (Py.len r)); [congruence|reflexivity].
  - intros Hne Hd Hsame. destruct self as [cols]. cbn [field_arrays] in *.
    now apply append_aligned.
Qed.

Lemma append_extends_columns_witness :
  append ex_two_rows ex_row
  = (mkDataSet [("x", mkFieldArray "x" [VInt 1; VInt 2; VInt 5]);
                ("y", mkFieldArray "y" [VStr "a"; VStr "b"; VStr "e"])],
     Ok tt)
  /\ append ex_two_rows (mkInstance [("x", VInt 5)]) = (ex_two_rows, Err ValueError).
Proof.
  split.
  - destruct (append_extends_columns ex_two_rows [("y", VStr "e"); ("x", VInt 5)])
      as (_ & _ & H).
    apply H.
    + discriminate.
    + apply distinctb_NoDup. reflexivity.
    + split; [apply distinctb_NoDup; reflexivity|].
      split; intros k Hk; simpl in *; tauto.
  - destruct (append_extends_columns ex_two_rows [("x", VInt 5)]) as (_ & H & _).
    apply H; [discriminate|vm_compute; congruence].
Defined.

(** ** A result that is no dict *)

(** X23. The merger of [apply_more] and [apply_field_more] when a result
    is no dict.  A first result that is no dict raises the exception with
    the text [The result of func is not a dict] and prints nothing.  A
    later one, after results with the fields of the first, raises
    [AttributeError] where its keys are asked for; the position printed is
    that of the row, counted from the second row as 1, and the results
    before it were merged. *)
Theorem merge_non_dict_row (row : pyval) (rest : list pyval) :
  (forall d, row <> VDict d) ->
  merge (row :: rest) = ([], [], Err (PlainException "The result of func is not a dict")) /\
  forall d0 pre,
    NoDup (Py.keys d0) -> Forall (same_fields (Py.keys d0)) pre ->
    exists results,
      merge (VDict d0 :: pre ++ row :: rest)
      = ([EvPrint (ExceptionAt (Py.len pre + 1))], results, Err AttributeError)
      /\ Py.keys results = Py.keys d0
      /\ all_len results (1 + List.length pre).
Proof.
  intros Hrow. split.
  - destruct row; try reflexivity. exfalso. now apply (Hrow d).
  - intros d0 pre Hnd Hpre.
    assert (Hseed : merge_seed [] d0 = map (fun kv => (fst kv, [snd kv])) d0)
      by (now rewrite merge_seed_fresh).
    assert (Hkeys0 : Py.keys (merge_seed [] d0) = Py.keys d0).
    { rewrite Hseed. apply (keys_map_values (fun _ v => [v])). }
    destruct (merge_loop_same_fields pre (merge_seed [] d0) 0 (-1) 1)
      as (results & Hk & Hall & Hloop).
    { now rewrite Hkeys0. }
    { apply merge_seed_len. intros k col []. }
    { now rewrite Hkeys0. }
    exists results. split; [|split; [now rewrite Hk|exact Hall]].
    unfold merge. rewrite Hloop.
    assert (Hidx : negb (Py.len pre =? -1) = true).
    { unfold Py.len.
      destruct (Z.eqb_spec (Z.of_nat (List.length pre)) (-1)); [lia|reflexivity]. }
    destruct row; try (exfalso; now apply (Hrow d));
      cbn [merge_loop]; rewrite Z.add_0_l, Hidx; reflexivity.
Qed.

Lemma merge_non_dict_row_witness :
  exists results,
    merge [row_ab; row_ab; VInt 3; row_ab]
    = ([EvPrint (ExceptionAt 2)], results, Err AttributeError)
    /\ Py.keys results = ["a"; "b"]
    /\ all_len results 2.
Proof.
  destruct (merge_non_dict_row (VInt 3) [row_ab]) as [_ H]; [discriminate|].
  apply (H [("a", VInt 1); ("b", VInt 2)] [row_ab]).
  - apply distinctb_NoDup. reflexivity.
  - constructor; [|constructor].
    exists [("a", VInt 1); ("b", VInt 2)]. split; [reflexivity|].
    split; [apply distinctb_NoDup; reflexivity|]. split; apply incl_refl.
Defined.
